(** * MCA UART engine (drivers/tty/serial/mca-cc6ul-uart.c)

    A shallow embedding of the interrupt-driven RX/TX engine, the deferred
    control worker and the port operations of the MCA UART driver, and the
    properties of its specification settled against it.

    Layout: constants and data model, the bus and line-discipline
    interfaces, a state monad with a blocking outcome for the mutex, the
    driver functions in source order, an interleaving model of the deferred
    worker against the atomic-context setters, then the theorems. *)

From Stdlib Require Import ZArith List Bool Lia String.
Import ListNotations.
Local Open Scope Z_scope.

(** ** Machine integers *)

(** [unsigned int] and [__u32]: values are kept in [0, 2^32). *)
Definition u32 (x : Z) : Z := x mod 2 ^ 32.

(** [uint8_t]. *)
Definition u8 (x : Z) : Z := x mod 2 ^ 8.

(** [BIT(n)]. *)
Definition BIT (n : Z) : Z := Z.shiftl 1 n.

(** ** Constants defined in the driver *)

Definition MCA_UART_DEFAULT_BRATE : Z := 9600.
Definition MCA_UART_MIN_BAUD : Z := 1200.
Definition MCA_UART_MAX_BAUD : Z := 230400.
Definition MCA_UART_RX_FIFO_SIZE : Z := 128.
Definition MCA_UART_TX_FIFO_SIZE : Z := 128.

Definition MCA_UART_HAS_RTS : Z := BIT 0.
Definition MCA_UART_HAS_CTS : Z := BIT 1.

Definition WORK_STOP_RX : Z := BIT 0.
Definition WORK_STOP_TX : Z := BIT 1.
Definition WORK_SET_RTS : Z := BIT 2.
Definition WORK_CLEAR_RTS : Z := BIT 3.

(** ** Constants the driver takes from headers

    The register map of the companion controller
    (linux/mfd/mca-common/registers.h, linux/mfd/mca-cc6ul/registers.h) is
    outside the driver file: addresses and bit masks are fields of a
    class, and every statement below holds for any register map. *)

Class mca_registers : Type := {
  MCA_REG_UART_CFG0 : Z;
  MCA_REG_UART_CFG1 : Z;
  MCA_REG_UART_IER : Z;
  MCA_REG_UART_IIR : Z;
  MCA_REG_UART_LSR : Z;
  MCA_REG_UART_MSR : Z;
  MCA_REG_UART_BAUD : Z;
  MCA_REG_UART_RXLVL : Z;
  MCA_REG_UART_TXLVL : Z;
  MCA_REG_UART_RHR : Z;
  MCA_REG_UART_THR : Z;
  MCA_REG_UART_RX_ERRORS : Z;
  MCA_REG_UART_CFG0_CTX : Z;
  MCA_REG_UART_CFG0_CRX : Z;
  MCA_REG_UART_CFG0_TXEN : Z;
  MCA_REG_UART_CFG0_RXEN : Z;
  MCA_REG_UART_CFG1_TWO_STOPBITS : Z;
  MCA_REG_UART_CFG1_PARITY_EN : Z;
  MCA_REG_UART_CFG1_PARITY_ODD : Z;
  MCA_REG_UART_CFG1_CTS_EN : Z;
  MCA_REG_UART_CFG1_RTS_EN : Z;
  MCA_REG_UART_CFG1_THROTTLE : Z;
  MCA_REG_UART_IER_THR : Z;
  MCA_REG_UART_IER_RHR : Z;
  MCA_REG_UART_IER_RLSE : Z;
  MCA_REG_UART_IIR_RHR : Z;
  MCA_REG_UART_IIR_THR : Z;
  MCA_REG_UART_IIR_RLSE : Z;
  MCA_REG_UART_LSR_NO_ERROR : Z;
  MCA_REG_UART_LSR_FRAMING_ERROR : Z;
  MCA_REG_UART_LSR_PARITY_ERROR : Z;
  MCA_REG_UART_LSR_FIFO_OR_ERROR : Z;
  MCA_REG_UART_LSR_BREAK : Z;
  MCA_REG_UART_LSR_HW_OR_ERROR : Z;
  MCA_REG_UART_MSR_RTS : Z;
  MCA_REG_UART_BAUD_1200 : Z;
  MCA_REG_UART_BAUD_2400 : Z;
  MCA_REG_UART_BAUD_4800 : Z;
  MCA_REG_UART_BAUD_9600 : Z;
  MCA_REG_UART_BAUD_19200 : Z;
  MCA_REG_UART_BAUD_38400 : Z;
  MCA_REG_UART_BAUD_57600 : Z;
  MCA_REG_UART_BAUD_115200 : Z;
  MCA_REG_UART_BAUD_230400 : Z
}.

(** Constants of the serial core and of the tty layer
    (PAGE_SIZE behind UART_XMIT_SIZE, WAKEUP_CHARS, TIOCSER_TEMT, the modem
    and status bits and the termios flags), likewise taken as given. *)

Class kernel_constants : Type := {
  PAGE_SHIFT : Z;
  WAKEUP_CHARS : Z;
  TIOCSER_TEMT : Z;
  TIOCM_DSR : Z;
  TIOCM_CAR : Z;
  UPSTAT_AUTOCTS : Z;
  UPSTAT_AUTORTS : Z;
  CRTSCTS : Z;
  CSIZE : Z;
  CS8 : Z;
  CSTOPB : Z;
  PARENB : Z;
  PARODD : Z;
  CMSPAR : Z;
  IXON : Z;
  IXOFF : Z;
  IXANY : Z
}.

(** ** Data model *)

(** Classification handed to the line discipline with each byte. *)
Inductive tty_flag : Type :=
  | TTY_NORMAL
  | TTY_BREAK
  | TTY_FRAME
  | TTY_PARITY
  | TTY_OVERRUN.

Inductive irqreturn_t : Type :=
  | IRQ_NONE
  | IRQ_HANDLED.

(** [struct uart_icount], the fields the engine touches (all [__u32]). *)
Record uart_icount : Type := mk_icount {
  ic_rx : Z;
  ic_tx : Z;
  ic_frame : Z;
  ic_parity : Z;
  ic_overrun : Z;
  ic_brk : Z
}.

(** [struct circ_buf]: the transmit ring owned by the line discipline. *)
Record circ_buf : Type := mk_circ {
  cb_buf : list Z;
  cb_head : Z;
  cb_tail : Z
}.

Record tty_struct : Type := mk_tty {
  tty_stopped : bool
}.

Record ktermios : Type := mk_termios {
  c_iflag : Z;
  c_cflag : Z
}.

(** [struct uart_port] together with the parts of [port->state] the engine
    reads: the ring [state->xmit] and the pointer [state->port.tty]
    ([None] is NULL). *)
Record uart_port : Type := mk_port {
  icount : uart_icount;
  status : Z;
  hw_stopped : bool;
  xmit : circ_buf;
  tty : option tty_struct
}.

(** [struct mca_uart].  The mutex is [true] while held; a [work_struct] is
    [true] while it is queued and has not started to run. *)
Record mca_uart : Type := mk_mca_uart {
  port : uart_port;
  mutex : bool;
  pending_work : Z;
  tx_work : bool;
  delayed_work : bool;
  has_rtscts : Z
}.

Inductive work_id : Type :=
  | TX_WORK
  | DELAYED_WORK.

Inductive log_level : Type :=
  | LOG_DBG
  | LOG_WARN
  | LOG_ERR.

(** Result of a bus read: the value, or the negative errno. *)
Inductive result (A : Type) : Type :=
  | Ok (a : A)
  | Err (errno : Z).
Arguments Ok {A} a.
Arguments Err {A} errno.

(** A value read into an [unsigned int]. *)
Definition result_u32 (r : result Z) : result Z :=
  match r with
  | Ok v => Ok (u32 v)
  | Err e => Err e
  end.

(** Everything the engine does to its collaborators, in program order, each
    call with the answer it got. *)
Inductive event : Type :=
  | E_regmap_read (reg : Z) (res : result Z)
  | E_regmap_bulk_read (reg : Z) (count : Z) (res : result (list Z))
  | E_regmap_write (reg : Z) (val : Z) (ret : Z)
  | E_regmap_update_bits (reg : Z) (mask : Z) (val : Z) (ret : Z)
  | E_regmap_bulk_write (reg : Z) (data : list Z) (ret : Z)
  | E_log (lvl : log_level) (msg : string)
  | E_sysrq (ch : Z) (consumed : bool)
  | E_tty_insert_flip_char (ch : Z) (flag : tty_flag) (inserted : Z)
  | E_tty_flip_buffer_push
  | E_uart_write_wakeup
  | E_uart_update_timeout (cflag : Z) (baud : Z)
  | E_schedule_work (w : work_id)
  | E_cancel_work_sync (w : work_id)
  | E_mutex_lock
  | E_mutex_unlock.

(** ** Collaborators

    The bus access layer (regmap over I2C) and the tty layer answer every
    call from a state of their own, about which nothing is assumed: a read
    may fail or return any value at any time, the sink may reject any
    byte.  [uart_get_baud_rate] is handed the termios by pointer and may
    rewrite it (the serial core re-encodes the rate when the one asked for
    is out of range): it answers with the rate and with the termios as it
    leaves it. *)

Class collaborators (HW : Type) : Type := {
  regmap_read : Z -> HW -> result Z * HW;
  regmap_bulk_read : Z -> Z -> HW -> result (list Z) * HW;
  regmap_write : Z -> Z -> HW -> Z * HW;
  regmap_update_bits : Z -> Z -> Z -> HW -> Z * HW;
  regmap_bulk_write : Z -> list Z -> HW -> Z * HW;
  uart_handle_sysrq_char : Z -> HW -> bool * HW;
  tty_insert_flip_char : Z -> tty_flag -> HW -> Z * HW;
  uart_get_baud_rate :
    ktermios -> option ktermios -> Z -> Z -> HW -> (Z * ktermios) * HW
}.

(** ** Helpers of the serial core, as the headers define them *)

Section SerialCore.
Context {K : kernel_constants}.

(** [UART_XMIT_SIZE] is [PAGE_SIZE]. *)
Definition UART_XMIT_SIZE : Z := Z.shiftl 1 PAGE_SHIFT.

(** [uart_circ_empty(circ)]: [head == tail]. *)
Definition uart_circ_empty (c : circ_buf) : bool := cb_head c =? cb_tail c.

(** [uart_circ_chars_pending(circ)]: [CIRC_CNT(head, tail, UART_XMIT_SIZE)],
    that is [(head - tail) & (UART_XMIT_SIZE - 1)]. *)
Definition uart_circ_chars_pending (c : circ_buf) : Z :=
  Z.land (cb_head c - cb_tail c) (UART_XMIT_SIZE - 1).

(** [uart_tx_stopped(port)], for a non-NULL tty. *)
Definition uart_tx_stopped (t : tty_struct) (p : uart_port) : bool :=
  tty_stopped t || hw_stopped p.
End SerialCore.

(** Modelled from the spec: [update_bits(addr, mask, value)] is a
    read-modify-write; the regmap core that implements it is outside the
    driver file.  The register keeps its bits outside [mask] and takes those of
    [val] inside it. *)
Definition update_bits_value (old mask val : Z) : Z :=
  Z.lor (Z.land old (Z.lnot mask)) (Z.land val mask).

(** ** Field updates *)

Definition set_ic_rx (c : uart_icount) (v : Z) : uart_icount :=
  mk_icount v (ic_tx c) (ic_frame c) (ic_parity c) (ic_overrun c) (ic_brk c).
Definition set_ic_tx (c : uart_icount) (v : Z) : uart_icount :=
  mk_icount (ic_rx c) v (ic_frame c) (ic_parity c) (ic_overrun c) (ic_brk c).
Definition set_ic_frame (c : uart_icount) (v : Z) : uart_icount :=
  mk_icount (ic_rx c) (ic_tx c) v (ic_parity c) (ic_overrun c) (ic_brk c).
Definition set_ic_parity (c : uart_icount) (v : Z) : uart_icount :=
  mk_icount (ic_rx c) (ic_tx c) (ic_frame c) v (ic_overrun c) (ic_brk c).
Definition set_ic_overrun (c : uart_icount) (v : Z) : uart_icount :=
  mk_icount (ic_rx c) (ic_tx c) (ic_frame c) (ic_parity c) v (ic_brk c).
Definition set_ic_brk (c : uart_icount) (v : Z) : uart_icount :=
  mk_icount (ic_rx c) (ic_tx c) (ic_frame c) (ic_parity c) (ic_overrun c) v.

Definition set_cb_tail (c : circ_buf) (v : Z) : circ_buf :=
  mk_circ (cb_buf c) (cb_head c) v.

Definition set_icount (p : uart_port) (c : uart_icount) : uart_port :=
  mk_port c (status p) (hw_stopped p) (xmit p) (tty p).
Definition set_status (p : uart_port) (v : Z) : uart_port :=
  mk_port (icount p) v (hw_stopped p) (xmit p) (tty p).
Definition set_xmit (p : uart_port) (x : circ_buf) : uart_port :=
  mk_port (icount p) (status p) (hw_stopped p) x (tty p).

Definition set_port (d : mca_uart) (p : uart_port) : mca_uart :=
  mk_mca_uart p (mutex d) (pending_work d) (tx_work d) (delayed_work d)
    (has_rtscts d).
Definition set_mutex (d : mca_uart) (b : bool) : mca_uart :=
  mk_mca_uart (port d) b (pending_work d) (tx_work d) (delayed_work d)
    (has_rtscts d).
Definition set_pending_work (d : mca_uart) (v : Z) : mca_uart :=
  mk_mca_uart (port d) (mutex d) v (tx_work d) (delayed_work d) (has_rtscts d).
Definition set_tx_work (d : mca_uart) (b : bool) : mca_uart :=
  mk_mca_uart (port d) (mutex d) (pending_work d) b (delayed_work d)
    (has_rtscts d).
Definition set_delayed_work (d : mca_uart) (b : bool) : mca_uart :=
  mk_mca_uart (port d) (mutex d) (pending_work d) (tx_work d) b (has_rtscts d).

Definition get_work (w : work_id) (d : mca_uart) : bool :=
  match w with
  | TX_WORK => tx_work d
  | DELAYED_WORK => delayed_work d
  end.

Definition set_work (w : work_id) (d : mca_uart) (b : bool) : mca_uart :=
  match w with
  | TX_WORK => set_tx_work d b
  | DELAYED_WORK => set_delayed_work d b
  end.

(** ** The execution monad

    A driver function runs on the driver instance, the state of the
    collaborators and the log of what it did to them.  It either returns, or
    blocks for ever on a mutex nobody is going to release. *)

Record sys (HW : Type) : Type := mk_sys {
  drv : mca_uart;
  hw : HW;
  trace : list event
}.
Arguments mk_sys {HW} drv hw trace.
Arguments drv {HW} s.
Arguments hw {HW} s.
Arguments trace {HW} s.

Inductive outcome (HW A : Type) : Type :=
  | Done (a : A) (s : sys HW)
  | Blocked (s : sys HW).
Arguments Done {HW A} a s.
Arguments Blocked {HW A} s.

Definition M (HW A : Type) : Type := sys HW -> outcome HW A.

Definition ret {HW A : Type} (a : A) : M HW A := fun s => Done a s.

Definition bind {HW A B : Type} (m : M HW A) (k : A -> M HW B) : M HW B :=
  fun s =>
    match m s with
    | Done a s' => k a s'
    | Blocked s' => Blocked s'
    end.

Declare Scope drv_scope.
Delimit Scope drv_scope with drv.
Notation "x <- m ;; k" := (bind m (fun x => k))
  (at level 61, m at next level, right associativity) : drv_scope.
Notation "m ;; k" := (bind m (fun _ => k))
  (at level 61, right associativity) : drv_scope.
Local Open Scope drv_scope.

(** The state in which an outcome leaves the system. *)
Definition final {HW A : Type} (o : outcome HW A) : sys HW :=
  match o with
  | Done _ s => s
  | Blocked s => s
  end.

Definition returned {HW A : Type} (o : outcome HW A) : bool :=
  match o with
  | Done _ _ => true
  | Blocked _ => false
  end.

Section Primitives.
Context {HW : Type} {C : collaborators HW}.

Definition emit (e : event) : M HW unit :=
  fun s => Done tt (mk_sys (drv s) (hw s) (trace s ++ [e])).

Definition get_drv : M HW mca_uart := fun s => Done (drv s) s.

Definition modify_drv (f : mca_uart -> mca_uart) : M HW unit :=
  fun s => Done tt (mk_sys (f (drv s)) (hw s) (trace s)).

Definition modify_port (f : uart_port -> uart_port) : M HW unit :=
  modify_drv (fun d => set_port d (f (port d))).

Definition modify_icount (f : uart_icount -> uart_icount) : M HW unit :=
  modify_port (fun p => set_icount p (f (icount p))).

(** A call into a collaborator: it answers and moves to its next state. *)
Definition call {A : Type} (f : HW -> A * HW) : M HW A :=
  fun s => let (a, h) := f (hw s) in Done a (mk_sys (drv s) h (trace s)).

(** The log calls; a message is its format string, less the newline. *)
Definition dev_dbg (msg : string) : M HW unit := emit (E_log LOG_DBG msg).
Definition dev_warn (msg : string) : M HW unit := emit (E_log LOG_WARN msg).
Definition dev_err (msg : string) : M HW unit := emit (E_log LOG_ERR msg).

(** [mutex_lock]: takes the mutex when it is free; a caller that finds it
    held sleeps until a release, which a sequential run never sees. *)
Definition mutex_lock : M HW unit :=
  fun s =>
    if mutex (drv s) then Blocked s
    else Done tt (mk_sys (set_mutex (drv s) true) (hw s)
                    (trace s ++ [E_mutex_lock])).

Definition mutex_unlock : M HW unit :=
  modify_drv (fun d => set_mutex d false) ;; emit E_mutex_unlock.

Definition work_pending (w : work_id) : M HW bool :=
  d <- get_drv ;; ret (get_work w d).

Definition schedule_work (w : work_id) : M HW unit :=
  modify_drv (fun d => set_work w d true) ;; emit (E_schedule_work w).

Definition cancel_work_sync (w : work_id) : M HW unit :=
  modify_drv (fun d => set_work w d false) ;; emit (E_cancel_work_sync w).

(** [regmap_read] into an [unsigned int]. *)
Definition do_regmap_read (reg : Z) : M HW (result Z) :=
  r <- call (regmap_read reg) ;;
  let r := result_u32 r in
  emit (E_regmap_read reg r) ;;
  ret r.

(** [regmap_bulk_read] into a [uint8_t] array. *)
Definition do_regmap_bulk_read (reg count : Z) : M HW (result (list Z)) :=
  r <- call (regmap_bulk_read reg count) ;;
  emit (E_regmap_bulk_read reg count r) ;;
  ret r.

Definition do_regmap_write (reg val : Z) : M HW Z :=
  r <- call (regmap_write reg val) ;;
  emit (E_regmap_write reg val r) ;;
  ret r.

Definition do_regmap_update_bits (reg mask val : Z) : M HW Z :=
  r <- call (regmap_update_bits reg mask val) ;;
  emit (E_regmap_update_bits reg mask val r) ;;
  ret r.

Definition do_regmap_bulk_write (reg : Z) (data : list Z) : M HW Z :=
  r <- call (regmap_bulk_write reg data) ;;
  emit (E_regmap_bulk_write reg data r) ;;
  ret r.

Definition do_uart_handle_sysrq_char (ch : Z) : M HW bool :=
  c <- call (uart_handle_sysrq_char ch) ;;
  emit (E_sysrq ch c) ;;
  ret c.

Definition do_tty_insert_flip_char (ch : Z) (flag : tty_flag) : M HW Z :=
  r <- call (tty_insert_flip_char ch flag) ;;
  emit (E_tty_insert_flip_char ch flag r) ;;
  ret r.

Definition tty_flip_buffer_push : M HW unit := emit E_tty_flip_buffer_push.

Definition uart_write_wakeup : M HW unit := emit E_uart_write_wakeup.

Definition uart_update_timeout (cflag baud : Z) : M HW unit :=
  emit (E_uart_update_timeout cflag baud).
End Primitives.


(** ** The driver, in source order *)

(** A C condition [x & m]: true when some bit of [m] is set in [x]. *)
Definition tst (x m : Z) : bool := negb (Z.land x m =? 0).

Section Driver.
Context {R : mca_registers} {K : kernel_constants}.
Context {HW : Type} {C : collaborators HW}.

(** [if (!work_pending(w)) schedule_work(w);] *)
Definition schedule_if_idle (w : work_id) : M HW unit :=
  p <- work_pending w ;;
  if p then ret tt else schedule_work w.

Definition mca_uart_stop_tx : M HW unit :=
  dev_dbg "<%s>" ;;
  modify_drv (fun d =>
    set_pending_work d (Z.lor (pending_work d) WORK_STOP_TX)) ;;
  schedule_if_idle DELAYED_WORK.

Definition mca_uart_stop_rx : M HW unit :=
  dev_dbg "<%s>" ;;
  modify_drv (fun d =>
    set_pending_work d (Z.lor (pending_work d) WORK_STOP_RX)) ;;
  schedule_if_idle DELAYED_WORK.

Definition mca_uart_start_tx : M HW unit :=
  dev_dbg "<%s>" ;;
  schedule_if_idle TX_WORK.

Definition mca_uart_tx_empty : M HW Z :=
  dev_dbg "<%s>" ;;
  r <- do_regmap_read MCA_REG_UART_TXLVL ;;
  match r with
  | Err _ =>
      dev_err "Failed to read MCA_REG_UART_TXLVL" ;;
      ret TIOCSER_TEMT
  | Ok txlvl =>
      ret (if txlvl =? MCA_UART_TX_FIFO_SIZE then TIOCSER_TEMT else 0)
  end.

Definition mca_uart_get_mctrl : M HW Z :=
  dev_dbg "<%s>" ;;
  ret (Z.lor TIOCM_DSR TIOCM_CAR).

Definition mca_uart_set_mctrl (mctrl : Z) : M HW unit :=
  dev_dbg "<%s>".

(** [MCA_UART_DEFAULT_BAUD_REG]. *)
Definition MCA_UART_DEFAULT_BAUD_REG : Z := MCA_REG_UART_BAUD_9600.

(** The [switch (baudrate)] of [mca_uart_set_termios]: the register value,
    and whether the [default:] arm was taken. *)
Definition baud_reg_val (baudrate : Z) : Z * bool :=
  if baudrate =? 1200 then (MCA_REG_UART_BAUD_1200, false)
  else if baudrate =? 2400 then (MCA_REG_UART_BAUD_2400, false)
  else if baudrate =? 4800 then (MCA_REG_UART_BAUD_4800, false)
  else if baudrate =? 9600 then (MCA_REG_UART_BAUD_9600, false)
  else if baudrate =? 19200 then (MCA_REG_UART_BAUD_19200, false)
  else if baudrate =? 38400 then (MCA_REG_UART_BAUD_38400, false)
  else if baudrate =? 57600 then (MCA_REG_UART_BAUD_57600, false)
  else if baudrate =? 115200 then (MCA_REG_UART_BAUD_115200, false)
  else if baudrate =? 230400 then (MCA_REG_UART_BAUD_230400, false)
  else (MCA_UART_DEFAULT_BAUD_REG, true).

(** The rates the configuration surface lists, each with its register
    value. *)
Definition baud_table : list (Z * Z) :=
  [ (1200, MCA_REG_UART_BAUD_1200); (2400, MCA_REG_UART_BAUD_2400);
    (4800, MCA_REG_UART_BAUD_4800); (9600, MCA_REG_UART_BAUD_9600);
    (19200, MCA_REG_UART_BAUD_19200); (38400, MCA_REG_UART_BAUD_38400);
    (57600, MCA_REG_UART_BAUD_57600); (115200, MCA_REG_UART_BAUD_115200);
    (230400, MCA_REG_UART_BAUD_230400) ].

(** The head of [mca_uart_set_termios], "Mask unsupported termios
    capabilities" and "Only 8-bit size supported": the termios as the
    function leaves it. *)
Definition mask_termios (d : mca_uart) (termios : ktermios) : ktermios :=
  let cflag :=
    if has_rtscts d =? 0
    then Z.land (c_cflag termios) (Z.lnot CRTSCTS)
    else c_cflag termios in
  let iflag :=
    Z.land (c_iflag termios)
      (Z.lnot (Z.lor (Z.lor (Z.lor (Z.lor IXON IXOFF) IXANY) CMSPAR) CSIZE)) in
  mk_termios iflag (Z.lor cflag CS8).

(** The value built for [MCA_REG_UART_CFG1] from the masked [c_cflag]. *)
Definition frame_cfg1 (d : mca_uart) (cflag : Z) : Z :=
  let cfg1 := 0 in
  let cfg1 := if tst cflag CSTOPB
              then Z.lor cfg1 MCA_REG_UART_CFG1_TWO_STOPBITS else cfg1 in
  let cfg1 := if tst cflag PARENB
              then Z.lor cfg1 MCA_REG_UART_CFG1_PARITY_EN else cfg1 in
  let cfg1 := if tst cflag PARODD
              then Z.lor cfg1 MCA_REG_UART_CFG1_PARITY_ODD else cfg1 in
  if tst cflag CRTSCTS then
    let cfg1 := if tst (has_rtscts d) MCA_UART_HAS_CTS
                then Z.lor cfg1 MCA_REG_UART_CFG1_CTS_EN else cfg1 in
    if tst (has_rtscts d) MCA_UART_HAS_RTS
    then Z.lor cfg1 MCA_REG_UART_CFG1_RTS_EN else cfg1
  else cfg1.

(** The updates of [port->status] made on the way. *)
Definition flow_status (d : mca_uart) (cflag : Z) (p : uart_port)
  : uart_port :=
  if tst cflag CRTSCTS then
    let p := if tst (has_rtscts d) MCA_UART_HAS_CTS
             then set_status p (Z.lor (status p) UPSTAT_AUTOCTS) else p in
    if tst (has_rtscts d) MCA_UART_HAS_RTS
    then set_status p (Z.lor (status p) UPSTAT_AUTORTS) else p
  else
    set_status p
      (Z.land (status p) (Z.lnot (Z.lor UPSTAT_AUTOCTS UPSTAT_AUTORTS))).

(** [mca_uart_set_termios]: returns the termios as the call leaves it: it
    masks it in place, and the serial core may rewrite it again in
    [uart_get_baud_rate]; the [c_cflag] handed to [uart_update_timeout] is
    read after that. *)
Definition mca_uart_set_termios (termios : ktermios) (old : option ktermios)
  : M HW ktermios :=
  dev_dbg "<%s>" ;;
  d <- get_drv ;;
  let termios := mask_termios d termios in
  let cfg1 := frame_cfg1 d (c_cflag termios) in
  modify_port (flow_status d (c_cflag termios)) ;;
  r <- do_regmap_write MCA_REG_UART_CFG1 cfg1 ;;
  if negb (r =? 0) then
    dev_err "Failed to write MCA_REG_UART_CFG1" ;;
    ret termios
  else
    answer <- call (uart_get_baud_rate termios old MCA_UART_MIN_BAUD
                      MCA_UART_MAX_BAUD) ;;
    let baudrate := u32 (fst answer) in
    let termios := snd answer in
    uart_update_timeout (c_cflag termios) baudrate ;;
    let (baud_reg, dflt) := baud_reg_val baudrate in
    (if dflt
     then dev_warn "Baud rate %d not supported, using default %d"
     else ret tt) ;;
    r <- do_regmap_write MCA_REG_UART_BAUD baud_reg ;;
    (if negb (r =? 0)
     then dev_err "Failed to write MCA_REG_UART_BAUD"
     else ret tt) ;;
    ret termios.

Definition mca_uart_startup : M HW Z :=
  dev_dbg "<%s>" ;;
  let cfg_mask :=
    Z.lor (Z.lor (Z.lor MCA_REG_UART_CFG0_CTX MCA_REG_UART_CFG0_CRX)
             MCA_REG_UART_CFG0_TXEN) MCA_REG_UART_CFG0_RXEN in
  r <- do_regmap_update_bits MCA_REG_UART_CFG0 cfg_mask cfg_mask ;;
  if negb (r =? 0) then
    dev_err "Failed to read MCA_REG_UART_CFG0" ;;
    ret r
  else
    let ier_mask :=
      Z.lor (Z.lor MCA_REG_UART_IER_THR MCA_REG_UART_IER_RHR)
        MCA_REG_UART_IER_RLSE in
    r <- do_regmap_update_bits MCA_REG_UART_IER ier_mask ier_mask ;;
    (if negb (r =? 0)
     then dev_err "Failed to read MCA_REG_UART_IER"
     else ret tt) ;;
    ret r.


Definition mca_uart_throttle : M HW unit :=
  dev_dbg "<%s>" ;;
  mutex_lock ;;
  r <- do_regmap_update_bits MCA_REG_UART_CFG1 MCA_REG_UART_CFG1_THROTTLE
         MCA_REG_UART_CFG1_THROTTLE ;;
  (if negb (r =? 0)
   then dev_err "Failed to write MCA_REG_UART_CFG1"
   else ret tt) ;;
  mutex_unlock.

Definition mca_uart_unthrottle : M HW unit :=
  dev_dbg "<%s>" ;;
  mutex_lock ;;
  r <- do_regmap_update_bits MCA_REG_UART_CFG1 MCA_REG_UART_CFG1_THROTTLE 0 ;;
  (if negb (r =? 0)
   then dev_err "Failed to write MCA_REG_UART_CFG1"
   else ret tt) ;;
  mutex_unlock.

(** The [for] loop of [mca_uart_handle_tx] that converts [to_send] bytes of
    the ring to a linear buffer, advancing the tail one byte at a time. *)
Fixpoint circ_to_linear (n : nat) (x : circ_buf) : list Z * circ_buf :=
  match n with
  | O => ([], x)
  | S n' =>
      let ch := u8 (nth (Z.to_nat (cb_tail x)) (cb_buf x) 0) in
      let x' := set_cb_tail x (Z.land (cb_tail x + 1) (UART_XMIT_SIZE - 1)) in
      let (l, x'') := circ_to_linear n' x' in
      (ch :: l, x'')
  end.

(** The last statement of [mca_uart_handle_tx]. *)
Definition tx_write_wakeup : M HW unit :=
  d <- get_drv ;;
  if uart_circ_chars_pending (xmit (port d)) <? WAKEUP_CHARS
  then uart_write_wakeup
  else ret tt.

Definition mca_uart_handle_tx : M HW unit :=
  d <- get_drv ;;
  match tty (port d) with
  | None => ret tt
  | Some t =>
    if uart_circ_empty (xmit (port d)) || uart_tx_stopped t (port d)
    then ret tt
    else
      let to_send := uart_circ_chars_pending (xmit (port d)) in
      if to_send =? 0 then tx_write_wakeup
      else
        r <- do_regmap_read MCA_REG_UART_TXLVL ;;
        txlen <- match r with
                 | Ok v => ret v
                 | Err _ =>
                     dev_err "Failed to read MCA_REG_UART_TXLVL" ;;
                     ret 0
                 end ;;
        if txlen =? 0 then
          dev_dbg "TX FIFO is full" ;;
          schedule_if_idle TX_WORK
        else if txlen >? MCA_UART_TX_FIFO_SIZE then
          dev_err "Invalid MCA_REG_UART_TXLVL value %d" ;;
          schedule_if_idle TX_WORK
        else
          let to_send := if to_send >? txlen then txlen else to_send in
          modify_icount (fun c => set_ic_tx c (u32 (ic_tx c + to_send))) ;;
          d <- get_drv ;;
          let (tx_buf, x') :=
            circ_to_linear (Z.to_nat to_send) (xmit (port d)) in
          modify_port (fun p => set_xmit p x') ;;
          r <- do_regmap_bulk_write MCA_REG_UART_THR tx_buf ;;
          (if negb (r =? 0)
           then dev_err "Failed to write MCA_REG_UART_THR"
           else ret tt) ;;
          tx_write_wakeup
  end.

(** The [switch (error_buf[i])] of the receive loop. *)
Definition rx_classify (code : Z) : M HW tty_flag :=
  if code =? MCA_REG_UART_LSR_FRAMING_ERROR then
    modify_icount (fun c => set_ic_frame c (u32 (ic_frame c + 1))) ;;
    ret TTY_FRAME
  else if code =? MCA_REG_UART_LSR_PARITY_ERROR then
    modify_icount (fun c => set_ic_parity c (u32 (ic_parity c + 1))) ;;
    ret TTY_PARITY
  else if code =? MCA_REG_UART_LSR_FIFO_OR_ERROR then
    modify_icount (fun c => set_ic_overrun c (u32 (ic_overrun c + 1))) ;;
    ret TTY_OVERRUN
  else if (code =? MCA_REG_UART_LSR_BREAK)
          || (code =? MCA_REG_UART_LSR_HW_OR_ERROR) then
    modify_icount (fun c => set_ic_brk c (u32 (ic_brk c + 1))) ;;
    ret TTY_BREAK
  else
    ret TTY_NORMAL.

(** The receive loop, [n] iterations left, at index [i]; [flag] is the
    function-scope variable that survives from one iteration to the next. *)
Fixpoint rx_loop (n : nat) (i : Z) (has_errors : bool)
  (rx_buf error_buf : list Z) (flag : tty_flag) : M HW unit :=
  match n with
  | O => ret tt
  | S n' =>
      let ch := u8 (nth (Z.to_nat i) rx_buf 0) in
      c <- do_uart_handle_sysrq_char ch ;;
      if c then rx_loop n' (i + 1) has_errors rx_buf error_buf flag
      else
        flag' <- (if has_errors
                  then rx_classify (u8 (nth (Z.to_nat i) error_buf 0))
                  else ret flag) ;;
        r <- do_tty_insert_flip_char ch flag' ;;
        if r =? 0 then
          dev_err "tty_insert_flip_char failed for %x" ;;
          modify_icount (fun c => set_ic_overrun c (u32 (ic_overrun c + 1)))
        else rx_loop n' (i + 1) has_errors rx_buf error_buf flag'
  end.

(** From the data bulk read to the end of [mca_uart_handle_rx].  [rx_buf]
    is [uint8_t rx_buf[MCA_UART_RX_FIFO_SIZE]] in the source, which reads
    [rxlen] bytes into it without a bound on [rxlen]: for [rxlen] up to the
    size of the array this is the code; above it the C code writes past the
    array and is undefined from the bulk read on, and what follows here is
    only the calls the code goes on to issue as if the array were long
    enough. *)
Definition rx_data (rxlen : Z) (has_errors : bool) (error_buf : list Z)
  : M HW unit :=
  r <- do_regmap_bulk_read MCA_REG_UART_RHR rxlen ;;
  r <- match r with
       | Ok b => ret (Ok b)
       | Err _ =>
           dev_warn "Failed to read MCA_REG_UART_RHR %d, retrying" ;;
           do_regmap_bulk_read MCA_REG_UART_RHR rxlen
       end ;;
  match r with
  | Err _ => dev_err "Failed to read MCA_REG_UART_RHR %d"
  | Ok rx_buf =>
      modify_icount (fun c => set_ic_rx c (u32 (ic_rx c + rxlen))) ;;
      rx_loop (Z.to_nat rxlen) 0 has_errors rx_buf error_buf TTY_NORMAL
  end ;;
  tty_flip_buffer_push.

(** [mca_uart_handle_rx].  [error_buf] is
    [uint8_t error_buf[MCA_UART_RX_FIFO_SIZE]], filled with [rxlen] codes
    under the same absence of a bound as [rx_buf]. *)
Definition mca_uart_handle_rx (has_errors : bool) : M HW unit :=
  dev_dbg "<%s>" ;;
  r <- do_regmap_read MCA_REG_UART_RXLVL ;;
  match r with
  | Err _ => dev_err "Failed to read MCA_REG_UART_RXLVL"
  | Ok rxlen =>
    if rxlen =? 0 then ret tt
    else if has_errors then
      r <- do_regmap_read MCA_REG_UART_LSR ;;
      match r with
      | Err _ => dev_err "Failed to read MCA_REG_UART_LSR"
      | Ok lsr =>
        if negb (lsr =? 0) then
          r <- do_regmap_bulk_read MCA_REG_UART_RX_ERRORS rxlen ;;
          match r with
          | Err _ => dev_err "Failed to read MCA_REG_UART_RX_ERRORS"
          | Ok error_buf => rx_data rxlen true error_buf
          end
        else rx_data rxlen false []
      end
    else rx_data rxlen false []
  end.

Definition mca_uart_irq_handler : M HW irqreturn_t :=
  dev_dbg "<%s>" ;;
  mutex_lock ;;
  r <- do_regmap_read MCA_REG_UART_IIR ;;
  match r with
  | Err _ =>
      dev_err "Failed to read MCA_REG_UART_IIR" ;;
      ret IRQ_HANDLED
  | Ok iir =>
      (if tst iir MCA_REG_UART_IIR_RHR
       then mca_uart_handle_rx (tst iir MCA_REG_UART_IIR_RLSE)
       else ret tt) ;;
      (if tst iir MCA_REG_UART_IIR_THR
       then schedule_if_idle TX_WORK
       else ret tt) ;;
      mutex_unlock ;;
      ret IRQ_HANDLED
  end.

Definition mca_uart_delayed_work_proc : M HW unit :=
  dev_dbg "<%s>" ;;
  mutex_lock ;;
  d <- get_drv ;;
  if pending_work d =? 0 then ret tt
  else
    let ier_mask := 0 in
    let cfg0_mask := 0 in
    d <- get_drv ;;
    let rx := tst (pending_work d) WORK_STOP_RX in
    let ier_mask := if rx then Z.lor ier_mask MCA_REG_UART_IER_RHR
                    else ier_mask in
    let cfg0_mask := if rx then Z.lor cfg0_mask MCA_REG_UART_CFG0_CRX
                     else cfg0_mask in
    d <- get_drv ;;
    let tx := tst (pending_work d) WORK_STOP_TX in
    let ier_mask := if tx then Z.lor ier_mask MCA_REG_UART_IER_THR
                    else ier_mask in
    let cfg0_mask := if tx then Z.lor cfg0_mask MCA_REG_UART_CFG0_CTX
                     else cfg0_mask in
    r <- do_regmap_update_bits MCA_REG_UART_IER ier_mask 0 ;;
    (if negb (r =? 0)
     then dev_err "Failed to write MCA_REG_UART_IER"
     else ret tt) ;;
    r <- do_regmap_update_bits MCA_REG_UART_CFG0 cfg0_mask
           (Z.lor MCA_REG_UART_CFG0_CRX MCA_REG_UART_CFG0_CRX) ;;
    (if negb (r =? 0)
     then dev_err "Failed to write MCA_REG_UART_CFG0"
     else ret tt) ;;
    d <- get_drv ;;
    (if tst (pending_work d) WORK_SET_RTS
        || tst (pending_work d) WORK_CLEAR_RTS then
       d <- get_drv ;;
       let msr_mask := u8 (if tst (pending_work d) WORK_SET_RTS
                           then MCA_REG_UART_MSR_RTS else 0) in
       r <- do_regmap_update_bits MCA_REG_UART_MSR MCA_REG_UART_MSR_RTS
              msr_mask ;;
       if negb (r =? 0)
       then dev_err "Failed to write MCA_REG_UART_MSR"
       else ret tt
     else ret tt) ;;
    modify_drv (fun d => set_pending_work d 0) ;;
    mutex_unlock.

Definition mca_uart_tx_work_proc : M HW unit :=
  dev_dbg "<%s>" ;;
  mutex_lock ;;
  mca_uart_handle_tx ;;
  mutex_unlock.

End Driver.

(** ** A scripted board for concrete runs

    A register map with distinct addresses and single-bit masks, the values
    of the kernel constants on a 4 KiB-page build, and collaborators that
    answer from a script: what each register reads, how many bulk reads fail
    before one succeeds, how many bytes the sink still accepts. *)

#[local] Instance board_registers : mca_registers := {|
  MCA_REG_UART_CFG0 := 0x700;
  MCA_REG_UART_CFG1 := 0x701;
  MCA_REG_UART_IER := 0x702;
  MCA_REG_UART_IIR := 0x703;
  MCA_REG_UART_LSR := 0x704;
  MCA_REG_UART_MSR := 0x705;
  MCA_REG_UART_BAUD := 0x706;
  MCA_REG_UART_RXLVL := 0x707;
  MCA_REG_UART_TXLVL := 0x708;
  MCA_REG_UART_RHR := 0x709;
  MCA_REG_UART_THR := 0x70a;
  MCA_REG_UART_RX_ERRORS := 0x70b;
  MCA_REG_UART_CFG0_CTX := BIT 1;
  MCA_REG_UART_CFG0_CRX := BIT 2;
  MCA_REG_UART_CFG0_TXEN := BIT 3;
  MCA_REG_UART_CFG0_RXEN := BIT 4;
  MCA_REG_UART_CFG1_TWO_STOPBITS := BIT 0;
  MCA_REG_UART_CFG1_PARITY_EN := BIT 1;
  MCA_REG_UART_CFG1_PARITY_ODD := BIT 2;
  MCA_REG_UART_CFG1_CTS_EN := BIT 3;
  MCA_REG_UART_CFG1_RTS_EN := BIT 4;
  MCA_REG_UART_CFG1_THROTTLE := BIT 5;
  MCA_REG_UART_IER_THR := BIT 0;
  MCA_REG_UART_IER_RHR := BIT 1;
  MCA_REG_UART_IER_RLSE := BIT 2;
  MCA_REG_UART_IIR_RHR := BIT 1;
  MCA_REG_UART_IIR_THR := BIT 0;
  MCA_REG_UART_IIR_RLSE := BIT 2;
  MCA_REG_UART_LSR_NO_ERROR := 0;
  MCA_REG_UART_LSR_FRAMING_ERROR := 1;
  MCA_REG_UART_LSR_PARITY_ERROR := 2;
  MCA_REG_UART_LSR_FIFO_OR_ERROR := 4;
  MCA_REG_UART_LSR_BREAK := 8;
  MCA_REG_UART_LSR_HW_OR_ERROR := 16;
  MCA_REG_UART_MSR_RTS := BIT 0;
  MCA_REG_UART_BAUD_1200 := 0;
  MCA_REG_UART_BAUD_2400 := 1;
  MCA_REG_UART_BAUD_4800 := 2;
  MCA_REG_UART_BAUD_9600 := 3;
  MCA_REG_UART_BAUD_19200 := 4;
  MCA_REG_UART_BAUD_38400 := 5;
  MCA_REG_UART_BAUD_57600 := 6;
  MCA_REG_UART_BAUD_115200 := 7;
  MCA_REG_UART_BAUD_230400 := 8
|}.

#[local] Instance board_constants : kernel_constants := {|
  PAGE_SHIFT := 12;
  WAKEUP_CHARS := 256;
  TIOCSER_TEMT := 1;
  TIOCM_DSR := 0x100;
  TIOCM_CAR := 0x040;
  UPSTAT_AUTORTS := BIT 2;
  UPSTAT_AUTOCTS := BIT 3;
  CRTSCTS := 0x80000000;
  CSIZE := 0x30;
  CS8 := 0x30;
  CSTOPB := 0x40;
  PARENB := 0x100;
  PARODD := 0x200;
  CMSPAR := 0x40000000;
  IXON := 0x400;
  IXOFF := 0x1000;
  IXANY := 0x800
|}.

Record script : Type := mk_script {
  sc_read : Z -> result Z;
  sc_bulk_failures : nat;
  sc_bulk : Z -> list Z;
  sc_write_ret : Z;
  sc_sink_room : nat;
  sc_sysrq : Z -> bool;
  sc_baud : Z
}.

Definition script_bulk_read (reg count : Z) (h : script)
  : result (list Z) * script :=
  match sc_bulk_failures h with
  | S k =>
      (Err (-5),
       mk_script (sc_read h) k (sc_bulk h) (sc_write_ret h) (sc_sink_room h)
         (sc_sysrq h) (sc_baud h))
  | O => (Ok (firstn (Z.to_nat count) (sc_bulk h reg)), h)
  end.

Definition script_insert (ch : Z) (flag : tty_flag) (h : script)
  : Z * script :=
  match sc_sink_room h with
  | S k =>
      (1,
       mk_script (sc_read h) (sc_bulk_failures h) (sc_bulk h) (sc_write_ret h)
         k (sc_sysrq h) (sc_baud h))
  | O => (0, h)
  end.

#[local] Instance script_collaborators : collaborators script := {|
  regmap_read := fun reg h => (sc_read h reg, h);
  regmap_bulk_read := script_bulk_read;
  regmap_write := fun _ _ h => (sc_write_ret h, h);
  regmap_update_bits := fun _ _ _ h => (sc_write_ret h, h);
  regmap_bulk_write := fun _ _ h => (sc_write_ret h, h);
  uart_handle_sysrq_char := fun ch h => (sc_sysrq h ch, h);
  tty_insert_flip_char := script_insert;
  uart_get_baud_rate := fun t _ _ _ h => ((sc_baud h, t), h)
|}.

(** A board on which every access succeeds: registers read [v], bulk reads
    return [data], the sink has room for [room] bytes. *)
Definition quiet_board (v : Z) (data : list Z) (room : nat) : script :=
  mk_script (fun _ => Ok v) 0 (fun _ => data) 0 room (fun _ => false) 9600.

(** A board whose bus fails every write with -EIO. *)
Definition write_failing_board (v : Z) (baud : Z) : script :=
  mk_script (fun _ => Ok v) 0 (fun _ => []) (-5) 0 (fun _ => false) baud.

(** A board whose bus fails every register read with -EIO. *)
Definition read_failing_board : script :=
  mk_script (fun _ => Err (-5)) 0 (fun _ => []) 0 0 (fun _ => false) 9600.

Definition icount0 : uart_icount := mk_icount 0 0 0 0 0 0.

(** An open port whose transmit ring holds [data] from index 0. *)
Definition open_port (data : list Z) : uart_port :=
  mk_port icount0 0 false (mk_circ data (Z.of_nat (List.length data)) 0)
    (Some (mk_tty false)).

Definition idle_uart (data : list Z) (pending : Z) : mca_uart :=
  mk_mca_uart (open_port data) false pending false false
    (Z.lor MCA_UART_HAS_RTS MCA_UART_HAS_CTS).

Definition boot (d : mca_uart) (h : script) : sys script := mk_sys d h [].

(** ** The deferred worker against the atomic-context setters

    [mca_uart_stop_tx] and [mca_uart_stop_rx] take no lock, so they can run
    between any two accesses the worker makes to [pending_work].  The worker
    is cut at those accesses: one program point per read or write of the
    shared word and per bus call, with its two local masks carried along.
    The setters run as one indivisible step each, which is the most the
    code can hope for. *)

Inductive worker_pc : Type :=
  | W_entry        (* dev_dbg, mutex_lock *)
  | W_check        (* if (!pending_work) return *)
  | W_stop_rx      (* if (pending_work & WORK_STOP_RX) *)
  | W_stop_tx      (* if (pending_work & WORK_STOP_TX) *)
  | W_write_ier    (* regmap_update_bits(IER) *)
  | W_write_cfg0   (* regmap_update_bits(CFG0) *)
  | W_rts          (* the RTS block *)
  | W_clear        (* pending_work = 0 *)
  | W_unlock.      (* mutex_unlock *)

Record worker_frame : Type := mk_frame {
  w_pc : worker_pc;
  w_ier_mask : Z;
  w_cfg0_mask : Z
}.

Definition worker_entry : worker_frame := mk_frame W_entry 0 0.

(** What the workqueue thread may be asked to do, and what the line
    discipline may call meanwhile. *)
Inductive action : Type :=
  | A_kworker
  | A_stop_tx
  | A_stop_rx.

Section Interleaving.
Context {R : mca_registers} {K : kernel_constants}.
Context {HW : Type} {C : collaborators HW}.

(** One step of a run of [mca_uart_delayed_work_proc]; [None] when the
    function has returned. *)
Definition worker_step (f : worker_frame) : M HW (option worker_frame) :=
  let goto pc := ret (Some (mk_frame pc (w_ier_mask f) (w_cfg0_mask f))) in
  match w_pc f with
  | W_entry =>
      dev_dbg "<%s>" ;;
      mutex_lock ;;
      goto W_check
  | W_check =>
      d <- get_drv ;;
      if pending_work d =? 0 then ret None else goto W_stop_rx
  | W_stop_rx =>
      d <- get_drv ;;
      if tst (pending_work d) WORK_STOP_RX
      then ret (Some (mk_frame W_stop_tx
                        (Z.lor (w_ier_mask f) MCA_REG_UART_IER_RHR)
                        (Z.lor (w_cfg0_mask f) MCA_REG_UART_CFG0_CRX)))
      else goto W_stop_tx
  | W_stop_tx =>
      d <- get_drv ;;
      if tst (pending_work d) WORK_STOP_TX
      then ret (Some (mk_frame W_write_ier
                        (Z.lor (w_ier_mask f) MCA_REG_UART_IER_THR)
                        (Z.lor (w_cfg0_mask f) MCA_REG_UART_CFG0_CTX)))
      else goto W_write_ier
  | W_write_ier =>
      r <- do_regmap_update_bits MCA_REG_UART_IER (w_ier_mask f) 0 ;;
      (if negb (r =? 0)
       then dev_err "Failed to write MCA_REG_UART_IER"
       else ret tt) ;;
      goto W_write_cfg0
  | W_write_cfg0 =>
      r <- do_regmap_update_bits MCA_REG_UART_CFG0 (w_cfg0_mask f)
             (Z.lor MCA_REG_UART_CFG0_CRX MCA_REG_UART_CFG0_CRX) ;;
      (if negb (r =? 0)
       then dev_err "Failed to write MCA_REG_UART_CFG0"
       else ret tt) ;;
      goto W_rts
  | W_rts =>
      d <- get_drv ;;
      (if tst (pending_work d) WORK_SET_RTS
          || tst (pending_work d) WORK_CLEAR_RTS then
         d <- get_drv ;;
         let msr_mask := u8 (if tst (pending_work d) WORK_SET_RTS
                             then MCA_REG_UART_MSR_RTS else 0) in
         r <- do_regmap_update_bits MCA_REG_UART_MSR MCA_REG_UART_MSR_RTS
                msr_mask ;;
         if negb (r =? 0)
         then dev_err "Failed to write MCA_REG_UART_MSR"
         else ret tt
       else ret tt) ;;
      goto W_clear
  | W_clear =>
      modify_drv (fun d => set_pending_work d 0) ;;
      goto W_unlock
  | W_unlock =>
      mutex_unlock ;;
      ret None
  end.

(** The worker run to completion with nothing in between. *)
Fixpoint worker_run (fuel : nat) (f : worker_frame) : M HW unit :=
  match fuel with
  | O => ret tt
  | S fuel' =>
      r <- worker_step f ;;
      match r with
      | None => ret tt
      | Some f' => worker_run fuel' f'
      end
  end.

(** The machine: the shared state, and the frame of the worker run in
    progress if there is one. *)
Definition machine : Type := (sys HW * option worker_frame)%type.

(** One scheduling decision.  The workqueue thread continues the run in
    progress (a run that finds the mutex held stays where it is); with no
    run in progress it dequeues the work item, which clears its pending
    flag, and enters the function. *)
Definition machine_step (m : machine) (a : action) : machine :=
  let (s, w) := m in
  match a with
  | A_stop_tx => (final (mca_uart_stop_tx s), w)
  | A_stop_rx => (final (mca_uart_stop_rx s), w)
  | A_kworker =>
      match w with
      | Some f =>
          match worker_step f s with
          | Done r s' => (s', r)
          | Blocked s' => (s', Some f)
          end
      | None =>
          if delayed_work (drv s)
          then (mk_sys (set_delayed_work (drv s) false) (hw s) (trace s),
                Some worker_entry)
          else (s, None)
      end
  end.

Definition run_schedule (m : machine) (sched : list action) : machine :=
  fold_left machine_step sched m.

End Interleaving.

(** ** A stop request that arrives during a worker run

    The line discipline asks to stop RX; the workqueue starts the worker,
    which takes the mutex and tests [pending_work] for the two stop bits;
    then, with the run in progress, the line discipline asks to stop TX. *)
Definition schedule_until_stop_tx : list action :=
  [A_stop_rx;
   A_kworker;      (* dequeue, enter the function *)
   A_kworker;      (* W_entry *)
   A_kworker;      (* W_check *)
   A_kworker;      (* W_stop_rx *)
   A_kworker;      (* W_stop_tx *)
   A_stop_tx].

(** The run in progress finishes; the run queued by the stop-TX request
    follows. *)
Definition schedule_after_stop_tx : list action :=
  [A_kworker;      (* W_write_ier *)
   A_kworker;      (* W_write_cfg0 *)
   A_kworker;      (* W_rts *)
   A_kworker;      (* W_clear *)
   A_kworker;      (* W_unlock *)
   A_kworker;      (* dequeue, enter the function *)
   A_kworker;      (* W_entry *)
   A_kworker].     (* W_check *)

(** ** The masks of the deferred worker *)

Section WorkerMasks.
Context {R : mca_registers}.

(** The interrupt-enable bits to clear for the stop bits pending in [p]. *)
Definition stop_ier_mask (p : Z) : Z :=
  Z.lor (if tst p WORK_STOP_RX then MCA_REG_UART_IER_RHR else 0)
        (if tst p WORK_STOP_TX then MCA_REG_UART_IER_THR else 0).

(** The bits of CFG0 the worker touches for the stop bits pending in [p]. *)
Definition stop_cfg0_mask (p : Z) : Z :=
  Z.lor (if tst p WORK_STOP_RX then MCA_REG_UART_CFG0_CRX else 0)
        (if tst p WORK_STOP_TX then MCA_REG_UART_CFG0_CTX else 0).

End WorkerMasks.

(** ** Lock discipline *)

(** A computation that always returns and leaves the mutex as it found it:
    what code called with the mutex held has to be. *)
Definition keeps_mutex {HW A : Type} (m : M HW A) : Prop :=
  forall s, exists a s', m s = Done a s' /\ mutex (drv s') = mutex (drv s).

(** A function that takes the mutex itself: called with the mutex free, it
    returns with the mutex free. *)
Definition releases_mutex {HW A : Type} (m : M HW A) (s : sys HW) : Prop :=
  mutex (drv s) = false ->
  exists a s', m s = Done a s' /\ mutex (drv s') = false.

(** ** Observations on a trace *)

(** Bytes the sink accepted. *)
Definition is_forwarded (e : event) : bool :=
  match e with
  | E_tty_insert_flip_char _ _ r => negb (r =? 0)
  | _ => false
  end.

(** Bytes the sink turned down. *)
Definition is_rejected (e : event) : bool :=
  match e with
  | E_tty_insert_flip_char _ _ r => r =? 0
  | _ => false
  end.

(** Bytes taken by the sysrq hook. *)
Definition is_sysrq_consumed (e : event) : bool :=
  match e with
  | E_sysrq _ c => c
  | _ => false
  end.

(** Bytes handed to the sink with the overrun classification. *)
Definition is_overrun_push (e : event) : bool :=
  match e with
  | E_tty_insert_flip_char _ TTY_OVERRUN _ => true
  | _ => false
  end.

Definition is_flush (e : event) : bool :=
  match e with
  | E_tty_flip_buffer_push => true
  | _ => false
  end.

Definition is_bulk_write (e : event) : bool :=
  match e with
  | E_regmap_bulk_write _ _ _ => true
  | _ => false
  end.

Definition is_bulk_read (e : event) : bool :=
  match e with
  | E_regmap_bulk_read _ _ _ => true
  | _ => false
  end.

Definition is_log (e : event) : bool :=
  match e with
  | E_log _ _ => true
  | _ => false
  end.

Definition count (p : event -> bool) (t : list event) : Z :=
  Z.of_nat (List.length (filter p t)).

(** The headroom the engine works with: the value read, or zero when the
    read failed. *)
Definition tx_headroom (r : result Z) : Z :=
  match r with
  | Ok v => u32 v
  | Err _ => 0
  end.

(** What the engine logs before it backs off. *)
Definition tx_backoff_log (r : result Z) : list event :=
  match r with
  | Err _ =>
      [E_log LOG_ERR "Failed to read MCA_REG_UART_TXLVL";
       E_log LOG_DBG "TX FIFO is full"]
  | Ok v =>
      if u32 v =? 0 then [E_log LOG_DBG "TX FIFO is full"]
      else [E_log LOG_ERR "Invalid MCA_REG_UART_TXLVL value %d"]
  end.

(** The books of one pass over [n] received bytes, read off the events [l]
    it left: every byte looked at was forwarded, taken by sysrq or turned
    down by the sink; the sink turns down at most one byte, and the bytes
    behind it are not looked at; the overrun counter moves from [ov] to
    [ov'], once for the byte turned down and once for every byte handed
    over as an overrun. *)
Definition rx_accounting (n : Z) (l : list event) (ov ov' : Z) : Prop :=
  let forwarded := count is_forwarded l in
  let consumed := count is_sysrq_consumed l in
  let rejected := count is_rejected l in
  forwarded + consumed + rejected <= n /\
  rejected <= 1 /\
  (rejected = 0 -> forwarded + consumed = n) /\
  ov' = u32 (ov + rejected + count is_overrun_push l).

Definition is_bulk_read_of (reg : Z) (e : event) : bool :=
  match e with
  | E_regmap_bulk_read r _ _ => r =? reg
  | _ => false
  end.

Definition is_failed_bulk_read_of (reg : Z) (e : event) : bool :=
  match e with
  | E_regmap_bulk_read r _ (Err _) => r =? reg
  | _ => false
  end.

Section RxTranscripts.
Context {R : mca_registers}.

(** What [mca_uart_handle_rx] may leave before it gets to the data: its
    register reads, its logs and the read of the error vector. *)
Definition is_prelude (e : event) : bool :=
  match e with
  | E_regmap_read _ _ => true
  | E_log _ _ => true
  | E_regmap_bulk_read r _ _ => r =? MCA_REG_UART_RX_ERRORS
  | _ => false
  end.

(** The data read that fails twice, and the flush the [exit:] label leads
    to. *)
Definition rx_abort_events (level e1 e2 : Z) : list event :=
  [E_regmap_bulk_read MCA_REG_UART_RHR level (Err e1);
   E_log LOG_WARN "Failed to read MCA_REG_UART_RHR %d, retrying";
   E_regmap_bulk_read MCA_REG_UART_RHR level (Err e2);
   E_log LOG_ERR "Failed to read MCA_REG_UART_RHR %d";
   E_tty_flip_buffer_push].

(** The data read that succeeds, at once or on the retry. *)
Definition rx_read_events (level : Z) (first : option Z) (data : list Z)
  : list event :=
  match first with
  | None => [E_regmap_bulk_read MCA_REG_UART_RHR level (Ok data)]
  | Some e1 =>
      [E_regmap_bulk_read MCA_REG_UART_RHR level (Err e1);
       E_log LOG_WARN "Failed to read MCA_REG_UART_RHR %d, retrying";
       E_regmap_bulk_read MCA_REG_UART_RHR level (Ok data)]
  end.

(** How a pass that got to the data opens: the entry log, the level read,
    then whatever the error path added. *)
Definition rx_opening (level : Z) (pre : list event) : list event :=
  E_log LOG_DBG "<%s>"
  :: E_regmap_read MCA_REG_UART_RXLVL (Ok level)
  :: pre.

(** The three shapes of the transcript [evs] of one call of
    [mca_uart_handle_rx] that moves the overrun counter from [ov] to
    [ov']. *)
Definition rx_stopped_early (evs : list event) (ov ov' : Z) : Prop :=
  forallb is_prelude evs = true /\ ov' = ov.

Definition rx_aborted (evs : list event) (ov ov' : Z) : Prop :=
  exists pre level e1 e2,
    evs = rx_opening level pre ++ rx_abort_events level e1 e2 /\
    forallb is_prelude pre = true /\ ov' = ov.

Definition rx_delivered (evs : list event) (ov ov' : Z) : Prop :=
  exists pre level first data l,
    evs = rx_opening level pre ++ rx_read_events level first data ++ l
          ++ [E_tty_flip_buffer_push] /\
    forallb is_prelude pre = true /\
    rx_accounting level l ov ov' /\
    count is_flush l = 0 /\ count is_bulk_read l = 0.

End RxTranscripts.

Definition is_update_bits (e : event) : bool :=
  match e with
  | E_regmap_update_bits _ _ _ _ => true
  | _ => false
  end.

(** The events a run added to the trace it started from. *)
Definition emitted {HW : Type} (s s' : sys HW) : list event :=
  skipn (List.length (trace s)) (trace s').

(** ** What a run is confined to *)

(** A computation that always returns, adds only events of the class [P]
    and leaves the part [f] of the driver instance as it found it. *)
Definition confined {HW A X : Type} (P : event -> bool) (f : mca_uart -> X)
  (m : M HW A) : Prop :=
  forall s, exists a s' l,
    m s = Done a s' /\ trace s' = trace s ++ l /\
    forallb P l = true /\ f (drv s') = f (drv s).

(** What a caller in atomic context may do: log and queue work; no bus
    access, no mutex, nothing handed to the tty. *)
Definition is_atomic_safe (e : event) : bool :=
  match e with
  | E_log _ _ => true
  | E_schedule_work _ => true
  | _ => false
  end.

(** The bus accesses that change a register. *)
Definition is_bus_write (e : event) : bool :=
  match e with
  | E_regmap_write _ _ _ => true
  | E_regmap_update_bits _ _ _ _ => true
  | E_regmap_bulk_write _ _ _ => true
  | _ => false
  end.

(** What the receive path may do: read the bus, log, talk to the tty. *)
Definition is_rx_event (e : event) : bool :=
  match e with
  | E_regmap_read _ _ => true
  | E_regmap_bulk_read _ _ _ => true
  | E_log _ _ => true
  | E_sysrq _ _ => true
  | E_tty_insert_flip_char _ _ _ => true
  | E_tty_flip_buffer_push => true
  | _ => false
  end.

(** What the interrupt handler may do on top of that: take and release the
    mutex and queue work. *)
Definition is_irq_event (e : event) : bool :=
  match e with
  | E_mutex_lock => true
  | E_mutex_unlock => true
  | E_schedule_work _ => true
  | _ => is_rx_event e
  end.

(** Everything of the driver instance but the counters of the port. *)
Definition beside_icount (d : mca_uart)
  : bool * Z * bool * bool * Z * (Z * bool * circ_buf * option tty_struct) :=
  (mutex d, pending_work d, tx_work d, delayed_work d, has_rtscts d,
   (status (port d), hw_stopped (port d), xmit (port d), tty (port d))).

(** ** Requests from the serial core *)

(** The three operations the serial core calls with the port lock held. *)
Inductive request : Type :=
  | REQ_STOP_TX
  | REQ_STOP_RX
  | REQ_START_TX.

Definition request_bit (r : request) : Z :=
  match r with
  | REQ_STOP_TX => WORK_STOP_TX
  | REQ_STOP_RX => WORK_STOP_RX
  | REQ_START_TX => 0
  end.

Definition is_stop_request (r : request) : bool :=
  match r with
  | REQ_START_TX => false
  | _ => true
  end.

Definition is_start_request (r : request) : bool :=
  match r with
  | REQ_START_TX => true
  | _ => false
  end.

(** The bits a burst of requests asks for, OR'd together. *)
Definition requested_bits (l : list request) : Z :=
  fold_right (fun r acc => Z.lor (request_bit r) acc) 0 l.

Definition is_schedule_of (w : work_id) (e : event) : bool :=
  match e, w with
  | E_schedule_work TX_WORK, TX_WORK => true
  | E_schedule_work DELAYED_WORK, DELAYED_WORK => true
  | _, _ => false
  end.

Section Requests.
Context {R : mca_registers} {K : kernel_constants}.
Context {HW : Type} {C : collaborators HW}.

Definition do_request (r : request) : M HW unit :=
  match r with
  | REQ_STOP_TX => mca_uart_stop_tx
  | REQ_STOP_RX => mca_uart_stop_rx
  | REQ_START_TX => mca_uart_start_tx
  end.

(** A burst of requests with no worker run in between. *)
Fixpoint do_requests (l : list request) : M HW unit :=
  match l with
  | [] => ret tt
  | r :: l' => do_request r ;; do_requests l'
  end.

End Requests.

(** ** Observations on the register writes of a run *)

(** The [regmap_update_bits] calls of a transcript, without their results. *)
Definition update_bits_calls (l : list event) : list (Z * Z * Z) :=
  flat_map (fun e =>
              match e with
              | E_regmap_update_bits r m v _ => [(r, m, v)]
              | _ => []
              end) l.

Definition is_failed_update_bits (e : event) : bool :=
  match e with
  | E_regmap_update_bits _ _ _ r => negb (r =? 0)
  | _ => false
  end.

Definition is_error_log (e : event) : bool :=
  match e with
  | E_log LOG_ERR _ => true
  | _ => false
  end.

Section WorkerCalls.
Context {R : mca_registers}.

(** Whether an RTS change is pending in [p]. *)
Definition rts_request (p : Z) : bool :=
  tst p WORK_SET_RTS || tst p WORK_CLEAR_RTS.

(** The register updates a worker run makes for the pending bits [p], in
    order: the interrupt mask, CFG0, and the modem-control register when an
    RTS change is pending. *)
Definition worker_calls (p : Z) : list (Z * Z * Z) :=
  [(MCA_REG_UART_IER, stop_ier_mask p, 0);
   (MCA_REG_UART_CFG0, stop_cfg0_mask p,
    Z.lor MCA_REG_UART_CFG0_CRX MCA_REG_UART_CFG0_CRX)]
  ++ (if rts_request p
      then [(MCA_REG_UART_MSR, MCA_REG_UART_MSR_RTS,
             u8 (if tst p WORK_SET_RTS then MCA_REG_UART_MSR_RTS else 0))]
      else []).

End WorkerCalls.

(** ** Observations on the data handed over *)

(** The bytes of the ring from its tail on, [n] of them, each as the copy
    loop stages it. *)
Definition ring_read {K : kernel_constants} (x : circ_buf) (n : nat)
  : list Z :=
  map (fun k =>
         u8 (nth (Z.to_nat ((cb_tail x + Z.of_nat k) mod UART_XMIT_SIZE))
               (cb_buf x) 0))
      (seq 0 n).

(** The bytes offered to the sink, each with its classification, in the
    order of the calls. *)
Definition pushes (l : list event) : list (Z * tty_flag) :=
  flat_map (fun e =>
              match e with
              | E_tty_insert_flip_char ch f _ => [(ch, f)]
              | _ => []
              end) l.

Definition tty_flag_eqb (a b : tty_flag) : bool :=
  match a, b with
  | TTY_NORMAL, TTY_NORMAL => true
  | TTY_BREAK, TTY_BREAK => true
  | TTY_FRAME, TTY_FRAME => true
  | TTY_PARITY, TTY_PARITY => true
  | TTY_OVERRUN, TTY_OVERRUN => true
  | _, _ => false
  end.

(** How many of the bytes offered carry the classification [f]. *)
Definition flag_count (f : tty_flag) (l : list (Z * tty_flag)) : Z :=
  Z.of_nat (List.length (filter (fun p => tty_flag_eqb (snd p) f) l)).

(** The counter a classification raises. *)
Definition bump (f : tty_flag) (c : uart_icount) : uart_icount :=
  match f with
  | TTY_NORMAL => c
  | TTY_BREAK => set_ic_brk c (u32 (ic_brk c + 1))
  | TTY_FRAME => set_ic_frame c (u32 (ic_frame c + 1))
  | TTY_PARITY => set_ic_parity c (u32 (ic_parity c + 1))
  | TTY_OVERRUN => set_ic_overrun c (u32 (ic_overrun c + 1))
  end.

Section Classification.
Context {R : mca_registers}.

(** The classification the [switch] of the receive loop gives an error
    code. *)
Definition lsr_flag (code : Z) : tty_flag :=
  if code =? MCA_REG_UART_LSR_FRAMING_ERROR then TTY_FRAME
  else if code =? MCA_REG_UART_LSR_PARITY_ERROR then TTY_PARITY
  else if code =? MCA_REG_UART_LSR_FIFO_OR_ERROR then TTY_OVERRUN
  else if (code =? MCA_REG_UART_LSR_BREAK)
          || (code =? MCA_REG_UART_LSR_HW_OR_ERROR) then TTY_BREAK
  else TTY_NORMAL.

(** Bytes [start .. start + n - 1] of a batch, each with the classification
    of its entry in the error vector. *)
Definition classified (rx_buf error_buf : list Z) (start n : nat)
  : list (Z * tty_flag) :=
  map (fun i => (u8 (nth i rx_buf 0), lsr_flag (u8 (nth i error_buf 0))))
      (seq start n).

End Classification.

(** The same bytes, all with the classification [f]. *)
Definition unclassified (f : tty_flag) (rx_buf : list Z) (start n : nat)
  : list (Z * tty_flag) :=
  map (fun i => (u8 (nth i rx_buf 0), f)) (seq start n).

(** A tty that takes every byte and a sysrq hook that takes none, over the
    scripted bus. *)
Definition open_sink_collaborators : collaborators script := {|
  regmap_read := fun reg h => (sc_read h reg, h);
  regmap_bulk_read := script_bulk_read;
  regmap_write := fun _ _ h => (sc_write_ret h, h);
  regmap_update_bits := fun _ _ _ h => (sc_write_ret h, h);
  regmap_bulk_write := fun _ _ h => (sc_write_ret h, h);
  uart_handle_sysrq_char := fun _ h => (false, h);
  tty_insert_flip_char := fun _ _ h => (1, h);
  uart_get_baud_rate := fun t _ _ _ h => ((sc_baud h, t), h)
|}.

(** A board whose registers read [v] and whose bulk reads return the error
    vector [errs] for the error register and [data] for any other. *)
Definition noisy_board (v : Z) (data errs : list Z) : script :=
  mk_script (fun _ => Ok v) 0
    (fun reg => if reg =? 0x70b then errs else data)
    0 0 (fun _ => false) 9600.

(** The counters after the classifications of a run of bytes. *)
Definition bump_all (l : list (Z * tty_flag)) (c : uart_icount)
  : uart_icount :=
  fold_left (fun c p => bump (snd p) c) l c.


(** ** The range in which the RX engine is defined

    [rx_buf] and [error_buf] are arrays of MCA_UART_RX_FIFO_SIZE bytes, and
    the engine puts no bound on the level it reads: above that size its
    bulk reads write past the arrays, and from there on the C code has no
    defined behaviour.  [rx_level_fits h] says that the level a call
    entered on the bus [h] would read, if the read succeeds, fits the
    arrays; statements about what a call does beyond its bulk reads are
    made under it. *)
Definition rx_level_fits {R : mca_registers} {HW : Type}
  {C : collaborators HW} (h : HW) : Prop :=
  match fst (regmap_read MCA_REG_UART_RXLVL h) with
  | Ok v => u32 v <= MCA_UART_RX_FIFO_SIZE
  | Err _ => True
  end.


(** An attempt to take the mutex. *)
Definition is_lock (e : event) : bool :=
  match e with
  | E_mutex_lock => true
  | _ => false
  end.


(** ** The sysfs attribute and suspend

    [power_on_rx_show], [power_on_rx_store], [serial_match_port] and
    [mca_cc6ul_uart_suspend].  The flag [enable_power_on] of the instance,
    the line number of the port and the numbers of the tty driver are passed
    in and out explicitly. *)

Definition EINVAL : Z := 22.

(** Two more bits of CFG0 from linux/mfd/mca-cc6ul/registers.h. *)
Class mca_power_bits : Type := {
  MCA_REG_UART_CFG0_PWR_ON : Z;
  MCA_REG_UART_CFG0_WAKEUP : Z
}.

(** A C string is the characters before its terminating NUL. *)
Definition char_at_head (s : string) : Z :=
  match s with
  | EmptyString => 0
  | String c _ => Z.of_nat (Ascii.nat_of_ascii c)
  end.

Definition string_tail (s : string) : string :=
  match s with
  | EmptyString => EmptyString
  | String _ r => r
  end.

(** [strncmp] of lib/string.c. *)
Fixpoint strncmp (cs ct : string) (count : nat) : Z :=
  match count with
  | O => 0
  | S count' =>
      let c1 := char_at_head cs in
      let c2 := char_at_head ct in
      if negb (c1 =? c2) then (if c1 <? c2 then -1 else 1)
      else if c1 =? 0 then 0
      else strncmp (string_tail cs) (string_tail ct) count'
  end.

Definition newline : string := String (Ascii.ascii_of_nat 10) EmptyString.

(** [struct device] as [device_find_child] and [device_may_wakeup] see it. *)
Record device : Type := mk_device {
  devt : Z;
  may_wakeup : bool
}.

(** [struct uart_match], with the fields read through its two pointers. *)
Record uart_match : Type := mk_uart_match {
  um_line : Z;
  um_major : Z;
  um_minor_start : Z
}.

(** [MKDEV(ma, mi)], with MINORBITS = 20. *)
Definition MKDEV (ma mi : Z) : Z := Z.lor (Z.shiftl ma 20) mi.

Definition serial_match_port (dev : device) (data : uart_match) : Z :=
  let devt' := u32 (MKDEV (um_major data) (um_minor_start data)
                    + um_line data) in
  if devt dev =? devt' then 1 else 0.

(** [device_find_child]: the first child the match function accepts. *)
Definition device_find_child (children : list device) (data : uart_match)
  (fn : device -> uart_match -> Z) : option device :=
  find (fun dev => negb (fn dev data =? 0)) children.

Section PowerOptions.
Context {R : mca_registers} {P : mca_power_bits}.
Context {HW : Type} {C : collaborators HW}.

(** Returns the text put in [buf] and its length. *)
Definition power_on_rx_show (enable_power_on : bool) : M HW (string * Z) :=
  dev_dbg "<%s>" ;;
  let out :=
    ((if enable_power_on then "enabled" else "disabled") ++ newline)%string in
  ret (out, Z.of_nat (String.length out)).

(** Returns the value returned and [enable_power_on] as it is left. *)
Definition power_on_rx_store (enable_power_on : bool) (buf : string)
  (count : Z) : M HW (Z * bool) :=
  dev_dbg "<%s>" ;;
  let finish (enable_power_on : bool) : M HW (Z * bool) :=
    r <- do_regmap_update_bits MCA_REG_UART_CFG0 MCA_REG_UART_CFG0_PWR_ON
           (if enable_power_on then MCA_REG_UART_CFG0_PWR_ON else 0) ;;
    (if r <? 0
     then dev_err "Failed to write MCA_REG_UART_CFG0"
     else ret tt) ;;
    ret (count, enable_power_on) in
  if strncmp buf "enabled" (String.length "enabled") =? 0 then
    finish true
  else if strncmp buf "disabled" (String.length "disabled") =? 0 then
    finish false
  else
    ret (- EINVAL, enable_power_on).

Definition mca_cc6ul_uart_suspend (match_ : uart_match)
  (children : list device) : M HW Z :=
  let tty_dev := device_find_child children match_ serial_match_port in
  let mask := MCA_REG_UART_CFG0_WAKEUP in
  let new_value := 0 in
  let new_value :=
    match tty_dev with
    | Some dev =>
        if may_wakeup dev then Z.lor new_value MCA_REG_UART_CFG0_WAKEUP
        else new_value
    | None => new_value
    end in
  r <- do_regmap_update_bits MCA_REG_UART_CFG0 mask new_value ;;
  (if r <? 0
   then dev_err "Failed to write MCA_REG_UART_CFG0"
   else ret tt) ;;
  ret 0.

End PowerOptions.

(** The two bits on the board of the scripted collaborators. *)
#[local] Instance board_power_bits : mca_power_bits := {|
  MCA_REG_UART_CFG0_PWR_ON := BIT 5;
  MCA_REG_UART_CFG0_WAKEUP := BIT 6
|}.


(** ** Probe and remove

    [mca_uart_probe] and [mca_uart_remove] talk to the device tree, the
    allocator, the GPIO layer and the serial core.  Their answers are the
    fields of [probe_env]; the calls made are recorded in order, each with
    the answer it got.  The bus is the one of [collaborators]. *)

Definition ENODEV : Z := 19.
Definition ENOMEM : Z := 12.

(** Registers and values of linux/mfd/mca-cc6ul/registers.h and the
    firmware version [MCA_MAKE_FW_VER(1, 1)] the probe asks for. *)
Class mca_probe_constants : Type := {
  MCA_REG_UART_RTSPIN : Z;
  MCA_REG_UART_CTSPIN : Z;
  MCA_REG_UART_CFG0_ENABLE : Z;
  MCA_UART_MIN_FW_VERSION : Z
}.

Record probe_env : Type := mk_probe_env {
  pe_mca_err : option Z;       (* [Some e]: IS_ERR(mca), PTR_ERR(mca) = e *)
  pe_of_node : bool;           (* mca->dev->of_node is not NULL *)
  pe_np : option bool;         (* the compatible node, and whether it is
                                  available *)
  pe_fw_version : Z;
  pe_gpio_base : Z;
  pe_kzalloc : bool;           (* devm_kzalloc returned memory *)
  pe_rts_pin : option Z;       (* of_property_read_u32: the value, or
                                  [None] when it returns an error *)
  pe_rts_gpio : Z;             (* devm_gpio_request for the RTS pin *)
  pe_cts_pin : option Z;
  pe_cts_gpio : Z;
  pe_register_driver : Z;      (* uart_register_driver *)
  pe_irq : Z;                  (* platform_get_irq_byname *)
  pe_add_port : Z;             (* uart_add_one_port *)
  pe_request_irq : Z           (* devm_request_threaded_irq *)
}.

Inductive platform_event : Type :=
  | P_log (lvl : log_level) (msg : string)
  | P_info (msg : string)
  | P_kzalloc (ok : bool)
  | P_gpio_request (gpio : Z) (label : string) (ret : Z)
  | P_regmap_write (reg val ret : Z)
  | P_uart_register_driver (ret : Z)
  | P_mutex_init
  | P_init_work (w : work_id)
  | P_uart_add_one_port (ret : Z)
  | P_request_threaded_irq (irq ret : Z)
  | P_cancel_work_sync (w : work_id)
  | P_mutex_destroy
  | P_uart_remove_one_port
  | P_uart_unregister_driver
  | P_kfree.

(** The fields of the instance the probe fills in. *)
Record probed_uart : Type := mk_probed_uart {
  pu_has_rtscts : Z;
  pu_rts_pin : Z;
  pu_cts_pin : Z;
  pu_enable_power_on : bool;
  pu_line : Z;
  pu_irq : Z;
  pu_fifosize : Z
}.

Definition pu_set_has_rtscts (u : probed_uart) (v : Z) : probed_uart :=
  mk_probed_uart v (pu_rts_pin u) (pu_cts_pin u) (pu_enable_power_on u)
    (pu_line u) (pu_irq u) (pu_fifosize u).
Definition pu_set_rts_pin (u : probed_uart) (v : Z) : probed_uart :=
  mk_probed_uart (pu_has_rtscts u) v (pu_cts_pin u) (pu_enable_power_on u)
    (pu_line u) (pu_irq u) (pu_fifosize u).
Definition pu_set_cts_pin (u : probed_uart) (v : Z) : probed_uart :=
  mk_probed_uart (pu_has_rtscts u) (pu_rts_pin u) v (pu_enable_power_on u)
    (pu_line u) (pu_irq u) (pu_fifosize u).
Definition pu_set_port (u : probed_uart) (line irq fifosize : Z)
  : probed_uart :=
  mk_probed_uart (pu_has_rtscts u) (pu_rts_pin u) (pu_cts_pin u)
    (pu_enable_power_on u) line irq fifosize.

(** What a call leaves: the value returned, the instance when one is left
    allocated, the bus, and the calls made. *)
Record probe_result (HW : Type) : Type := mk_probe_result {
  pr_ret : Z;
  pr_uart : option probed_uart;
  pr_hw : HW;
  pr_trace : list platform_event
}.
Arguments mk_probe_result {HW} _ _ _ _.
Arguments pr_ret {HW} _.
Arguments pr_uart {HW} _.
Arguments pr_hw {HW} _.
Arguments pr_trace {HW} _.

Section Probe.
Context {R : mca_registers} {Q : mca_probe_constants}.
Context {HW : Type} {C : collaborators HW}.

(** The label [error:] of [mca_uart_probe]. *)
Definition probe_error (ret : Z) (h : HW) (t : list platform_event)
  : probe_result HW :=
  mk_probe_result ret None h
    (t ++ [P_mutex_destroy; P_uart_remove_one_port; P_uart_unregister_driver;
           P_kfree]).

(** The part of [mca_uart_probe] that looks for the RTS pin: the instance,
    the bus and the calls as it leaves them. *)
Definition probe_rts_pin (env : probe_env) (u : probed_uart) (h : HW)
  (t : list platform_event) : probed_uart * HW * list platform_event :=
  match pe_rts_pin env with
  | None => (u, h, t ++ [P_log LOG_DBG "No RTS pin provided"])
  | Some pin =>
      let u := pu_set_rts_pin u pin in
      let ret := pe_rts_gpio env in
      let t := t ++ [P_gpio_request (pe_gpio_base env + pu_rts_pin u)
                       "MCA UART RTS" ret] in
      if negb (ret =? 0) then
        (u, h, t ++ [P_log LOG_ERR "Failed to allocate RTS pin"])
      else
        let (ret, h) := regmap_write MCA_REG_UART_RTSPIN (pu_rts_pin u) h in
        let t := t ++ [P_regmap_write MCA_REG_UART_RTSPIN (pu_rts_pin u)
                         ret] in
        if negb (ret =? 0) then
          (u, h, t ++ [P_log LOG_ERR "Failed to write MCA_REG_UART_RTSPIN"])
        else
          (pu_set_has_rtscts u (Z.lor (pu_has_rtscts u) MCA_UART_HAS_RTS),
           h, t)
  end.

(** The part that looks for the CTS pin. *)
Definition probe_cts_pin (env : probe_env) (u : probed_uart) (h : HW)
  (t : list platform_event) : probed_uart * HW * list platform_event :=
  match pe_cts_pin env with
  | None => (u, h, t ++ [P_log LOG_DBG "No CTS pin provided"])
  | Some pin =>
      let u := pu_set_cts_pin u pin in
      let ret := pe_cts_gpio env in
      let t := t ++ [P_gpio_request (pe_gpio_base env + pu_cts_pin u)
                       "MCA UART CTS" ret] in
      if negb (ret =? 0) then
        (u, h, t ++ [P_log LOG_ERR "Failed to allocate CTS pin"])
      else
        let (ret, h) := regmap_write MCA_REG_UART_CTSPIN (pu_cts_pin u) h in
        let t := t ++ [P_regmap_write MCA_REG_UART_CTSPIN (pu_cts_pin u)
                         ret] in
        if negb (ret =? 0) then
          (u, h, t ++ [P_log LOG_ERR "Failed to write MCA_REG_UART_CTSPIN"])
        else
          (pu_set_has_rtscts u (Z.lor (pu_has_rtscts u) MCA_UART_HAS_CTS),
           h, t)
  end.

(** The rest of the function, from "Register UART driver" on. *)
Definition probe_register (env : probe_env) (u : probed_uart) (h : HW)
  (t : list platform_event) : probe_result HW :=
  let ret := pe_register_driver env in
  let t := t ++ [P_uart_register_driver ret] in
  if negb (ret =? 0) then
    probe_error ret h (t ++ [P_log LOG_ERR "Registering UART driver failed"])
  else
  let t := t ++ [P_mutex_init] in
  let u := pu_set_port u 0 (pe_irq env)
             (Z.max MCA_UART_TX_FIFO_SIZE MCA_UART_RX_FIFO_SIZE) in
  let t := t ++ [P_init_work TX_WORK; P_init_work DELAYED_WORK] in
  let ret := pe_add_port env in
  let t := t ++ [P_uart_add_one_port ret] in
  if negb (ret =? 0) then
    probe_error ret h (t ++ [P_log LOG_ERR "Failed adding a port (%d)"])
  else
  let ret := pe_request_irq env in
  let t := t ++ [P_request_threaded_irq (pu_irq u) ret] in
  if negb (ret =? 0) then
    probe_error ret h (t ++ [P_log LOG_ERR "Failed to register IRQ"])
  else
  let (ret, h) := regmap_write MCA_REG_UART_CFG0 MCA_REG_UART_CFG0_ENABLE h in
  let t := t ++ [P_regmap_write MCA_REG_UART_CFG0 MCA_REG_UART_CFG0_ENABLE
                   ret] in
  if negb (ret =? 0) then
    probe_error ret h
      (t ++ [P_log LOG_ERR "Failed to write MCA_REG_UART_CFG0"])
  else
  mk_probe_result 0 (Some u) h (t ++ [P_info "Registered successfully"]).

Definition mca_uart_probe (env : probe_env) (h : HW) : probe_result HW :=
  let t := [P_log LOG_DBG "<%s>"] in
  match pe_mca_err env with
  | Some e => mk_probe_result e None h t
  | None =>
  if negb (pe_of_node env) then mk_probe_result (- ENODEV) None h t else
  match pe_np env with
  | None | Some false => mk_probe_result (- ENODEV) None h t
  | Some true =>
  if pe_fw_version env <? MCA_UART_MIN_FW_VERSION then
    mk_probe_result (- ENODEV) None h
      (t ++ [P_log LOG_ERR "UART is not supported in MCA firmware v%d.%02d."])
  else
  let t := t ++ [P_kzalloc (pe_kzalloc env)] in
  if negb (pe_kzalloc env) then mk_probe_result (- ENOMEM) None h t else
  let u := mk_probed_uart 0 0 0 false 0 0 0 in
  let '(u, h, t) := probe_rts_pin env u h t in
  let '(u, h, t) := probe_cts_pin env u h t in
  probe_register env u h t
  end
  end.

(** [mca_uart_remove]: the calls it makes; it returns 0. *)
Definition mca_uart_remove : Z * list platform_event :=
  (0,
   [P_log LOG_DBG "<%s>"; P_cancel_work_sync TX_WORK;
    P_cancel_work_sync DELAYED_WORK; P_mutex_destroy; P_uart_remove_one_port;
    P_uart_unregister_driver; P_kfree]).

End Probe.

(** ** Observers of a probe *)

Definition is_teardown (e : platform_event) : bool :=
  match e with
  | P_mutex_destroy | P_uart_remove_one_port | P_uart_unregister_driver
  | P_kfree => true
  | _ => false
  end.

Definition is_setup (e : platform_event) : bool :=
  match e with
  | P_kzalloc ok => ok
  | P_gpio_request _ _ _ | P_regmap_write _ _ _
  | P_uart_register_driver _ | P_mutex_init | P_init_work _
  | P_uart_add_one_port _ | P_request_threaded_irq _ _ => true
  | _ => false
  end.

Definition is_platform_error (e : platform_event) : bool :=
  match e with
  | P_log LOG_ERR _ => true
  | _ => false
  end.

(** What the two pin stages may do. *)
Definition is_pin_event (e : platform_event) : bool :=
  match e with
  | P_log _ _ | P_gpio_request _ _ _ | P_regmap_write _ _ _ => true
  | _ => false
  end.

Section ProbeObservers.
Context {R : mca_registers} {Q : mca_probe_constants}.
Context {HW : Type} {C : collaborators HW}.

(** Whether the RTS pin is named, could be requested and was programmed,
    on a bus in state [h]. *)
Definition rts_programmed (env : probe_env) (h : HW) : bool :=
  match pe_rts_pin env with
  | Some pin =>
      (pe_rts_gpio env =? 0)
      && (fst (regmap_write MCA_REG_UART_RTSPIN pin h) =? 0)
  | None => false
  end.

Definition cts_programmed (env : probe_env) (h : HW) : bool :=
  match pe_cts_pin env with
  | Some pin =>
      (pe_cts_gpio env =? 0)
      && (fst (regmap_write MCA_REG_UART_CTSPIN pin h) =? 0)
  | None => false
  end.

(** The bus after the RTS stage of a probe that got that far. *)
Definition bus_after_rts (env : probe_env) (h : HW) : HW :=
  match pe_rts_pin env with
  | Some pin =>
      if pe_rts_gpio env =? 0
      then snd (regmap_write MCA_REG_UART_RTSPIN pin h)
      else h
  | None => h
  end.

(** The bus after both pin stages. *)
Definition bus_after_pins (env : probe_env) (h : HW) : HW :=
  let h := bus_after_rts env h in
  match pe_cts_pin env with
  | Some pin =>
      if pe_cts_gpio env =? 0
      then snd (regmap_write MCA_REG_UART_CTSPIN pin h)
      else h
  | None => h
  end.

(** Whether a probe gets as far as allocating its instance. *)
Definition probe_allocates (env : probe_env) : bool :=
  match pe_mca_err env, pe_np env with
  | None, Some true =>
      pe_of_node env
      && (MCA_UART_MIN_FW_VERSION <=? pe_fw_version env)
      && pe_kzalloc env
  | _, _ => false
  end.

End ProbeObservers.

#[local] Instance board_probe_constants : mca_probe_constants := {|
  MCA_REG_UART_RTSPIN := 0x70e;
  MCA_REG_UART_CTSPIN := 0x70d;
  MCA_REG_UART_CFG0_ENABLE := BIT 0;
  MCA_UART_MIN_FW_VERSION := 0x101
|}.

(** A device tree with the node, a recent firmware and no flow-control
    pins, on which every platform call succeeds. *)
Definition plain_env : probe_env :=
  mk_probe_env None true (Some true) 0x102 0 true None 0 None 0 0 42 0 0.

(** * Properties *)

(** ** Proof support *)

(** Unfolds the monad and the primitives down to the collaborators' calls. *)
Ltac run_monad :=
  cbv beta iota delta
    [bind ret schedule_if_idle work_pending schedule_work cancel_work_sync
     mutex_unlock tty_flip_buffer_push uart_write_wakeup uart_update_timeout
     do_regmap_read do_regmap_bulk_read do_regmap_write do_regmap_update_bits
     do_regmap_bulk_write do_uart_handle_sysrq_char do_tty_insert_flip_char
     dev_dbg dev_warn dev_err modify_icount modify_port modify_drv get_drv
     emit call];
  cbn [drv hw trace].

(** Reduces what a case analysis has unblocked. *)
Ltac msimpl :=
  cbv beta iota;
  cbn [drv hw trace result_u32 get_work set_work].

Lemma u32_range (x : Z) : 0 <= u32 x < 2 ^ 32.
Proof. unfold u32. apply Z.mod_pos_bound. lia. Qed.

Lemma u32_small (x : Z) : 0 <= x < 2 ^ 32 -> u32 x = x.
Proof. intros H. unfold u32. apply Z.mod_small. exact H. Qed.

(** ** Transmitter-empty query *)

Section TxEmpty.
Context {R : mca_registers} {K : kernel_constants}.
Context {HW : Type} {C : collaborators HW}.

(** C10.  [mca_uart_tx_empty] always returns; when the read of the TX
    free-space register fails it answers TIOCSER_TEMT, and when the read
    succeeds it answers TIOCSER_TEMT exactly when the value read equals the
    TX FIFO size of 128 (and 0 otherwise).  TIOCSER_TEMT is a non-zero
    flag. *)
Theorem tx_empty_reports_fifo_free (s : sys HW) (r : result Z) (h : HW) :
  TIOCSER_TEMT <> 0 ->
  regmap_read MCA_REG_UART_TXLVL (hw s) = (r, h) ->
  exists ans s',
    mca_uart_tx_empty s = Done ans s' /\
    match r with
    | Err _ => ans = TIOCSER_TEMT
    | Ok v =>
        (ans = TIOCSER_TEMT <-> u32 v = 128) /\
        (ans = TIOCSER_TEMT \/ ans = 0)
    end.
Proof.
  intros Hne Hread.
  unfold mca_uart_tx_empty. run_monad. rewrite Hread.
  destruct r as [v | e]; cbn.
  - eexists; eexists; split; [reflexivity |].
    unfold MCA_UART_TX_FIFO_SIZE.
    destruct (Z.eqb_spec (u32 v) 128) as [E | E].
    + split; [tauto | now left].
    + split; [| now right].
      split; intros H; [symmetry in H; contradiction | contradiction].
  - eexists; eexists; split; reflexivity.
Qed.

End TxEmpty.

Lemma tx_empty_reports_fifo_free_witness :
  exists ans s',
    mca_uart_tx_empty (boot (idle_uart [] 0) (quiet_board 128 [] 0))
      = Done ans s' /\
    ((ans = TIOCSER_TEMT <-> u32 128 = 128) /\
     (ans = TIOCSER_TEMT \/ ans = 0)).
Proof.
  apply (tx_empty_reports_fifo_free
           (boot (idle_uart [] 0) (quiet_board 128 [] 0)) (Ok 128)
           (quiet_board 128 [] 0)).
  - cbn. lia.
  - reflexivity.
Defined.

(** ** Reconfiguration: the baud-select register *)

Section SetTermios.
Context {R : mca_registers} {K : kernel_constants}.
Context {HW : Type} {C : collaborators HW}.

Lemma baud_reg_val_listed (b v : Z) :
  In (b, v) baud_table -> baud_reg_val b = (v, false).
Proof.
  unfold baud_table. cbn [In]. intros H.
  repeat (destruct H as [H | H]; [injection H as <- <-; reflexivity |]).
  contradiction.
Qed.

Lemma baud_reg_val_unlisted (b : Z) :
  ~ In b (map fst baud_table) ->
  baud_reg_val b = (MCA_REG_UART_BAUD_9600, true).
Proof.
  unfold baud_table. cbn [In map fst]. intros H.
  unfold baud_reg_val, MCA_UART_DEFAULT_BAUD_REG.
  repeat match goal with
         | |- context [?x =? ?y] =>
             destruct (Z.eqb_spec x y); [exfalso; apply H; subst; tauto |]
         end.
  reflexivity.
Qed.

(** C8 (amended).  A reconfigure call always returns.  When its CFG1 write
    succeeds it issues, after the CFG1 write, exactly one write to the
    baud-select register; for a negotiated rate listed in the table the
    value written is the matching one and no warning is logged, for any
    other rate a warning is logged and the value of the 9600 default is
    written; a failure of the baud write is logged and changes nothing
    else.  When the CFG1 write fails, with whatever non-zero value, the call
    logs that and returns at once: the rate is not negotiated and no other
    register is written.  The termios comes back as the call left it:
    masked, and after a successful CFG1 write as the serial core rewrote it
    while negotiating the rate. *)
Theorem set_termios_writes_baud (s : sys HW) (termios : ktermios)
  (old : option ktermios) (h1 h2 h3 : HW) (r1 b0 r : Z) (t2 : ktermios) :
  let t' := mask_termios (drv s) termios in
  let cfg1 := frame_cfg1 (drv s) (c_cflag t') in
  let b := u32 b0 in
  regmap_write MCA_REG_UART_CFG1 cfg1 (hw s) = (r1, h1) ->
  uart_get_baud_rate t' old MCA_UART_MIN_BAUD MCA_UART_MAX_BAUD h1
    = ((b0, t2), h2) ->
  regmap_write MCA_REG_UART_BAUD (fst (baud_reg_val b)) h2 = (r, h3) ->
  if r1 =? 0 then
    exists s',
      mca_uart_set_termios termios old s = Done t2 s' /\
      hw s' = h3 /\
      trace s' =
        trace s
        ++ [E_log LOG_DBG "<%s>"; E_regmap_write MCA_REG_UART_CFG1 cfg1 0;
            E_uart_update_timeout (c_cflag t2) b]
        ++ (if snd (baud_reg_val b)
            then [E_log LOG_WARN
                    "Baud rate %d not supported, using default %d"]
            else [])
        ++ [E_regmap_write MCA_REG_UART_BAUD (fst (baud_reg_val b)) r]
        ++ (if r =? 0 then []
            else [E_log LOG_ERR "Failed to write MCA_REG_UART_BAUD"]) /\
      (forall v, In (b, v) baud_table -> baud_reg_val b = (v, false)) /\
      (~ In b (map fst baud_table) ->
       baud_reg_val b = (MCA_REG_UART_BAUD_9600, true))
  else
    exists s',
      mca_uart_set_termios termios old s = Done t' s' /\
      hw s' = h1 /\
      trace s' =
        trace s
        ++ [E_log LOG_DBG "<%s>"; E_regmap_write MCA_REG_UART_CFG1 cfg1 r1;
            E_log LOG_ERR "Failed to write MCA_REG_UART_CFG1"].
Proof.
  intros t' cfg1 b Hcfg Hbaud Hwr.
  unfold mca_uart_set_termios. run_monad.
  fold t'. fold cfg1. rewrite Hcfg. cbn [drv hw trace].
  destruct (r1 =? 0) eqn:Er1; cbn [negb]; msimpl.
  - apply Z.eqb_eq in Er1. subst r1.
    rewrite Hbaud. cbn [fst snd]. msimpl. fold b.
    destruct (baud_reg_val b) as [v dflt] eqn:Ev. cbn [fst snd] in *.
    destruct dflt; msimpl; rewrite Hwr; msimpl;
      destruct (r =? 0); cbn [negb]; msimpl;
      (eexists; split; [reflexivity |]);
      (split; [reflexivity |]);
      (split; [cbn [trace app]; repeat rewrite <- app_assoc; reflexivity |]);
      (split; [intros v' Hin; rewrite <- Ev; now apply baud_reg_val_listed
              | intros Hnot; rewrite <- Ev; now apply baud_reg_val_unlisted]).
  - eexists. split; [reflexivity |]. split; [reflexivity |].
    cbn [trace]. repeat rewrite <- app_assoc. reflexivity.
Qed.

End SetTermios.

Lemma set_termios_writes_baud_witness :
  (exists s',
     mca_uart_set_termios (mk_termios 0 0) None
       (boot (idle_uart [] 0) (quiet_board 0 [] 0))
       = Done (mk_termios 0 0x30) s' /\
     trace s' =
       [E_log LOG_DBG "<%s>"; E_regmap_write MCA_REG_UART_CFG1 0 0;
        E_uart_update_timeout 0x30 9600;
        E_regmap_write MCA_REG_UART_BAUD MCA_REG_UART_BAUD_9600 0]) /\
  (exists s',
     mca_uart_set_termios (mk_termios 0 0) None
       (boot (idle_uart [] 0) (write_failing_board 0 9600))
       = Done (mk_termios 0 0x30) s' /\
     trace s' =
       [E_log LOG_DBG "<%s>"; E_regmap_write MCA_REG_UART_CFG1 0 (-5);
        E_log LOG_ERR "Failed to write MCA_REG_UART_CFG1"]).
Proof.
  split.
  - pose proof (set_termios_writes_baud
                  (boot (idle_uart [] 0) (quiet_board 0 [] 0))
                  (mk_termios 0 0) None (quiet_board 0 [] 0)
                  (quiet_board 0 [] 0) (quiet_board 0 [] 0) 0 9600 0
                  (mk_termios 0 0x30) eq_refl eq_refl eq_refl) as H.
    cbv zeta in H. cbn [Z.eqb] in H.
    destruct H as [s' [Hrun [_ [Htr _]]]].
    exists s'. split; [exact Hrun | exact Htr].
  - pose proof (set_termios_writes_baud
                  (boot (idle_uart [] 0) (write_failing_board 0 9600))
                  (mk_termios 0 0) None (write_failing_board 0 9600)
                  (write_failing_board 0 9600) (write_failing_board 0 9600)
                  (-5) 9600 (-5) (mk_termios 0 0x30)
                  eq_refl eq_refl eq_refl) as H.
    cbv zeta in H. cbn [Z.eqb] in H.
    destruct H as [s' [Hrun [_ Htr]]].
    exists s'. split; [exact Hrun | exact Htr].
Defined.

(** C8 as stated fails when the CFG1 write fails: the function returns at
    once and the baud-select register is never written, although the rate
    the serial core would negotiate, 9600, is a listed one. *)
Lemma set_termios_cfg1_failure_skips_baud :
  let s := boot (idle_uart [] 0) (write_failing_board 0 9600) in
  let o := mca_uart_set_termios (mk_termios 0 0) None s in
  fst (fst (uart_get_baud_rate (mask_termios (drv s) (mk_termios 0 0)) None
              MCA_UART_MIN_BAUD MCA_UART_MAX_BAUD (hw s))) = 9600 /\
  In (9600, MCA_REG_UART_BAUD_9600) baud_table /\
  trace (final o) =
    [E_log LOG_DBG "<%s>"; E_regmap_write MCA_REG_UART_CFG1 0 (-5);
     E_log LOG_ERR "Failed to write MCA_REG_UART_CFG1"] /\
  forall v r, ~ In (E_regmap_write MCA_REG_UART_BAUD v r) (trace (final o)).
Proof.
  cbv zeta. split; [reflexivity |]. split; [cbn; tauto |].
  split; [reflexivity |].
  intros v r H. vm_compute in H.
  destruct H as [H | [H | [H | []]]]; discriminate H.
Qed.

(** ** TX engine *)

Section TxEngine.
Context {R : mca_registers} {K : kernel_constants}.
Context {HW : Type} {C : collaborators HW}.

Lemma xmit_size_pow2 : 0 <= PAGE_SHIFT -> UART_XMIT_SIZE = 2 ^ PAGE_SHIFT.
Proof. intros H. unfold UART_XMIT_SIZE. now rewrite Z.shiftl_1_l. Qed.

Lemma xmit_size_pos : 0 <= PAGE_SHIFT -> 0 < UART_XMIT_SIZE.
Proof. intros H. rewrite xmit_size_pow2 by exact H. now apply Z.pow_pos_nonneg. Qed.

(** Masking with [UART_XMIT_SIZE - 1] is reduction modulo the ring size. *)
Lemma land_xmit_mask (a : Z) :
  0 <= PAGE_SHIFT -> Z.land a (UART_XMIT_SIZE - 1) = a mod UART_XMIT_SIZE.
Proof.
  intros H. rewrite xmit_size_pow2 by exact H.
  rewrite <- Z.land_ones by exact H.
  rewrite Z.ones_equiv. reflexivity.
Qed.

Lemma chars_pending_range (x : circ_buf) :
  0 <= PAGE_SHIFT -> 0 <= uart_circ_chars_pending x < UART_XMIT_SIZE.
Proof.
  intros H. unfold uart_circ_chars_pending.
  rewrite land_xmit_mask by exact H.
  apply Z.mod_pos_bound. now apply xmit_size_pos.
Qed.

Lemma chars_pending_nonempty (x : circ_buf) :
  uart_circ_chars_pending x <> 0 -> uart_circ_empty x = false.
Proof.
  unfold uart_circ_chars_pending, uart_circ_empty. intros H.
  destruct (Z.eqb_spec (cb_head x) (cb_tail x)) as [E | E]; [| reflexivity].
  exfalso. apply H. rewrite E, Z.sub_diag. apply Z.land_0_l.
Qed.

(** The copy loop leaves head and buffer alone, fills the staging buffer
    with [n] bytes and moves the tail [n] places round the ring. *)
Lemma circ_to_linear_spec (n : nat) (x : circ_buf) :
  0 <= PAGE_SHIFT ->
  0 <= cb_tail x < UART_XMIT_SIZE ->
  let r := circ_to_linear n x in
  cb_tail (snd r) = (cb_tail x + Z.of_nat n) mod UART_XMIT_SIZE /\
  cb_head (snd r) = cb_head x /\
  cb_buf (snd r) = cb_buf x /\
  List.length (fst r) = n.
Proof.
  intros Hk. revert x.
  induction n as [| n IH]; intros x Hx; cbv zeta.
  - cbn. rewrite Z.add_0_r, Z.mod_small by exact Hx. auto.
  - cbn [circ_to_linear].
    set (x' := set_cb_tail x (Z.land (cb_tail x + 1) (UART_XMIT_SIZE - 1))).
    assert (Hx' : 0 <= cb_tail x' < UART_XMIT_SIZE).
    { unfold x'. cbn. rewrite land_xmit_mask by exact Hk.
      apply Z.mod_pos_bound. now apply xmit_size_pos. }
    specialize (IH x' Hx'). cbv zeta in IH.
    destruct (circ_to_linear n x') as [l x''].
    cbn [fst snd] in *.
    destruct IH as [Ht [Hh [Hb Hl]]].
    repeat split.
    + rewrite Ht. unfold x'. cbn [cb_tail set_cb_tail].
      rewrite land_xmit_mask by exact Hk.
      rewrite Zplus_mod_idemp_l. f_equal. lia.
    + rewrite Hh. reflexivity.
    + rewrite Hb. reflexivity.
    + cbn. now rewrite Hl.
Qed.

(** C7.  With the port active, not flow-stopped and data pending, a failed
    read of the free-space register counts as zero headroom; and when the
    headroom is zero or above the staging capacity of 128 the engine
    returns having issued no bulk write, with the ring and the counters as
    they were, having logged (an error naming the invalid value in the
    over-capacity case) and with its work item queued. *)
Theorem handle_tx_backs_off (s : sys HW) (t : tty_struct) (r : result Z)
  (h : HW) :
  tty (port (drv s)) = Some t ->
  uart_tx_stopped t (port (drv s)) = false ->
  uart_circ_chars_pending (xmit (port (drv s))) <> 0 ->
  regmap_read MCA_REG_UART_TXLVL (hw s) = (r, h) ->
  tx_headroom r = 0 \/ tx_headroom r > MCA_UART_TX_FIFO_SIZE ->
  exists s',
    mca_uart_handle_tx s = Done tt s' /\
    port (drv s') = port (drv s) /\
    tx_work (drv s') = true /\
    trace s' =
      trace s ++ [E_regmap_read MCA_REG_UART_TXLVL (result_u32 r)]
      ++ tx_backoff_log r
      ++ (if tx_work (drv s) then [] else [E_schedule_work TX_WORK]) /\
    count is_bulk_write (emitted s s') = 0 /\
    0 < count is_log (emitted s s').
Proof.
  intros Htty Hstop Hpend Hread Hroom.
  assert (Hne := chars_pending_nonempty _ Hpend).
  apply Z.eqb_neq in Hpend.
  unfold mca_uart_handle_tx. run_monad.
  rewrite Htty, Hne, Hstop. cbn [orb]. rewrite Hpend. rewrite Hread.
  unfold tx_headroom, tx_backoff_log, MCA_UART_TX_FIFO_SIZE in *.
  assert (Hem : forall (s' : sys HW) l, trace s' = trace s ++ l ->
                emitted s s' = l).
  { intros s' l E. unfold emitted. rewrite E.
    rewrite skipn_app, skipn_all, Nat.sub_diag. reflexivity. }
  assert (Hfin : forall (l : list event) (d : mca_uart) (s0 : sys HW),
            drv s0 = d -> trace s0 = trace s ++ l ->
            port d = port (drv s) -> tx_work d = true ->
            count is_bulk_write l = 0 -> 0 < count is_log l ->
            port (drv s0) = port (drv s) /\ tx_work (drv s0) = true /\
            trace s0 = trace s ++ l /\
            count is_bulk_write (emitted s s0) = 0 /\
            0 < count is_log (emitted s s0)).
  { intros l d s0 Hd Ht Hp Hw Hb Hl. subst d.
    rewrite (Hem s0 l Ht). auto. }
  destruct r as [v | e]; cbn [tx_headroom] in *; msimpl.
  - destruct (Z.eqb_spec (u32 v) 0) as [E0 | E0]; msimpl.
    + destruct (tx_work (drv s)) eqn:Ew;
        eexists; (split; [reflexivity |]);
        (eapply Hfin; [reflexivity | cbn; repeat rewrite <- app_assoc;
                                     reflexivity | ..]);
        cbn; try reflexivity; try exact Ew; lia.
    + destruct (Z.gtb_spec (u32 v) 128) as [E1 | E1]; [| lia]. msimpl.
      destruct (tx_work (drv s)) eqn:Ew;
        eexists; (split; [reflexivity |]);
        (eapply Hfin; [reflexivity | cbn; repeat rewrite <- app_assoc;
                                     reflexivity | ..]);
        cbn; try reflexivity; try exact Ew; lia.
  - cbn [Z.eqb]. msimpl.
    destruct (tx_work (drv s)) eqn:Ew;
      eexists; (split; [reflexivity |]);
      (eapply Hfin; [reflexivity | cbn; repeat rewrite <- app_assoc;
                                   reflexivity | ..]);
      cbn; try reflexivity; try exact Ew; lia.
Qed.

Lemma chars_pending_after (x x' : circ_buf) (n : Z) :
  0 <= PAGE_SHIFT ->
  0 <= n <= uart_circ_chars_pending x ->
  cb_head x' = cb_head x ->
  cb_tail x' = (cb_tail x + n) mod UART_XMIT_SIZE ->
  uart_circ_chars_pending x' = uart_circ_chars_pending x - n.
Proof.
  intros Hk Hn Hh Ht.
  pose proof (chars_pending_range x Hk) as Hr.
  unfold uart_circ_chars_pending in *.
  rewrite land_xmit_mask in Hn, Hr by exact Hk.
  rewrite !land_xmit_mask by exact Hk.
  rewrite Hh, Ht. rewrite Zminus_mod_idemp_r.
  replace (cb_head x - (cb_tail x + n)) with (cb_head x - cb_tail x - n) by lia.
  rewrite <- Zminus_mod_idemp_l.
  apply Z.mod_small. lia.
Qed.

Lemma tx_write_wakeup_drv (s0 : sys HW) :
  exists s1, tx_write_wakeup s0 = Done tt s1 /\ drv s1 = drv s0.
Proof.
  unfold tx_write_wakeup. run_monad.
  destruct (_ <? _); eexists; split; reflexivity.
Qed.

(** C5 (amended).  With the port active, the ring non-empty and the channel
    not flow-stopped, the engine returns with the tail moved round the ring
    by exactly [n] places, the pending count down by [n] and the
    transmitted-byte counter up by [n] (as a 32-bit counter), where [n] is
    min(pending, min(headroom, 128)) when the headroom read is at most the
    staging capacity of 128, and zero when the headroom exceeds 128; a
    failed read counts as zero headroom. *)
Theorem handle_tx_advances_tail (s : sys HW) (t : tty_struct) (r : result Z)
  (h : HW) :
  0 <= PAGE_SHIFT ->
  0 <= cb_tail (xmit (port (drv s))) < UART_XMIT_SIZE ->
  0 <= ic_tx (icount (port (drv s))) < 2 ^ 32 ->
  tty (port (drv s)) = Some t ->
  uart_circ_empty (xmit (port (drv s))) = false ->
  uart_tx_stopped t (port (drv s)) = false ->
  regmap_read MCA_REG_UART_TXLVL (hw s) = (r, h) ->
  let pending := uart_circ_chars_pending (xmit (port (drv s))) in
  let n :=
    if tx_headroom r >? MCA_UART_TX_FIFO_SIZE then 0
    else Z.min pending (Z.min (tx_headroom r) MCA_UART_TX_FIFO_SIZE) in
  exists s',
    mca_uart_handle_tx s = Done tt s' /\
    cb_tail (xmit (port (drv s')))
      = (cb_tail (xmit (port (drv s))) + n) mod UART_XMIT_SIZE /\
    uart_circ_chars_pending (xmit (port (drv s'))) = pending - n /\
    ic_tx (icount (port (drv s')))
      = u32 (ic_tx (icount (port (drv s))) + n).
Proof.
  intros Hk Htail Htx Htty Hne Hstop Hread pending n.
  pose proof (chars_pending_range (xmit (port (drv s))) Hk) as Hpr.
  fold pending in Hpr.
  assert (Hhr : 0 <= tx_headroom r).
  { destruct r; cbn; [apply u32_range | lia]. }
  (* a run that leaves the port as it was: n must be zero *)
  assert (Hsame : forall s0 : sys HW,
            n = 0 -> port (drv s0) = port (drv s) ->
            cb_tail (xmit (port (drv s0)))
              = (cb_tail (xmit (port (drv s))) + n) mod UART_XMIT_SIZE /\
            uart_circ_chars_pending (xmit (port (drv s0))) = pending - n /\
            ic_tx (icount (port (drv s0)))
              = u32 (ic_tx (icount (port (drv s))) + n)).
  { intros s0 Hn Hp. rewrite Hp, Hn, !Z.add_0_r, Z.sub_0_r.
    rewrite Z.mod_small by exact Htail.
    rewrite u32_small by exact Htx. auto. }
  unfold mca_uart_handle_tx. run_monad.
  rewrite Htty, Hne, Hstop. cbn [orb]. fold pending.
  destruct (Z.eqb_spec pending 0) as [Ep | Ep].
  { destruct (tx_write_wakeup_drv s) as [s1 [Hrun Hd]].
    exists s1. split; [exact Hrun |].
    apply Hsame; [| now rewrite Hd].
    unfold n, MCA_UART_TX_FIFO_SIZE. destruct (_ >? _); lia. }
  msimpl. rewrite Hread.
  destruct r as [v | e]; cbn [tx_headroom] in *; msimpl.
  - destruct (Z.eqb_spec (u32 v) 0) as [E0 | E0]; msimpl.
    { destruct (tx_work (drv s)); eexists; (split; [reflexivity |]);
        (apply Hsame; [| reflexivity]);
        unfold n, MCA_UART_TX_FIFO_SIZE; destruct (_ >? _); lia. }
    destruct (Z.gtb_spec (u32 v) MCA_UART_TX_FIFO_SIZE) as [E1 | E1]; msimpl.
    { destruct (tx_work (drv s)); eexists; (split; [reflexivity |]);
        (apply Hsame; [| reflexivity]); reflexivity. }
    set (m := if pending >? u32 v then u32 v else pending).
    assert (Hm : m = n).
    { unfold m, n. unfold MCA_UART_TX_FIFO_SIZE in *.
      destruct (Z.gtb_spec pending (u32 v)); lia. }
    assert (Hmr : 0 <= m <= pending).
    { unfold m. pose proof (u32_range v).
      destruct (Z.gtb_spec pending (u32 v)); lia. }
    cbn [port set_port xmit set_icount icount set_ic_tx ic_tx].
    pose proof (circ_to_linear_spec (Z.to_nat m) (xmit (port (drv s))) Hk Htail)
      as Hloop.
    cbv zeta in Hloop. rewrite Z2Nat.id in Hloop by lia.
    destruct (circ_to_linear (Z.to_nat m) (xmit (port (drv s))))
      as [tx_buf x'].
    cbn [fst snd] in Hloop. destruct Hloop as [Ht [Hh [Hb Hl]]].
    msimpl.
    destruct (regmap_bulk_write MCA_REG_UART_THR tx_buf h) as [rw h'].
    destruct (negb (rw =? 0)); msimpl;
      match goal with
      | |- context [tx_write_wakeup ?s0] =>
          destruct (tx_write_wakeup_drv s0) as [s1 [Hrun Hd]]
      end;
      (exists s1; split; [exact Hrun |]); rewrite Hd;
      cbn [drv port set_port xmit set_xmit icount set_icount ic_tx set_ic_tx];
      rewrite <- Hm;
      (split; [exact Ht |]);
      (split; [apply chars_pending_after; assumption | reflexivity]).
  - cbn [Z.eqb]. msimpl.
    destruct (tx_work (drv s)); eexists; (split; [reflexivity |]);
      (apply Hsame; [| reflexivity]);
      unfold n, MCA_UART_TX_FIFO_SIZE; cbn; lia.
Qed.

End TxEngine.

Lemma handle_tx_backs_off_witness :
  exists s',
    mca_uart_handle_tx (boot (idle_uart [1; 2; 3; 4; 5] 0)
                          (quiet_board 200 [] 0)) = Done tt s' /\
    port (drv s') = open_port [1; 2; 3; 4; 5] /\
    tx_work (drv s') = true /\
    trace s' =
      [E_regmap_read MCA_REG_UART_TXLVL (Ok 200);
       E_log LOG_ERR "Invalid MCA_REG_UART_TXLVL value %d";
       E_schedule_work TX_WORK].
Proof.
  destruct (handle_tx_backs_off
              (boot (idle_uart [1; 2; 3; 4; 5] 0) (quiet_board 200 [] 0))
              (mk_tty false) (Ok 200) (quiet_board 200 [] 0))
    as [s' [Hrun [Hport [Hwork [Htr _]]]]].
  - reflexivity.
  - reflexivity.
  - vm_compute. discriminate.
  - reflexivity.
  - right. vm_compute. reflexivity.
  - exists s'. repeat split; assumption.
Defined.

Lemma handle_tx_advances_tail_witness :
  exists s',
    mca_uart_handle_tx (boot (idle_uart [1; 2; 3; 4; 5] 0)
                          (quiet_board 3 [] 0)) = Done tt s' /\
    cb_tail (xmit (port (drv s'))) = 3 /\
    uart_circ_chars_pending (xmit (port (drv s'))) = 2 /\
    ic_tx (icount (port (drv s'))) = 3.
Proof.
  destruct (handle_tx_advances_tail
              (boot (idle_uart [1; 2; 3; 4; 5] 0) (quiet_board 3 [] 0))
              (mk_tty false) (Ok 3) (quiet_board 3 [] 0))
    as [s' [Hrun [Htail [Hpend Htx]]]].
  - vm_compute. discriminate.
  - vm_compute. split; [discriminate | reflexivity].
  - vm_compute. split; [discriminate | reflexivity].
  - reflexivity.
  - reflexivity.
  - reflexivity.
  - reflexivity.
  - exists s'. repeat split; assumption.
Defined.

(** C5 as stated fails when the free-space register reads above the staging
    capacity: with 5 bytes pending and a headroom of 200 the formula gives
    min(5, min(200, 128)) = 5, and the engine moves the tail and the
    counter by 0. *)
Lemma handle_tx_headroom_200_no_advance :
  let s := boot (idle_uart [1; 2; 3; 4; 5] 0) (quiet_board 200 [] 0) in
  let s' := final (mca_uart_handle_tx s) in
  let pending := uart_circ_chars_pending (xmit (port (drv s))) in
  let headroom := tx_headroom (fst (regmap_read MCA_REG_UART_TXLVL (hw s))) in
  tty (port (drv s)) = Some (mk_tty false) /\
  uart_circ_empty (xmit (port (drv s))) = false /\
  uart_tx_stopped (mk_tty false) (port (drv s)) = false /\
  pending = 5 /\ headroom = 200 /\
  Z.min pending (Z.min headroom MCA_UART_TX_FIFO_SIZE) = 5 /\
  cb_tail (xmit (port (drv s'))) = cb_tail (xmit (port (drv s))) /\
  ic_tx (icount (port (drv s'))) = ic_tx (icount (port (drv s))) /\
  cb_tail (xmit (port (drv s'))) - cb_tail (xmit (port (drv s)))
    <> Z.min pending (Z.min headroom MCA_UART_TX_FIFO_SIZE).
Proof.
  cbv zeta. repeat split; try reflexivity.
  vm_compute. discriminate.
Qed.

(** ** RX engine *)

Section RxEngine.
Context {R : mca_registers} {K : kernel_constants}.
Context {HW : Type} {C : collaborators HW}.

Lemma count_app (p : event -> bool) (l1 l2 : list event) :
  count p (l1 ++ l2) = count p l1 + count p l2.
Proof.
  unfold count. rewrite filter_app, length_app. lia.
Qed.

Lemma count_nonneg (p : event -> bool) (l : list event) : 0 <= count p l.
Proof. unfold count. lia. Qed.

Lemma u32_add_l (a b : Z) : u32 (u32 a + b) = u32 (a + b).
Proof. unfold u32. apply Zplus_mod_idemp_l. Qed.

Lemma u32_add_l3 (a b c : Z) : u32 (u32 a + b + c) = u32 (a + b + c).
Proof. rewrite <- !Z.add_assoc. apply u32_add_l. Qed.

(** [rx_classify] calls nobody; it raises the overrun counter by one
    exactly when it answers [TTY_OVERRUN]. *)
Lemma rx_classify_spec (code : Z) (s : sys HW) :
  exists flag s',
    rx_classify code s = Done flag s' /\
    trace s' = trace s /\ hw s' = hw s /\
    ic_overrun (icount (port (drv s')))
      = match flag with
        | TTY_OVERRUN => u32 (ic_overrun (icount (port (drv s))) + 1)
        | _ => ic_overrun (icount (port (drv s)))
        end.
Proof.
  unfold rx_classify. run_monad.
  repeat match goal with
         | |- context [if ?b then _ else _] => destruct b
         end;
    eexists; eexists; (split; [reflexivity |]); cbn; auto.
Qed.

Lemma count_cons (p : event -> bool) (e : event) (l : list event) :
  count p (e :: l) = (if p e then 1 else 0) + count p l.
Proof.
  unfold count. cbn [filter]. destruct (p e); cbn [List.length]; lia.
Qed.

Lemma count_nil (p : event -> bool) : count p [] = 0.
Proof. reflexivity. Qed.

(** The receive loop over [n] bytes: it returns, adds only sysrq, insert
    and error-log events, and keeps the books of [rx_accounting]. *)
Lemma rx_loop_spec (n : nat) :
  forall (i : Z) (has_errors : bool) (rx_buf error_buf : list Z)
         (flag : tty_flag) (s : sys HW),
    0 <= ic_overrun (icount (port (drv s))) < 2 ^ 32 ->
    (has_errors = false -> flag <> TTY_OVERRUN) ->
    exists s' l,
      rx_loop n i has_errors rx_buf error_buf flag s = Done tt s' /\
      trace s' = trace s ++ l /\
      rx_accounting (Z.of_nat n) l
        (ic_overrun (icount (port (drv s))))
        (ic_overrun (icount (port (drv s')))) /\
      count is_flush l = 0 /\ count is_bulk_read l = 0.
Proof.
  induction n as [| n IH]; intros i he rx eb flag s Hov Hflag.
  - exists s, []. cbn [rx_loop]. unfold ret, rx_accounting.
    rewrite app_nil_r, !count_nil, !Z.add_0_r, u32_small by exact Hov.
    cbn. repeat split; lia.
  - cbn [rx_loop]. set (ch := u8 (nth (Z.to_nat i) rx 0)).
    run_monad.
    destruct (uart_handle_sysrq_char ch (hw s)) as [c h1].
    destruct c; msimpl.
    + (* taken by sysrq: continue *)
      match goal with
      | |- context [rx_loop n _ _ _ _ _ ?s0] =>
          destruct (IH (i + 1) he rx eb flag s0 Hov Hflag)
            as [s' [l [Hrun [Htr [Hacc [Hfl Hbr]]]]]]
      end.
      exists s', (E_sysrq ch true :: l). split; [exact Hrun |].
      cbn [drv hw trace] in *.
      split; [rewrite Htr, <- app_assoc; reflexivity |].
      unfold rx_accounting in *. rewrite !count_cons. cbn [is_forwarded
        is_sysrq_consumed is_rejected is_overrun_push is_flush is_bulk_read].
      destruct Hacc as [H1 [H2 [H3 H4]]].
      repeat split; try lia; try (rewrite H4; f_equal; lia).
    + (* classified and handed to the sink *)
      assert (Hcls : exists flag' s1,
                 (if he
                  then rx_classify (u8 (nth (Z.to_nat i) eb 0))
                  else fun s0 => Done flag s0)
                   (mk_sys (drv s) h1 (trace s ++ [E_sysrq ch false]))
                   = Done flag' s1 /\
                 trace s1 = trace s ++ [E_sysrq ch false] /\ hw s1 = h1 /\
                 (he = false -> flag' <> TTY_OVERRUN) /\
                 ic_overrun (icount (port (drv s1)))
                   = match flag' with
                     | TTY_OVERRUN =>
                         u32 (ic_overrun (icount (port (drv s))) + 1)
                     | _ => ic_overrun (icount (port (drv s)))
                     end).
      { destruct he.
        - destruct (rx_classify_spec (u8 (nth (Z.to_nat i) eb 0))
                      (mk_sys (drv s) h1 (trace s ++ [E_sysrq ch false])))
            as [f [s1 [Hr [Ht [Hh Ho]]]]].
          exists f, s1. cbn [drv hw trace] in *.
          repeat split; try assumption. discriminate.
        - eexists; eexists. split; [reflexivity |]. cbn [drv hw trace].
          repeat split; try assumption.
          specialize (Hflag eq_refl). destruct flag; congruence. }
      destruct Hcls as [flag' [s1 [Hr1 [Ht1 [Hh1 [Hf1 Ho1]]]]]].
      rewrite Hr1. msimpl. rewrite Hh1.
      destruct (tty_insert_flip_char ch flag' h1) as [r h2].
      assert (Hov1 : 0 <= ic_overrun (icount (port (drv s1))) < 2 ^ 32).
      { rewrite Ho1. destruct flag'; try exact Hov; apply u32_range. }
      destruct (Z.eqb_spec r 0) as [Er | Er]; msimpl.
      * (* turned down: count an overrun and stop *)
        eexists.
        exists [E_sysrq ch false; E_tty_insert_flip_char ch flag' r;
                E_log LOG_ERR "tty_insert_flip_char failed for %x"].
        split; [reflexivity |]. cbn [drv hw trace].
        split; [rewrite Ht1, <- !app_assoc; reflexivity |].
        cbn [port set_port icount set_icount ic_overrun set_ic_overrun].
        unfold rx_accounting. rewrite !count_cons, !count_nil.
        cbn [is_forwarded is_sysrq_consumed is_rejected is_overrun_push
             is_flush is_bulk_read].
        subst r. cbn [Z.eqb negb].
        rewrite Ho1.
        destruct flag'; repeat split; try lia;
          rewrite ?u32_add_l; f_equal; lia.
      * (* accepted: next byte *)
        match goal with
        | |- context [rx_loop n _ _ _ _ _ ?s0] =>
            destruct (IH (i + 1) he rx eb flag' s0 Hov1 Hf1)
              as [s' [l [Hrun [Htr [Hacc [Hfl Hbr]]]]]]
        end.
        exists s', (E_sysrq ch false :: E_tty_insert_flip_char ch flag' r :: l).
        split; [exact Hrun |]. cbn [drv hw trace] in *.
        split; [rewrite Htr, Ht1, <- !app_assoc; reflexivity |].
        unfold rx_accounting in *. rewrite !count_cons.
        cbn [is_forwarded is_sysrq_consumed is_rejected is_overrun_push
             is_flush is_bulk_read].
        apply Z.eqb_neq in Er. rewrite Er. cbn [negb].
        destruct Hacc as [H1 [H2 [H3 H4]]].
        rewrite H4, Ho1.
        destruct flag'; repeat split; try lia;
          rewrite ?u32_add_l3; f_equal; lia.
Qed.

(** From the data read on, a pass has one of two shapes: the read fails
    twice and nothing but the flush follows, or it succeeds, the loop runs
    and the flush follows. *)
Lemma rx_data_spec (level : Z) (has_errors : bool) (error_buf : list Z)
  (s : sys HW) :
  0 <= level ->
  0 <= ic_overrun (icount (port (drv s))) < 2 ^ 32 ->
  exists s' evs,
    rx_data level has_errors error_buf s = Done tt s' /\
    trace s' = trace s ++ evs /\
    ((exists e1 e2,
        evs = rx_abort_events level e1 e2 /\
        ic_overrun (icount (port (drv s')))
          = ic_overrun (icount (port (drv s)))) \/
     (exists first data l,
        evs = rx_read_events level first data ++ l ++ [E_tty_flip_buffer_push]
        /\ rx_accounting level l
             (ic_overrun (icount (port (drv s))))
             (ic_overrun (icount (port (drv s'))))
        /\ count is_flush l = 0 /\ count is_bulk_read l = 0)).
Proof.
  intros Hlevel Hov.
  unfold rx_data. run_monad.
  assert (Hloop : forall (rx_buf : list Z) (s0 : sys HW) (pre : list event),
            trace s0 = trace s ++ pre ->
            ic_overrun (icount (port (drv s0)))
              = ic_overrun (icount (port (drv s))) ->
            exists s' l,
              rx_loop (Z.to_nat level) 0 has_errors rx_buf error_buf
                TTY_NORMAL s0 = Done tt s' /\
              trace s' = trace s ++ pre ++ l /\
              rx_accounting level l
                (ic_overrun (icount (port (drv s))))
                (ic_overrun (icount (port (drv s')))) /\
              count is_flush l = 0 /\ count is_bulk_read l = 0).
  { intros rx_buf s0 pre Ht Ho.
    destruct (rx_loop_spec (Z.to_nat level) 0 has_errors rx_buf error_buf
                TTY_NORMAL s0) as [s' [l [Hrun [Htr [Hacc H0]]]]].
    - rewrite Ho. exact Hov.
    - discriminate.
    - exists s', l. split; [exact Hrun |].
      split; [rewrite Htr, Ht, <- app_assoc; reflexivity |].
      rewrite Z2Nat.id, Ho in Hacc by exact Hlevel. auto. }
  destruct (regmap_bulk_read MCA_REG_UART_RHR level (hw s)) as [[b | e1] h1];
    msimpl.
  - match goal with
    | |- context [rx_loop _ _ _ _ _ _ ?s0] =>
        destruct (Hloop b s0
                    [E_regmap_bulk_read MCA_REG_UART_RHR level (Ok b)]
                    eq_refl eq_refl)
          as [s' [l [Hrun [Htr [Hacc [Hfl Hbr]]]]]]
    end.
    rewrite Hrun. msimpl.
    eexists. eexists. split; [reflexivity |]. cbn [drv hw trace].
    split; [rewrite Htr, <- !app_assoc; reflexivity |].
    right. exists None, b, l.
    split; [reflexivity |]. split; [exact Hacc |]. split; assumption.
  - destruct (regmap_bulk_read MCA_REG_UART_RHR level h1) as [[b | e2] h2];
      msimpl.
    + match goal with
      | |- context [rx_loop _ _ _ _ _ _ ?s0] =>
          destruct (Hloop b s0 (rx_read_events level (Some e1) b))
            as [s' [l [Hrun [Htr [Hacc [Hfl Hbr]]]]]];
            [cbn; rewrite <- !app_assoc; reflexivity | reflexivity |]
      end.
      rewrite Hrun. msimpl.
      eexists. eexists. split; [reflexivity |]. cbn [drv hw trace].
      split; [rewrite Htr, <- !app_assoc; reflexivity |].
      right. exists (Some e1), b, l.
      split; [reflexivity |]. split; [exact Hacc |]. split; assumption.
    + eexists. eexists. split; [reflexivity |]. cbn [drv hw trace].
      split; [rewrite <- !app_assoc; reflexivity |].
      left. exists e1, e2. split; reflexivity.
Qed.

(** Every call of [mca_uart_handle_rx] returns, and its transcript has one
    of the three shapes. *)
Lemma handle_rx_shapes (has_errors : bool) (s : sys HW) :
  0 <= ic_overrun (icount (port (drv s))) < 2 ^ 32 ->
  exists s' evs,
    mca_uart_handle_rx has_errors s = Done tt s' /\
    trace s' = trace s ++ evs /\
    let ov := ic_overrun (icount (port (drv s))) in
    let ov' := ic_overrun (icount (port (drv s'))) in
    rx_stopped_early evs ov ov' \/ rx_aborted evs ov ov'
    \/ rx_delivered evs ov ov'.
Proof.
  intros Hov. cbv zeta.
  unfold mca_uart_handle_rx. run_monad.
  assert (Hdata : forall (level : Z) (he : bool) (eb : list Z)
                         (s0 : sys HW) (pre : list event),
            0 <= level ->
            trace s0 = trace s ++ rx_opening level pre ->
            forallb is_prelude pre = true ->
            drv s0 = drv s ->
            exists s' evs,
              rx_data level he eb s0 = Done tt s' /\
              trace s' = trace s ++ evs /\
              (rx_stopped_early evs (ic_overrun (icount (port (drv s))))
                 (ic_overrun (icount (port (drv s')))) \/
               rx_aborted evs (ic_overrun (icount (port (drv s))))
                 (ic_overrun (icount (port (drv s')))) \/
               rx_delivered evs (ic_overrun (icount (port (drv s))))
                 (ic_overrun (icount (port (drv s')))))).
  { intros level he eb s0 pre Hl Ht Hp Hd.
    destruct (rx_data_spec level he eb s0 Hl) as [s' [evs [Hrun [Htr Hsh]]]].
    - rewrite Hd. exact Hov.
    - exists s', (rx_opening level pre ++ evs).
      split; [exact Hrun |].
      split; [rewrite Htr, Ht, <- app_assoc; reflexivity |].
      rewrite Hd in Hsh.
      destruct Hsh as [[e1 [e2 [He Ho]]] | [first [data [l [He Hrest]]]]].
      + right. left. exists pre, level, e1, e2. subst evs. auto.
      + right. right. exists pre, level, first, data, l. subst evs. auto. }
  destruct (regmap_read MCA_REG_UART_RXLVL (hw s)) as [[v | e] h1]; msimpl.
  2: { eexists. eexists. split; [reflexivity |]. cbn [drv hw trace].
       split; [rewrite <- !app_assoc; reflexivity |].
       left. split; reflexivity. }
  pose proof (u32_range v) as Hv.
  destruct (Z.eqb_spec (u32 v) 0) as [E0 | E0]; msimpl.
  { eexists. eexists. split; [reflexivity |]. cbn [drv hw trace].
    split; [rewrite <- !app_assoc; reflexivity |].
    left. split; reflexivity. }
  destruct has_errors; msimpl.
  2: { apply (Hdata (u32 v) false [] _ []); try reflexivity; try lia.
       cbn [drv hw trace]. rewrite <- !app_assoc. reflexivity. }
  destruct (regmap_read MCA_REG_UART_LSR h1) as [[lsr | e] h2]; msimpl.
  2: { eexists. eexists. split; [reflexivity |]. cbn [drv hw trace].
       split; [rewrite <- !app_assoc; reflexivity |].
       left. split; reflexivity. }
  destruct (Z.eqb_spec (u32 lsr) 0) as [El | El]; cbn [negb]; msimpl.
  { apply (Hdata (u32 v) false [] _
             [E_regmap_read MCA_REG_UART_LSR (Ok (u32 lsr))]);
      try reflexivity; try lia.
    cbn [drv hw trace]. rewrite <- !app_assoc. reflexivity. }
  destruct (regmap_bulk_read MCA_REG_UART_RX_ERRORS (u32 v) h2)
    as [[eb | e] h3]; msimpl.
  - apply (Hdata (u32 v) true eb _
             [E_regmap_read MCA_REG_UART_LSR (Ok (u32 lsr));
              E_regmap_bulk_read MCA_REG_UART_RX_ERRORS (u32 v) (Ok eb)]);
      try reflexivity; try lia.
    + cbn [drv hw trace]. rewrite <- !app_assoc. reflexivity.
    + cbn. rewrite Z.eqb_refl. reflexivity.
  - eexists. eexists. split; [reflexivity |]. cbn [drv hw trace].
    split; [rewrite <- !app_assoc; reflexivity |].
    left. split; [| reflexivity]. cbn. rewrite Z.eqb_refl. reflexivity.
Qed.

Lemma count_zero_iff (p : event -> bool) (l : list event) :
  count p l = 0 <-> (forall e, In e l -> p e = false).
Proof.
  induction l as [| a l IH].
  - split; [intros _ e [] | reflexivity].
  - rewrite count_cons. pose proof (count_nonneg p l) as Hn. split.
    + intros H e [<- | Hin].
      * destruct (p a); [lia | reflexivity].
      * apply IH; [destruct (p a); lia | exact Hin].
    + intros H. rewrite (H a (or_introl eq_refl)).
      rewrite (proj2 IH); [reflexivity |].
      intros e Hin. apply H. now right.
Qed.

(** Nothing in a prelude is seen by a predicate that no prelude event
    satisfies. *)
Lemma prelude_count_zero (p : event -> bool) (l : list event) :
  (forall e, is_prelude e = true -> p e = false) ->
  forallb is_prelude l = true -> count p l = 0.
Proof.
  intros Hp Hl. apply count_zero_iff. intros e Hin.
  apply Hp. rewrite forallb_forall in Hl. now apply Hl.
Qed.

Lemma prelude_no_data_read (e : event) :
  MCA_REG_UART_RHR <> MCA_REG_UART_RX_ERRORS ->
  is_prelude e = true -> is_bulk_read_of MCA_REG_UART_RHR e = false.
Proof.
  intros Hne. destruct e; cbn; try reflexivity.
  intros H. apply Z.eqb_eq in H. subst reg.
  apply Z.eqb_neq. congruence.
Qed.

Lemma existsb_count (p : event -> bool) (l : list event) :
  existsb p l = false <-> count p l = 0.
Proof.
  rewrite count_zero_iff. split.
  - intros H e Hin. destruct (p e) eqn:E; [| reflexivity].
    assert (existsb p l = true) by (apply existsb_exists; eauto).
    congruence.
  - intros H. destruct (existsb p l) eqn:E; [| reflexivity].
    apply existsb_exists in E. destruct E as [e [Hin He]].
    rewrite (H e Hin) in He. discriminate.
Qed.

Lemma count_weaken (p q : event -> bool) (l : list event) :
  (forall e, q e = true -> p e = true) -> count p l = 0 -> count q l = 0.
Proof.
  intros Hpq. rewrite !count_zero_iff. intros H e Hin.
  destruct (q e) eqn:E; [| reflexivity].
  rewrite <- (H e Hin). symmetry. now apply Hpq.
Qed.

(** Every bulk read of a call of [mca_uart_handle_rx], of the error vector
    or of the data, asks for as many bytes as the level the call read. *)
Lemma handle_rx_reads_level (has_errors : bool) (s : sys HW) :
  0 <= ic_overrun (icount (port (drv s))) < 2 ^ 32 ->
  exists s' evs,
    mca_uart_handle_rx has_errors s = Done tt s' /\
    trace s' = trace s ++ evs /\
    forall reg n res,
      In (E_regmap_bulk_read reg n res) evs ->
      exists v,
        fst (regmap_read MCA_REG_UART_RXLVL (hw s)) = Ok v /\ n = u32 v.
Proof.
  intros Hov.
  unfold mca_uart_handle_rx. run_monad.
  assert (Hdata : forall (level : Z) (he : bool) (eb : list Z)
                         (s0 : sys HW) (pre : list event),
            0 <= level ->
            trace s0 = trace s ++ pre ->
            (forall reg n res,
               In (E_regmap_bulk_read reg n res) pre -> n = level) ->
            drv s0 = drv s ->
            exists s' evs,
              rx_data level he eb s0 = Done tt s' /\
              trace s' = trace s ++ evs /\
              forall reg n res,
                In (E_regmap_bulk_read reg n res) evs -> n = level).
  { intros level he eb s0 pre Hl Ht Hp Hd.
    destruct (rx_data_spec level he eb s0 Hl) as [s' [evs [Hrun [Htr Hsh]]]].
    - rewrite Hd. exact Hov.
    - exists s', (pre ++ evs).
      split; [exact Hrun |].
      split; [rewrite Htr, Ht, <- app_assoc; reflexivity |].
      intros reg n res Hin. apply in_app_or in Hin.
      destruct Hin as [Hin | Hin]; [now apply (Hp reg n res) |].
      destruct Hsh as [[e1 [e2 [He _]]] | [first [data [l [He [_ [_ Hbr]]]]]]];
        subst evs.
      + cbn in Hin.
        repeat (destruct Hin as [Hin | Hin];
                [first [discriminate Hin | injection Hin as _ <- _; reflexivity]
                |]).
        destruct Hin.
      + apply in_app_or in Hin. destruct Hin as [Hin | Hin].
        * destruct first; cbn in Hin;
            repeat (destruct Hin as [Hin | Hin];
                    [first [discriminate Hin
                           | injection Hin as _ <- _; reflexivity] |]);
            destruct Hin.
        * apply in_app_or in Hin. destruct Hin as [Hin | Hin].
          { exfalso. rewrite count_zero_iff in Hbr.
            specialize (Hbr _ Hin). discriminate Hbr. }
          { cbn in Hin. destruct Hin as [Hin | []]. discriminate Hin. } }
  destruct (regmap_read MCA_REG_UART_RXLVL (hw s)) as [[v | e] h1] eqn:Elvl;
    msimpl.
  2: { eexists. eexists. split; [reflexivity |]. cbn [drv hw trace].
       split; [rewrite <- !app_assoc; reflexivity |].
       intros reg n res Hin. cbn in Hin.
       repeat (destruct Hin as [Hin | Hin]; [discriminate Hin |]).
       destruct Hin. }
  pose proof (u32_range v) as Hv.
  assert (Hk : forall (s0 : sys HW) (he : bool) (eb : list Z)
                      (pre : list event),
            trace s0
              = trace s ++ [E_log LOG_DBG "<%s>";
                            E_regmap_read MCA_REG_UART_RXLVL (Ok (u32 v))]
                ++ pre ->
            (forall reg n res,
               In (E_regmap_bulk_read reg n res) pre -> n = u32 v) ->
            drv s0 = drv s ->
            exists s' evs,
              rx_data (u32 v) he eb s0 = Done tt s' /\
              trace s' = trace s ++ evs /\
              forall reg n res,
                In (E_regmap_bulk_read reg n res) evs ->
                exists v0, fst (Ok v, h1) = Ok v0 /\ n = u32 v0).
  { intros s0 he eb pre Ht Hp Hd.
    destruct (Hdata (u32 v) he eb s0
                ([E_log LOG_DBG "<%s>";
                  E_regmap_read MCA_REG_UART_RXLVL (Ok (u32 v))] ++ pre))
      as [s' [evs [Hrun [Htr Hall]]]]; try assumption; try lia.
    - intros reg n res Hin. cbn in Hin.
      destruct Hin as [Hin | [Hin | Hin]]; try discriminate Hin.
      now apply (Hp reg n res).
    - exists s', evs. split; [exact Hrun |]. split; [exact Htr |].
      intros reg n res Hin. exists v. split; [reflexivity |].
      now apply (Hall reg n res). }
  destruct (Z.eqb_spec (u32 v) 0) as [E0 | E0]; msimpl.
  { eexists. eexists. split; [reflexivity |]. cbn [drv hw trace].
    split; [rewrite <- !app_assoc; reflexivity |].
    intros reg n res Hin. cbn in Hin.
    repeat (destruct Hin as [Hin | Hin]; [discriminate Hin |]).
    destruct Hin. }
  destruct has_errors; msimpl.
  2: { apply (Hk _ false [] []); try reflexivity.
       - cbn [drv hw trace]. rewrite <- !app_assoc. reflexivity.
       - intros reg n res []. }
  destruct (regmap_read MCA_REG_UART_LSR h1) as [[lsr | e] h2]; msimpl.
  2: { eexists. eexists. split; [reflexivity |]. cbn [drv hw trace].
       split; [rewrite <- !app_assoc; reflexivity |].
       intros reg n res Hin. cbn in Hin.
       repeat (destruct Hin as [Hin | Hin]; [discriminate Hin |]).
       destruct Hin. }
  destruct (Z.eqb_spec (u32 lsr) 0) as [El | El]; cbn [negb]; msimpl.
  { apply (Hk _ false [] [E_regmap_read MCA_REG_UART_LSR (Ok (u32 lsr))]);
      try reflexivity.
    - cbn [drv hw trace]. rewrite <- !app_assoc. reflexivity.
    - intros reg n res Hin. cbn in Hin.
      destruct Hin as [Hin | []]. discriminate Hin. }
  destruct (regmap_bulk_read MCA_REG_UART_RX_ERRORS (u32 v) h2)
    as [[eb | e] h3]; msimpl.
  - apply (Hk _ true eb
             [E_regmap_read MCA_REG_UART_LSR (Ok (u32 lsr));
              E_regmap_bulk_read MCA_REG_UART_RX_ERRORS (u32 v) (Ok eb)]);
      try reflexivity.
    + cbn [drv hw trace]. rewrite <- !app_assoc. reflexivity.
    + intros reg n res Hin. cbn in Hin.
      destruct Hin as [Hin | [Hin | []]]; [discriminate Hin |].
      injection Hin as _ <- _. reflexivity.
  - eexists. eexists. split; [reflexivity |]. cbn [drv hw trace].
    split; [rewrite <- !app_assoc; reflexivity |].
    intros reg n res Hin. exists v. split; [reflexivity |]. cbn in Hin.
    repeat (destruct Hin as [Hin | Hin];
            [first [discriminate Hin | injection Hin as _ <- _; reflexivity] |]).
    destruct Hin.
Qed.

(** Under [rx_level_fits] no bulk read of the call is longer than the
    arrays. *)
Lemma handle_rx_reads_fit (has_errors : bool) (s s' : sys HW)
  (evs : list event) :
  rx_level_fits (hw s) ->
  0 <= ic_overrun (icount (port (drv s))) < 2 ^ 32 ->
  mca_uart_handle_rx has_errors s = Done tt s' ->
  trace s' = trace s ++ evs ->
  forall reg n res,
    In (E_regmap_bulk_read reg n res) evs -> n <= MCA_UART_RX_FIFO_SIZE.
Proof.
  intros Hfit Hov Hrun Htr reg n res Hin.
  destruct (handle_rx_reads_level has_errors s Hov)
    as [s0 [evs0 [Hrun0 [Htr0 Hall]]]].
  rewrite Hrun in Hrun0. injection Hrun0 as <-.
  rewrite Htr in Htr0. apply app_inv_head in Htr0. subst evs0.
  destruct (Hall reg n res Hin) as [v [Hv ->]].
  unfold rx_level_fits in Hfit. rewrite Hv in Hfit. exact Hfit.
Qed.

(** Counts over the fixed parts of a transcript. *)
Ltac count_parts :=
  rewrite ?count_app, ?count_cons, ?count_nil;
  cbn [is_forwarded is_sysrq_consumed is_rejected is_overrun_push is_flush
       is_bulk_read is_bulk_read_of is_failed_bulk_read_of is_log];
  rewrite ?Z.eqb_refl.

(** C6 (amended).  Every call of the RX engine whose level, if it reads
    one, fits the 128-byte arrays returns, and none of its bulk reads asks
    for more than the arrays hold; if it issued the data bulk read, the
    flush of the sink is the last thing it did and it flushed once, also
    when the data read failed twice; if it stopped before the data read
    (failed level read, level zero, failed line-status read, failed
    error-vector read) it did not flush at all. *)
Theorem handle_rx_flushes_after_data_read (has_errors : bool) (s : sys HW) :
  rx_level_fits (hw s) ->
  0 <= ic_overrun (icount (port (drv s))) < 2 ^ 32 ->
  MCA_REG_UART_RHR <> MCA_REG_UART_RX_ERRORS ->
  exists s' evs,
    mca_uart_handle_rx has_errors s = Done tt s' /\
    trace s' = trace s ++ evs /\
    (forall reg n res,
       In (E_regmap_bulk_read reg n res) evs ->
       n <= MCA_UART_RX_FIFO_SIZE) /\
    if existsb (is_bulk_read_of MCA_REG_UART_RHR) evs
    then exists body,
           evs = body ++ [E_tty_flip_buffer_push] /\ count is_flush body = 0
    else count is_flush evs = 0.
Proof.
  intros Hfit Hov Hne.
  destruct (handle_rx_shapes has_errors s Hov) as [s' [evs [Hrun [Htr Hsh]]]].
  exists s', evs. split; [exact Hrun |]. split; [exact Htr |].
  split; [exact (handle_rx_reads_fit has_errors s s' evs Hfit Hov Hrun Htr) |].
  cbv zeta in Hsh.
  assert (Hpre_flush : forall l, forallb is_prelude l = true ->
                                 count is_flush l = 0).
  { intros l. apply prelude_count_zero. intros e; destruct e; cbn; congruence. }
  assert (Hpre_read : forall l, forallb is_prelude l = true ->
            count (is_bulk_read_of MCA_REG_UART_RHR) l = 0).
  { intros l. apply prelude_count_zero. intros e.
    now apply prelude_no_data_read. }
  destruct Hsh as [[Hp Ho] | [Hab | Hde]].
  - rewrite (proj2 (existsb_count _ _) (Hpre_read _ Hp)).
    now apply Hpre_flush.
  - destruct Hab as [pre [level [e1 [e2 [He [Hp Ho]]]]]].
    assert (Hex : existsb (is_bulk_read_of MCA_REG_UART_RHR) evs = true).
    { subst evs. rewrite existsb_app. apply orb_true_iff. right.
      cbn. rewrite Z.eqb_refl. reflexivity. }
    rewrite Hex.
    exists (rx_opening level pre
            ++ removelast (rx_abort_events level e1 e2)).
    split; [subst evs; cbn; rewrite <- ?app_assoc; reflexivity |].
    unfold rx_opening. cbn [removelast rx_abort_events].
    count_parts. rewrite (Hpre_flush _ Hp). reflexivity.
  - destruct Hde as [pre [level [first [data [l [He [Hp [Hacc [Hfl Hbr]]]]]]]]].
    assert (Hex : existsb (is_bulk_read_of MCA_REG_UART_RHR) evs = true).
    { subst evs. rewrite !existsb_app. apply orb_true_iff. right.
      apply orb_true_iff. left.
      destruct first; cbn; rewrite Z.eqb_refl; reflexivity. }
    rewrite Hex.
    exists (rx_opening level pre ++ rx_read_events level first data ++ l).
    split; [subst evs; rewrite <- !app_assoc; reflexivity |].
    unfold rx_opening. destruct first; cbn [rx_read_events];
      count_parts; rewrite (Hpre_flush _ Hp), Hfl; reflexivity.
Qed.

Lemma rx_accounting_ext (n : Z) (l evs : list event) (ov ov' : Z) :
  count is_forwarded evs = count is_forwarded l ->
  count is_sysrq_consumed evs = count is_sysrq_consumed l ->
  count is_rejected evs = count is_rejected l ->
  count is_overrun_push evs = count is_overrun_push l ->
  rx_accounting n l ov ov' -> rx_accounting n evs ov ov'.
Proof.
  unfold rx_accounting. intros -> -> -> ->. auto.
Qed.

(** C3 (amended).  Every call of the RX engine whose level, if it reads
    one, fits the 128-byte arrays returns, and none of its bulk reads asks
    for more than the arrays hold.  If its data bulk read
    succeeded, at the first or at the second attempt, then with [n] the
    level the RXLVL read reported: the bytes forwarded to the sink, the
    bytes taken by sysrq and the byte the sink turned down add up to at
    most [n], and to exactly [n] when the sink turned none down (it turns
    down at most one, and the bytes behind that one are dropped without
    being counted); the overrun counter grows, as a 32-bit counter, by one
    for the byte turned down and by one for every byte handed over with the
    overrun classification.  If the data bulk read failed twice, no byte is
    forwarded, the overrun counter stays and the failure is logged as an
    error.  If the call stopped before the data bulk read (failed level
    read, level zero, failed line-status read, failed error-vector read),
    whatever the level, nothing is offered to the sink or to sysrq and the
    overrun counter stays. *)
Theorem handle_rx_accounting (has_errors : bool) (s : sys HW) :
  rx_level_fits (hw s) ->
  0 <= ic_overrun (icount (port (drv s))) < 2 ^ 32 ->
  MCA_REG_UART_RHR <> MCA_REG_UART_RX_ERRORS ->
  exists s' evs,
    mca_uart_handle_rx has_errors s = Done tt s' /\
    trace s' = trace s ++ evs /\
    (forall reg n res,
       In (E_regmap_bulk_read reg n res) evs ->
       n <= MCA_UART_RX_FIFO_SIZE) /\
    (forall n data,
       In (E_regmap_bulk_read MCA_REG_UART_RHR n (Ok data)) evs ->
       nth 1 evs E_tty_flip_buffer_push
         = E_regmap_read MCA_REG_UART_RXLVL (Ok n) /\
       rx_accounting n evs
         (ic_overrun (icount (port (drv s))))
         (ic_overrun (icount (port (drv s'))))) /\
    (count (is_failed_bulk_read_of MCA_REG_UART_RHR) evs = 2 ->
     count is_forwarded evs = 0 /\
     ic_overrun (icount (port (drv s')))
       = ic_overrun (icount (port (drv s))) /\
     In (E_log LOG_ERR "Failed to read MCA_REG_UART_RHR %d") evs) /\
    (existsb (is_bulk_read_of MCA_REG_UART_RHR) evs = false ->
     count is_forwarded evs = 0 /\
     count is_sysrq_consumed evs = 0 /\
     count is_rejected evs = 0 /\
     ic_overrun (icount (port (drv s')))
       = ic_overrun (icount (port (drv s)))).
Proof.
  intros Hfit Hov Hne.
  destruct (handle_rx_shapes has_errors s Hov) as [s' [evs [Hrun [Htr Hsh]]]].
  exists s', evs. split; [exact Hrun |]. split; [exact Htr |].
  split; [exact (handle_rx_reads_fit has_errors s s' evs Hfit Hov Hrun Htr) |].
  cbv zeta in Hsh.
  (* what a prelude cannot contain *)
  assert (Hpre : forall (p : event -> bool) l,
            (forall e, is_prelude e = true -> p e = false) ->
            forallb is_prelude l = true -> count p l = 0).
  { intros p l. apply prelude_count_zero. }
  assert (Hp_read : forall e, is_prelude e = true ->
            is_bulk_read_of MCA_REG_UART_RHR e = false).
  { intros e. now apply prelude_no_data_read. }
  assert (Hp_fail : forall e, is_prelude e = true ->
            is_failed_bulk_read_of MCA_REG_UART_RHR e = false).
  { intros e He. pose proof (Hp_read e He) as H.
    destruct e; cbn in *; try reflexivity. destruct res; auto. }
  assert (Hp_fwd : forall e, is_prelude e = true -> is_forwarded e = false)
    by (intros e; destruct e; cbn; congruence).
  assert (Hp_sys : forall e, is_prelude e = true ->
                             is_sysrq_consumed e = false)
    by (intros e; destruct e; cbn; congruence).
  assert (Hp_rej : forall e, is_prelude e = true -> is_rejected e = false)
    by (intros e; destruct e; cbn; congruence).
  assert (Hp_ovr : forall e, is_prelude e = true ->
                             is_overrun_push e = false)
    by (intros e; destruct e; cbn; congruence).
  assert (Hnot_in : forall l n data,
            count (is_bulk_read_of MCA_REG_UART_RHR) l = 0 ->
            ~ In (E_regmap_bulk_read MCA_REG_UART_RHR n (Ok data)) l).
  { intros l n data Hc Hin.
    rewrite count_zero_iff in Hc. specialize (Hc _ Hin).
    cbn in Hc. rewrite Z.eqb_refl in Hc. discriminate. }
  destruct Hsh as [[Hp Ho] | [Hab | Hde]].
  - (* stopped before the data *)
    split; [| split].
    + intros n data Hin. exfalso.
      apply (Hnot_in evs n data); [now apply Hpre | exact Hin].
    + intros H2. rewrite (Hpre _ evs Hp_fail Hp) in H2. discriminate.
    + intros _. rewrite (Hpre _ evs Hp_fwd Hp), (Hpre _ evs Hp_sys Hp),
        (Hpre _ evs Hp_rej Hp). repeat split; try reflexivity. exact Ho.
  - (* the data read failed twice *)
    destruct Hab as [pre [level [e1 [e2 [He [Hp Ho]]]]]]. subst evs.
    split; [| split].
    + intros n data Hin. exfalso.
      apply in_app_or in Hin. destruct Hin as [Hin | Hin].
      * destruct Hin as [Hin | [Hin | Hin]]; try discriminate.
        apply (Hnot_in pre n data); [now apply Hpre | exact Hin].
      * cbn in Hin. intuition discriminate.
    + intros _. split; [| split].
      * unfold rx_opening, rx_abort_events. count_parts.
        rewrite (Hpre _ pre Hp_fwd Hp). reflexivity.
      * exact Ho.
      * apply in_or_app. right. cbn. tauto.
    + intros Hno. exfalso. revert Hno.
      rewrite existsb_app. cbn [rx_abort_events existsb is_bulk_read_of].
      rewrite Z.eqb_refl, orb_true_r. discriminate.
  - (* the loop ran *)
    destruct Hde as [pre [level [first [data0 [l [He [Hp [Hacc [Hfl Hbr]]]]]]]]].
    subst evs.
    assert (Hl_read : count (is_bulk_read_of MCA_REG_UART_RHR) l = 0).
    { apply (count_weaken is_bulk_read); [| exact Hbr].
      intros e; destruct e; cbn; congruence. }
    assert (Hl_fail : count (is_failed_bulk_read_of MCA_REG_UART_RHR) l = 0).
    { apply (count_weaken is_bulk_read); [| exact Hbr].
      intros e; destruct e; cbn; congruence. }
    split; [| split].
    + intros n data Hin.
      assert (Hn : n = level).
      { apply in_app_or in Hin. destruct Hin as [Hin | Hin].
        - exfalso. destruct Hin as [Hin | [Hin | Hin]]; try discriminate.
          apply (Hnot_in pre n data); [now apply Hpre | exact Hin].
        - apply in_app_or in Hin. destruct Hin as [Hin | Hin].
          + destruct first; cbn in Hin;
              intuition (try discriminate; congruence).
          + exfalso. apply in_app_or in Hin. destruct Hin as [Hin | Hin].
            * now apply (Hnot_in l n data).
            * cbn in Hin. intuition discriminate. }
      subst n. split; [reflexivity |].
      apply (rx_accounting_ext level l); [| | | | exact Hacc];
        unfold rx_opening; destruct first; cbn [rx_read_events];
        count_parts;
        rewrite ?(Hpre _ pre Hp_fwd Hp), ?(Hpre _ pre Hp_sys Hp),
          ?(Hpre _ pre Hp_rej Hp), ?(Hpre _ pre Hp_ovr Hp); lia.
    + intros H2. exfalso. revert H2.
      unfold rx_opening. destruct first; cbn [rx_read_events];
        count_parts; rewrite (Hpre _ pre Hp_fail Hp), Hl_fail; lia.
    + intros Hno. exfalso. revert Hno.
      rewrite !existsb_app.
      destruct first; cbn [rx_read_events existsb is_bulk_read_of];
        rewrite Z.eqb_refl, ?orb_true_r, ?orb_true_l; cbn [orb];
        rewrite ?orb_true_r; discriminate.
Qed.

End RxEngine.

Lemma handle_rx_flushes_after_data_read_witness :
  exists s' evs,
    mca_uart_handle_rx true
      (boot (idle_uart [] 0) (quiet_board 3 [0; 1; 4] 3)) = Done tt s' /\
    trace s' = [] ++ evs /\
    (forall reg n res,
       In (E_regmap_bulk_read reg n res) evs ->
       n <= MCA_UART_RX_FIFO_SIZE) /\
    if existsb (is_bulk_read_of MCA_REG_UART_RHR) evs
    then exists body,
           evs = body ++ [E_tty_flip_buffer_push] /\ count is_flush body = 0
    else count is_flush evs = 0.
Proof.
  apply (handle_rx_flushes_after_data_read true
           (boot (idle_uart [] 0) (quiet_board 3 [0; 1; 4] 3))).
  - vm_compute. discriminate.
  - vm_compute. split; [discriminate | reflexivity].
  - vm_compute. discriminate.
Defined.

(** C6 as stated fails on a failed level read: the engine logs and returns,
    and the sink is never flushed. *)
Lemma handle_rx_failed_level_read_no_flush :
  let s := boot (idle_uart [] 0) read_failing_board in
  let o := mca_uart_handle_rx false s in
  returned o = true /\
  trace (final o) =
    [E_log LOG_DBG "<%s>";
     E_regmap_read MCA_REG_UART_RXLVL (Err (-5));
     E_log LOG_ERR "Failed to read MCA_REG_UART_RXLVL"] /\
  ~ In E_tty_flip_buffer_push (trace (final o)).
Proof.
  cbv zeta. split; [reflexivity |]. split; [reflexivity |].
  vm_compute. intros [H | [H | [H | []]]]; discriminate H.
Qed.

Lemma handle_rx_accounting_witness :
  exists s' evs,
    mca_uart_handle_rx true
      (boot (idle_uart [] 0) (quiet_board 3 [0; 1; 4] 2)) = Done tt s' /\
    trace s' = [] ++ evs /\
    (forall reg n res,
       In (E_regmap_bulk_read reg n res) evs ->
       n <= MCA_UART_RX_FIFO_SIZE) /\
    (forall n data,
       In (E_regmap_bulk_read MCA_REG_UART_RHR n (Ok data)) evs ->
       nth 1 evs E_tty_flip_buffer_push
         = E_regmap_read MCA_REG_UART_RXLVL (Ok n) /\
       rx_accounting n evs 0 (ic_overrun (icount (port (drv s'))))) /\
    (count (is_failed_bulk_read_of MCA_REG_UART_RHR) evs = 2 ->
     count is_forwarded evs = 0 /\
     ic_overrun (icount (port (drv s'))) = 0 /\
     In (E_log LOG_ERR "Failed to read MCA_REG_UART_RHR %d") evs) /\
    (existsb (is_bulk_read_of MCA_REG_UART_RHR) evs = false ->
     count is_forwarded evs = 0 /\
     count is_sysrq_consumed evs = 0 /\
     count is_rejected evs = 0 /\
     ic_overrun (icount (port (drv s'))) = 0).
Proof.
  apply (handle_rx_accounting true
           (boot (idle_uart [] 0) (quiet_board 3 [0; 1; 4] 2))).
  - vm_compute. discriminate.
  - vm_compute. split; [discriminate | reflexivity].
  - vm_compute. discriminate.
Defined.

(** C3 as stated fails when the sink turns a byte down: of a level of 3,
    read at the first attempt, one byte is forwarded and one overrun is
    counted; the third byte is dropped without being counted. *)
Lemma handle_rx_rejected_byte_breaks_sum :
  let s := boot (idle_uart [] 0) (quiet_board 3 [7; 8; 9] 1) in
  let s' := final (mca_uart_handle_rx false s) in
  let overruns :=
    ic_overrun (icount (port (drv s')))
    - ic_overrun (icount (port (drv s))) in
  fst (regmap_read MCA_REG_UART_RXLVL (hw s)) = Ok 3 /\
  count (is_failed_bulk_read_of MCA_REG_UART_RHR) (trace s') = 0 /\
  count is_forwarded (trace s') = 1 /\
  overruns = 1 /\
  count is_forwarded (trace s') + overruns <> 3.
Proof.
  cbv zeta. repeat split; try reflexivity.
  vm_compute. discriminate.
Qed.

(** C2.  The code at the failing input: a reported level of 200, above the
    128 bytes of [rx_buf], is not treated as corrupt.  The engine logs
    nothing but its entry line, issues a bulk read of 200 bytes into the
    128-byte buffer, counts 200 received bytes and forwards 200 bytes. *)
Lemma handle_rx_level_200_bulk_reads_200 :
  let s := boot (idle_uart [] 0) (quiet_board 200 (repeat 65 200) 200) in
  let s' := final (mca_uart_handle_rx false s) in
  200 > MCA_UART_RX_FIFO_SIZE /\
  firstn 3 (trace s') =
    [E_log LOG_DBG "<%s>";
     E_regmap_read MCA_REG_UART_RXLVL (Ok 200);
     E_regmap_bulk_read MCA_REG_UART_RHR 200 (Ok (repeat 65 200))] /\
  count is_log (trace s') = 1 /\
  ic_rx (icount (port (drv s'))) = 200 /\
  count is_forwarded (trace s') = 200.
Proof.
  cbv zeta. split; [reflexivity |]. repeat split; vm_compute; reflexivity.
Qed.

(** ** The bus mutex *)

Section LockDiscipline.
Context {R : mca_registers} {K : kernel_constants}.
Context {HW : Type} {C : collaborators HW}.

Lemma keeps_ret {A : Type} (a : A) : keeps_mutex (HW := HW) (ret a).
Proof. intros s. exists a, s. split; reflexivity. Qed.

Lemma keeps_bind {A B : Type} (m : M HW A) (k : A -> M HW B) :
  keeps_mutex m -> (forall a, keeps_mutex (k a)) -> keeps_mutex (bind m k).
Proof.
  intros Hm Hk s. destruct (Hm s) as [a [s1 [E1 M1]]].
  destruct (Hk a s1) as [b [s2 [E2 M2]]].
  exists b, s2. unfold bind. rewrite E1, E2. split; congruence.
Qed.

Lemma keeps_emit (e : event) : keeps_mutex (HW := HW) (emit e).
Proof. intros s. eexists; eexists. split; reflexivity. Qed.

Lemma keeps_get_drv : keeps_mutex (HW := HW) get_drv.
Proof. intros s. eexists; eexists. split; reflexivity. Qed.

Lemma keeps_call {A : Type} (f : HW -> A * HW) : keeps_mutex (call f).
Proof.
  intros s. unfold call. destruct (f (hw s)) as [a h].
  eexists; eexists. split; reflexivity.
Qed.

Lemma keeps_modify_drv (f : mca_uart -> mca_uart) :
  (forall d, mutex (f d) = mutex d) -> keeps_mutex (HW := HW) (modify_drv f).
Proof.
  intros Hf s. eexists; eexists. split; [reflexivity |]. apply Hf.
Qed.

Lemma keeps_modify_port (f : uart_port -> uart_port) :
  keeps_mutex (HW := HW) (modify_port f).
Proof. apply keeps_modify_drv. reflexivity. Qed.

Lemma keeps_set_work (w : work_id) (b : bool) :
  keeps_mutex (HW := HW) (modify_drv (fun d => set_work w d b)).
Proof. apply keeps_modify_drv. intros d. destruct w; reflexivity. Qed.

Lemma keeps_set_pending (f : mca_uart -> Z) :
  keeps_mutex (HW := HW) (modify_drv (fun d => set_pending_work d (f d))).
Proof. apply keeps_modify_drv. reflexivity. Qed.

Create HintDb mutex.
#[local] Hint Resolve keeps_ret keeps_emit keeps_get_drv keeps_call
  keeps_modify_port keeps_set_work keeps_set_pending : mutex.

(** Walks through a computation built from the primitives. *)
Ltac keeps :=
  repeat first
    [ apply keeps_bind
    | solve [auto with mutex]
    | match goal with
      | |- forall _, _ => intro
      | |- keeps_mutex (if ?b then _ else _) => destruct b
      | |- keeps_mutex (match ?x with _ => _ end) => destruct x
      | |- keeps_mutex (let (_, _) := ?x in _) => destruct x
      end ].

Lemma keeps_schedule_if_idle (w : work_id) :
  keeps_mutex (HW := HW) (schedule_if_idle w).
Proof.
  unfold schedule_if_idle, work_pending, schedule_work. keeps.
Qed.

Lemma keeps_handle_tx : keeps_mutex (HW := HW) mca_uart_handle_tx.
Proof.
  pose proof keeps_schedule_if_idle.
  unfold mca_uart_handle_tx, tx_write_wakeup, do_regmap_read,
    do_regmap_bulk_write, modify_icount, dev_err, dev_dbg, uart_write_wakeup.
  keeps.
Qed.

Lemma keeps_rx_classify (code : Z) : keeps_mutex (HW := HW) (rx_classify code).
Proof. unfold rx_classify, modify_icount. keeps. Qed.

Lemma keeps_rx_loop (n : nat) :
  forall i has_errors rx_buf error_buf flag,
    keeps_mutex (HW := HW) (rx_loop n i has_errors rx_buf error_buf flag).
Proof.
  pose proof keeps_rx_classify.
  induction n as [| n IH]; intros; cbn [rx_loop].
  - keeps.
  - unfold do_uart_handle_sysrq_char, do_tty_insert_flip_char, dev_err,
      modify_icount.
    keeps.
Qed.

Lemma keeps_handle_rx (has_errors : bool) :
  keeps_mutex (HW := HW) (mca_uart_handle_rx has_errors).
Proof.
  pose proof keeps_rx_loop.
  unfold mca_uart_handle_rx, rx_data, do_regmap_read, do_regmap_bulk_read,
    dev_dbg, dev_warn, dev_err, modify_icount, tty_flip_buffer_push.
  keeps.
Qed.

Lemma mutex_lock_free (s : sys HW) :
  mutex (drv s) = false ->
  mutex_lock s
    = Done tt (mk_sys (set_mutex (drv s) true) (hw s)
                 (trace s ++ [E_mutex_lock])).
Proof. intros H. unfold mutex_lock. rewrite H. reflexivity. Qed.

Lemma mutex_lock_held (s : sys HW) :
  mutex (drv s) = true -> mutex_lock s = Blocked s.
Proof. intros H. unfold mutex_lock. rewrite H. reflexivity. Qed.

(** The paths that do release: a TX engine run, *)
Lemma tx_work_proc_releases (s : sys HW) :
  releases_mutex mca_uart_tx_work_proc s.
Proof.
  intros Hfree. unfold mca_uart_tx_work_proc. run_monad.
  rewrite mutex_lock_free by exact Hfree.
  match goal with
  | |- context [mca_uart_handle_tx ?s0] =>
      destruct (keeps_handle_tx s0) as [[] [s1 [E1 M1]]]
  end.
  rewrite E1. eexists; eexists. split; reflexivity.
Qed.

(** a worker run that finds work, *)
Lemma delayed_work_proc_releases (s : sys HW) :
  pending_work (drv s) <> 0 ->
  releases_mutex mca_uart_delayed_work_proc s.
Proof.
  intros Hp Hfree. apply Z.eqb_neq in Hp.
  unfold mca_uart_delayed_work_proc. run_monad.
  rewrite mutex_lock_free by exact Hfree. msimpl.
  cbn [pending_work set_mutex]. rewrite Hp.
  repeat match goal with
         | |- context [let (_, _) := ?x in _] => destruct x; msimpl
         | |- context [if ?b then _ else _] => destruct b; msimpl
         end;
    eexists; eexists; split; reflexivity.
Qed.

(** and an interrupt whose status read succeeds. *)
Lemma irq_handler_releases (s : sys HW) (iir : Z) (h : HW) :
  regmap_read MCA_REG_UART_IIR (hw s) = (Ok iir, h) ->
  releases_mutex mca_uart_irq_handler s.
Proof.
  intros Hread Hfree.
  unfold mca_uart_irq_handler. run_monad.
  rewrite mutex_lock_free by exact Hfree. msimpl.
  rewrite Hread. msimpl.
  assert (Hrx : keeps_mutex (HW := HW)
                  (if tst (u32 iir) MCA_REG_UART_IIR_RHR
                   then mca_uart_handle_rx (tst (u32 iir) MCA_REG_UART_IIR_RLSE)
                   else fun s0 => Done tt s0)).
  { destruct (tst _ _); [apply keeps_handle_rx | apply keeps_ret]. }
  match goal with
  | |- context [(if tst _ MCA_REG_UART_IIR_RHR then _ else _) ?s0] =>
      destruct (Hrx s0) as [[] [s1 [E1 M1]]]
  end.
  rewrite E1.
  destruct (tst (u32 iir) MCA_REG_UART_IIR_THR); msimpl.
  - destruct (tx_work (drv s1)); eexists; eexists; split; reflexivity.
  - eexists; eexists; split; reflexivity.
Qed.

(** C1.  The code at the failing inputs.  Entered with the mutex free, a
    deferred worker run that finds no pending bits returns with the mutex
    still held, and so does an interrupt whose status read fails (it
    answers IRQ_HANDLED); neither logged a release, and the next worker
    run or TX engine run then blocks on the mutex for ever. *)
Theorem early_returns_keep_mutex_held (s : sys HW) :
  mutex (drv s) = false ->
  (pending_work (drv s) = 0 ->
   exists s',
     mca_uart_delayed_work_proc s = Done tt s' /\
     mutex (drv s') = true /\
     trace s' = trace s ++ [E_log LOG_DBG "<%s>"; E_mutex_lock] /\
     returned (mca_uart_delayed_work_proc s') = false /\
     returned (mca_uart_tx_work_proc s') = false) /\
  (forall e h,
     regmap_read MCA_REG_UART_IIR (hw s) = (Err e, h) ->
     exists s',
       mca_uart_irq_handler s = Done IRQ_HANDLED s' /\
       mutex (drv s') = true /\
       trace s' =
         trace s ++ [E_log LOG_DBG "<%s>"; E_mutex_lock;
                     E_regmap_read MCA_REG_UART_IIR (Err e);
                     E_log LOG_ERR "Failed to read MCA_REG_UART_IIR"] /\
       returned (mca_uart_delayed_work_proc s') = false /\
       returned (mca_uart_tx_work_proc s') = false).
Proof.
  intros Hfree.
  assert (Hblock : forall s' : sys HW, mutex (drv s') = true ->
            returned (mca_uart_delayed_work_proc s') = false /\
            returned (mca_uart_tx_work_proc s') = false).
  { intros s' Hheld.
    unfold mca_uart_delayed_work_proc, mca_uart_tx_work_proc. run_monad.
    rewrite mutex_lock_held by exact Hheld. split; reflexivity. }
  split.
  - intros Hp.
    exists (mk_sys (set_mutex (drv s) true) (hw s)
              ((trace s ++ [E_log LOG_DBG "<%s>"]) ++ [E_mutex_lock])).
    split.
    { unfold mca_uart_delayed_work_proc. run_monad.
      rewrite mutex_lock_free by exact Hfree. msimpl.
      cbn [pending_work set_mutex]. rewrite Hp. reflexivity. }
    cbn [drv hw trace].
    split; [reflexivity |].
    split; [rewrite <- app_assoc; reflexivity |].
    apply Hblock. reflexivity.
  - intros e h Hread.
    exists (mk_sys (set_mutex (drv s) true) h
              ((((trace s ++ [E_log LOG_DBG "<%s>"]) ++ [E_mutex_lock])
                ++ [E_regmap_read MCA_REG_UART_IIR (Err e)])
               ++ [E_log LOG_ERR "Failed to read MCA_REG_UART_IIR"])).
    split.
    { unfold mca_uart_irq_handler. run_monad.
      rewrite mutex_lock_free by exact Hfree. msimpl.
      rewrite Hread. reflexivity. }
    cbn [drv hw trace].
    split; [reflexivity |].
    split; [rewrite <- !app_assoc; reflexivity |].
    apply Hblock. reflexivity.
Qed.

End LockDiscipline.

Lemma early_returns_keep_mutex_held_witness :
  exists s',
    mca_uart_delayed_work_proc (boot (idle_uart [] 0) (quiet_board 0 [] 0))
      = Done tt s' /\
    mutex (drv s') = true /\
    trace s' = [] ++ [E_log LOG_DBG "<%s>"; E_mutex_lock] /\
    returned (mca_uart_delayed_work_proc s') = false /\
    returned (mca_uart_tx_work_proc s') = false.
Proof.
  apply (early_returns_keep_mutex_held
           (boot (idle_uart [] 0) (quiet_board 0 [] 0)));
    reflexivity.
Defined.

(** ** Deferred control worker *)

Section Worker.
Context {R : mca_registers} {K : kernel_constants}.
Context {HW : Type} {C : collaborators HW}.

Lemma tst_nonzero (p m : Z) : tst p m = true -> p <> 0.
Proof.
  unfold tst. intros H Hp. subst p. rewrite Z.land_0_l in H. discriminate.
Qed.

Lemma emitted_app (s s' : sys HW) (l : list event) :
  trace s' = trace s ++ l -> emitted s s' = l.
Proof.
  intros E. unfold emitted. rewrite E.
  rewrite skipn_app, skipn_all, Nat.sub_diag. reflexivity.
Qed.

(** A write with mask [m] and value [v] whose value has no bit inside the
    mask clears the masked bits. *)
Lemma update_bits_value_clears (old m v : Z) :
  Z.land v m = 0 -> update_bits_value old m v = Z.land old (Z.lnot m).
Proof.
  intros H. unfold update_bits_value. rewrite H. apply Z.lor_0_r.
Qed.

Lemma land_lnot_disjoint (a m : Z) :
  Z.land m a = 0 -> Z.land (Z.lnot m) a = a.
Proof.
  intros H. apply Z.bits_inj'. intros n Hn.
  rewrite Z.land_spec, Z.lnot_spec by exact Hn.
  assert (Hb : Z.testbit (Z.land m a) n = false)
    by (rewrite H; apply Z.bits_0).
  rewrite Z.land_spec in Hb.
  destruct (Z.testbit m n), (Z.testbit a n); cbn in *; congruence.
Qed.

(** C4.  The code on a worker run with stop bits pending (and no RTS
    request).  It issues one combined interrupt-mask-clear write, with the
    RX-ready and TX-ready enable bits OR'd into the mask as specified,
    and one combined CFG0 write whose mask collects the RX and TX reset
    bits; but the value of that write is CFG0_CRX | CFG0_CRX whatever is
    pending.  With stop-TX alone pending the value has no bit inside the
    mask: the write clears the TX reset bit instead of setting it and
    leaves the TX enable bit as it was, so the TX path is neither reset
    nor disabled. *)
Theorem delayed_work_stop_writes (s : sys HW) (r1 r2 : Z) (h1 h2 : HW) :
  let p := pending_work (drv s) in
  mutex (drv s) = false ->
  tst p WORK_STOP_RX || tst p WORK_STOP_TX = true ->
  tst p WORK_SET_RTS || tst p WORK_CLEAR_RTS = false ->
  regmap_update_bits MCA_REG_UART_IER (stop_ier_mask p) 0 (hw s) = (r1, h1) ->
  regmap_update_bits MCA_REG_UART_CFG0 (stop_cfg0_mask p)
    (Z.lor MCA_REG_UART_CFG0_CRX MCA_REG_UART_CFG0_CRX) h1 = (r2, h2) ->
  exists s',
    mca_uart_delayed_work_proc s = Done tt s' /\
    pending_work (drv s') = 0 /\
    filter is_update_bits (emitted s s') =
      [E_regmap_update_bits MCA_REG_UART_IER (stop_ier_mask p) 0 r1;
       E_regmap_update_bits MCA_REG_UART_CFG0 (stop_cfg0_mask p)
         MCA_REG_UART_CFG0_CRX r2] /\
    (tst p WORK_STOP_RX = false ->
     Z.land MCA_REG_UART_CFG0_CTX MCA_REG_UART_CFG0_CRX = 0 ->
     Z.land MCA_REG_UART_CFG0_CTX MCA_REG_UART_CFG0_TXEN = 0 ->
     forall old,
       let new := update_bits_value old (stop_cfg0_mask p)
                    (Z.lor MCA_REG_UART_CFG0_CRX MCA_REG_UART_CFG0_CRX) in
       Z.land new MCA_REG_UART_CFG0_CTX = 0 /\
       Z.land new MCA_REG_UART_CFG0_TXEN
         = Z.land old MCA_REG_UART_CFG0_TXEN).
Proof.
  intros p Hfree Hstop Hrts Hier Hcfg.
  assert (Hp : (p =? 0) = false).
  { apply Z.eqb_neq. apply orb_true_iff in Hstop.
    destruct Hstop as [H | H]; exact (tst_nonzero _ _ H). }
  assert (Hsem :
    tst p WORK_STOP_RX = false ->
    Z.land MCA_REG_UART_CFG0_CTX MCA_REG_UART_CFG0_CRX = 0 ->
    Z.land MCA_REG_UART_CFG0_CTX MCA_REG_UART_CFG0_TXEN = 0 ->
    forall old,
      let new := update_bits_value old (stop_cfg0_mask p)
                   (Z.lor MCA_REG_UART_CFG0_CRX MCA_REG_UART_CFG0_CRX) in
      Z.land new MCA_REG_UART_CFG0_CTX = 0 /\
      Z.land new MCA_REG_UART_CFG0_TXEN = Z.land old MCA_REG_UART_CFG0_TXEN).
  { intros Hrx Hd1 Hd2 old new. unfold new, stop_cfg0_mask.
    rewrite Hrx in *. cbn [orb] in Hstop. rewrite Hstop, Z.lor_0_l.
    rewrite update_bits_value_clears
      by (rewrite Z.lor_diag, Z.land_comm; exact Hd1).
    split.
    - rewrite <- Z.land_assoc, (Z.land_comm (Z.lnot _)), Z.land_lnot_diag.
      apply Z.land_0_r.
    - rewrite <- Z.land_assoc. f_equal. now apply land_lnot_disjoint. }
  assert (Hrun : exists s',
            mca_uart_delayed_work_proc s = Done tt s' /\
            pending_work (drv s') = 0 /\
            filter is_update_bits (emitted s s') =
              [E_regmap_update_bits MCA_REG_UART_IER (stop_ier_mask p) 0 r1;
               E_regmap_update_bits MCA_REG_UART_CFG0 (stop_cfg0_mask p)
                 MCA_REG_UART_CFG0_CRX r2]).
  { clear Hsem. revert Hier Hcfg. unfold stop_ier_mask, stop_cfg0_mask.
    intros Hier Hcfg.
    unfold mca_uart_delayed_work_proc. run_monad.
    rewrite mutex_lock_free by exact Hfree. msimpl.
    cbn [pending_work set_mutex]. fold p. rewrite Hp. msimpl.
    cbn [pending_work set_mutex]. fold p.
    destruct (tst p WORK_STOP_RX), (tst p WORK_STOP_TX);
      try discriminate Hstop;
      rewrite ?Z.lor_0_l, ?Z.lor_0_r in *;
      rewrite Hier; msimpl;
      (destruct (negb (r1 =? 0)); msimpl);
      rewrite Hcfg; msimpl;
      (destruct (negb (r2 =? 0)); msimpl);
      cbn [pending_work set_mutex]; fold p; rewrite Hrts; msimpl;
      (eexists; split; [reflexivity |]); cbn [drv hw trace];
      (split; [reflexivity |]);
      (erewrite emitted_app
         by (cbn [trace]; rewrite <- ?app_assoc; reflexivity));
      cbn; rewrite ?Z.lor_diag; reflexivity. }
  destruct Hrun as [s' [H1 [H2 H3]]].
  exists s'. split; [exact H1 |]. split; [exact H2 |].
  split; [exact H3 | exact Hsem].
Qed.

End Worker.

Lemma delayed_work_stop_writes_witness :
  exists s',
    mca_uart_delayed_work_proc
      (boot (idle_uart [] WORK_STOP_TX) (quiet_board 0 [] 0)) = Done tt s' /\
    pending_work (drv s') = 0 /\
    filter is_update_bits (trace s') =
      [E_regmap_update_bits MCA_REG_UART_IER MCA_REG_UART_IER_THR 0 0;
       E_regmap_update_bits MCA_REG_UART_CFG0 MCA_REG_UART_CFG0_CTX
         MCA_REG_UART_CFG0_CRX 0] /\
    update_bits_value (Z.lor MCA_REG_UART_CFG0_TXEN MCA_REG_UART_CFG0_CTX)
      MCA_REG_UART_CFG0_CTX
      (Z.lor MCA_REG_UART_CFG0_CRX MCA_REG_UART_CFG0_CRX)
      = MCA_REG_UART_CFG0_TXEN.
Proof.
  destruct (delayed_work_stop_writes
              (boot (idle_uart [] WORK_STOP_TX) (quiet_board 0 [] 0))
              0 0 (quiet_board 0 [] 0) (quiet_board 0 [] 0))
    as [s' [Hrun [Hp [Hw _]]]]; try reflexivity.
  exists s'. split; [exact Hrun |]. split; [exact Hp |].
  split; [exact Hw | reflexivity].
Defined.

(** ** A request set during a worker run *)

Section Race.
Context {R : mca_registers} {K : kernel_constants}.
Context {HW : Type} {C : collaborators HW}.

(** Cut at its accesses and run without interruption, the worker is the
    function of the driver. *)
Lemma worker_run_is_delayed_work_proc (s : sys HW) :
  worker_run 9 worker_entry s = mca_uart_delayed_work_proc s.
Proof.
  unfold mca_uart_delayed_work_proc, worker_entry.
  repeat first
    [ progress (cbn [worker_run worker_step w_pc w_ier_mask w_cfg0_mask
                     pending_work set_mutex set_pending_work];
                unfold mutex_lock; run_monad; msimpl)
    | match goal with
      | H : ?x = _ |- context [?x] => rewrite H
      | |- context [let (_, _) := ?x in _] => destruct x eqn:?
      | |- context [if ?b then _ else _] => destruct b eqn:?
      end ];
    reflexivity.
Qed.

(** The clear is unconditional: whatever [pending_work] holds when the
    worker gets to it, bits set since its tests included, is gone after
    it. *)
Lemma worker_clear_wipes_pending (s : sys HW) (ier cfg0 : Z) :
  exists s',
    worker_step (mk_frame W_clear ier cfg0) s
      = Done (Some (mk_frame W_unlock ier cfg0)) s' /\
    pending_work (drv s') = 0 /\ trace s' = trace s.
Proof.
  eexists. split; [reflexivity |]. split; reflexivity.
Qed.

End Race.

(** C9.  The code on the failing interleaving.  A stop-TX request that
    arrives after the worker has tested [pending_work] and before it clears
    it is recorded (the bit is set and a further run is queued), but the
    run in progress then zeroes [pending_work]; the queued run finds no
    bits and returns.  In the end nothing is pending, nothing is queued or
    running, the only interrupt-mask write ever made cleared the RX-ready
    bit alone, and no amount of further workqueue activity changes that:
    the stop-TX request is dropped. *)
Theorem stop_tx_set_during_worker_run_is_lost :
  let m0 : machine := (boot (idle_uart [] 0) (quiet_board 0 [] 0), None) in
  let m1 := run_schedule m0 schedule_until_stop_tx in
  let m2 := run_schedule m1 schedule_after_stop_tx in
  snd m1 = Some (mk_frame W_write_ier MCA_REG_UART_IER_RHR
                   MCA_REG_UART_CFG0_CRX) /\
  pending_work (drv (fst m1)) = Z.lor WORK_STOP_RX WORK_STOP_TX /\
  delayed_work (drv (fst m1)) = true /\
  snd m2 = None /\
  delayed_work (drv (fst m2)) = false /\
  pending_work (drv (fst m2)) = 0 /\
  filter is_update_bits (trace (fst m2)) =
    [E_regmap_update_bits MCA_REG_UART_IER MCA_REG_UART_IER_RHR 0 0;
     E_regmap_update_bits MCA_REG_UART_CFG0 MCA_REG_UART_CFG0_CRX
       MCA_REG_UART_CFG0_CRX 0] /\
  forall n, run_schedule m2 (repeat A_kworker n) = m2.
Proof.
  cbv zeta.
  repeat (split; [vm_compute; reflexivity |]).
  set (m2 := run_schedule _ schedule_after_stop_tx).
  assert (Hidle : machine_step m2 A_kworker = m2) by (vm_compute; reflexivity).
  induction n as [| n IH]; [reflexivity |].
  cbn [repeat]. unfold run_schedule in *. cbn [fold_left].
  rewrite Hidle. exact IH.
Qed.

(** ** Confinement of the request and receive paths *)

Section Confinement.
Context {R : mca_registers} {K : kernel_constants}.
Context {HW : Type} {C : collaborators HW}.

Lemma confined_ret {A X : Type} (P : event -> bool) (f : mca_uart -> X)
  (a : A) : confined (HW := HW) P f (ret a).
Proof.
  intros s. exists a, s, []. rewrite app_nil_r. auto.
Qed.

Lemma confined_bind {A B X : Type} (P : event -> bool) (f : mca_uart -> X)
  (m : M HW A) (k : A -> M HW B) :
  confined P f m -> (forall a, confined P f (k a)) -> confined P f (bind m k).
Proof.
  intros Hm Hk s.
  destruct (Hm s) as [a [s1 [l1 [E1 [T1 [P1 F1]]]]]].
  destruct (Hk a s1) as [b [s2 [l2 [E2 [T2 [P2 F2]]]]]].
  exists b, s2, (l1 ++ l2). unfold bind. rewrite E1, E2.
  split; [reflexivity |].
  split; [rewrite T2, T1, app_assoc; reflexivity |].
  split; [rewrite forallb_app, P1, P2; reflexivity | congruence].
Qed.

Lemma confined_emit {X : Type} (P : event -> bool) (f : mca_uart -> X)
  (e : event) : P e = true -> confined (HW := HW) P f (emit e).
Proof.
  intros He s. exists tt, (mk_sys (drv s) (hw s) (trace s ++ [e])), [e].
  cbn. rewrite He. auto.
Qed.

Lemma confined_get_drv {X : Type} (P : event -> bool) (f : mca_uart -> X) :
  confined (HW := HW) P f get_drv.
Proof.
  intros s. exists (drv s), s, []. rewrite app_nil_r. auto.
Qed.

Lemma confined_call {A X : Type} (P : event -> bool) (f : mca_uart -> X)
  (g : HW -> A * HW) : confined P f (call g).
Proof.
  intros s. unfold call. destruct (g (hw s)) as [a h].
  exists a, (mk_sys (drv s) h (trace s)), []. cbn. rewrite app_nil_r. auto.
Qed.

Lemma confined_modify_drv {X : Type} (P : event -> bool) (f : mca_uart -> X)
  (g : mca_uart -> mca_uart) :
  (forall d, f (g d) = f d) -> confined (HW := HW) P f (modify_drv g).
Proof.
  intros Hg s. exists tt, (mk_sys (g (drv s)) (hw s) (trace s)), [].
  cbn. rewrite app_nil_r. auto.
Qed.

(** Walks through a computation built from the primitives; what is left are
    the events to admit and the updates to check. *)
Ltac confine :=
  repeat first
    [ apply confined_bind
    | apply confined_ret
    | apply confined_get_drv
    | apply confined_call
    | apply confined_emit; reflexivity
    | apply confined_modify_drv; intro; reflexivity
    | assumption
    | match goal with
      | H : _ |- confined _ _ _ => solve [apply H]
      | |- forall _, _ => intro
      | |- confined _ _ (if ?b then _ else _) => destruct b
      | |- confined _ _ (match ?x with _ => _ end) => destruct x
      | |- confined _ _ (let (_, _) := ?x in _) => destruct x
      end ].

(** The counters are all of the driver instance that the receive path
    writes, and all it does outside is read the bus, log and feed the
    tty. *)
Lemma rx_classify_confined (code : Z) :
  confined (HW := HW) is_rx_event beside_icount (rx_classify code).
Proof.
  unfold rx_classify, modify_icount, modify_port. confine.
Qed.

Lemma rx_loop_confined (n : nat) :
  forall i has_errors rx_buf error_buf flag,
    confined (HW := HW) is_rx_event beside_icount
      (rx_loop n i has_errors rx_buf error_buf flag).
Proof.
  pose proof rx_classify_confined as Hc.
  induction n as [| n IH]; intros; cbn [rx_loop].
  - confine.
  - unfold do_uart_handle_sysrq_char, do_tty_insert_flip_char, dev_err,
      modify_icount, modify_port.
    confine.
Qed.

Lemma handle_rx_confined (has_errors : bool) :
  confined (HW := HW) is_rx_event beside_icount
    (mca_uart_handle_rx has_errors).
Proof.
  pose proof rx_loop_confined as Hl.
  unfold mca_uart_handle_rx, rx_data, do_regmap_read, do_regmap_bulk_read,
    dev_dbg, dev_warn, dev_err, modify_icount, modify_port,
    tty_flip_buffer_push.
  confine.
Qed.

(** One request: the bit is OR'd in, the work item is queued unless it is
    queued already, and nothing else happens. *)
Lemma do_request_spec (r : request) (s : sys HW) :
  exists s' evs,
    do_request r s = Done tt s' /\
    trace s' = trace s ++ evs /\
    forallb is_atomic_safe evs = true /\
    hw s' = hw s /\ port (drv s') = port (drv s) /\
    mutex (drv s') = mutex (drv s) /\
    pending_work (drv s') = Z.lor (pending_work (drv s)) (request_bit r) /\
    delayed_work (drv s') = delayed_work (drv s) || is_stop_request r /\
    tx_work (drv s') = tx_work (drv s) || is_start_request r /\
    count (is_schedule_of DELAYED_WORK) evs
      = (if negb (delayed_work (drv s)) && is_stop_request r then 1 else 0) /\
    count (is_schedule_of TX_WORK) evs
      = (if negb (tx_work (drv s)) && is_start_request r then 1 else 0).
Proof.
  destruct r; cbn [do_request request_bit is_stop_request is_start_request];
    unfold mca_uart_stop_tx, mca_uart_stop_rx, mca_uart_start_tx;
    run_monad; msimpl;
    cbn [delayed_work tx_work set_pending_work];
    rewrite ?Z.lor_0_r, ?orb_false_r, ?orb_true_r, ?andb_false_r,
      ?andb_true_r.
  - destruct (delayed_work (drv s)) eqn:Ed; msimpl;
      eexists; eexists; (split; [reflexivity |]); cbn [drv hw trace];
      (split; [rewrite <- ?app_assoc; reflexivity |]);
      cbn; rewrite ?Ed; repeat split; reflexivity.
  - destruct (delayed_work (drv s)) eqn:Ed; msimpl;
      eexists; eexists; (split; [reflexivity |]); cbn [drv hw trace];
      (split; [rewrite <- ?app_assoc; reflexivity |]);
      cbn; rewrite ?Ed; repeat split; reflexivity.
  - destruct (tx_work (drv s)) eqn:Et; msimpl;
      eexists; eexists; (split; [reflexivity |]); cbn [drv hw trace];
      (split; [rewrite <- ?app_assoc; reflexivity |]);
      cbn; rewrite ?Et; repeat split; try reflexivity;
      destruct (drv s); reflexivity.
Qed.

(** X1.  Requests coalesce.  A burst of stop-TX, stop-RX and start-TX
    requests with no worker run in between always returns, logs and queues
    work but never touches the bus, the mutex, the tty or the port; what it
    leaves pending is what was pending OR'd with the bits of all the
    requests, whatever their number and order; and each work item ends up
    queued when it was already or when some request asked for it, being
    submitted to the workqueue at most once. *)
Theorem requests_coalesce (l : list request) :
  forall s : sys HW,
  exists s' evs,
    do_requests l s = Done tt s' /\
    trace s' = trace s ++ evs /\
    forallb is_atomic_safe evs = true /\
    hw s' = hw s /\ port (drv s') = port (drv s) /\
    mutex (drv s') = mutex (drv s) /\
    pending_work (drv s') = Z.lor (pending_work (drv s)) (requested_bits l) /\
    delayed_work (drv s') = delayed_work (drv s) || existsb is_stop_request l /\
    tx_work (drv s') = tx_work (drv s) || existsb is_start_request l /\
    count (is_schedule_of DELAYED_WORK) evs
      = (if negb (delayed_work (drv s)) && existsb is_stop_request l
         then 1 else 0) /\
    count (is_schedule_of TX_WORK) evs
      = (if negb (tx_work (drv s)) && existsb is_start_request l
         then 1 else 0).
Proof.
  induction l as [| r l IH]; intros s.
  - exists s, []. cbn [do_requests requested_bits fold_right existsb].
    rewrite app_nil_r, Z.lor_0_r, !orb_false_r, !andb_false_r.
    repeat split; reflexivity.
  - destruct (do_request_spec r s)
      as [s1 [e1 [R1 [T1 [S1 [H1 [P1 [M1 [B1 [D1 [X1 [CD1 CT1]]]]]]]]]]]].
    destruct (IH s1)
      as [s2 [e2 [R2 [T2 [S2 [H2 [P2 [M2 [B2 [D2 [X2 [CD2 CT2]]]]]]]]]]]].
    exists s2, (e1 ++ e2).
    cbn [do_requests requested_bits fold_right existsb]. unfold bind.
    rewrite R1, R2.
    split; [reflexivity |].
    split; [rewrite T2, T1, app_assoc; reflexivity |].
    split; [rewrite forallb_app, S1, S2; reflexivity |].
    split; [congruence |]. split; [congruence |]. split; [congruence |].
    split.
    { rewrite B2, B1, <- Z.lor_assoc. reflexivity. }
    split; [rewrite D2, D1, orb_assoc; reflexivity |].
    split; [rewrite X2, X1, orb_assoc; reflexivity |].
    unfold count in *. rewrite !filter_app, !length_app, !Nat2Z.inj_add.
    rewrite CD1, CD2, CT1, CT2, D1, X1.
    split.
    + destruct (delayed_work (drv s)), (is_stop_request r),
        (existsb is_stop_request l); reflexivity.
    + destruct (tx_work (drv s)), (is_start_request r),
        (existsb is_start_request l); reflexivity.
Qed.

Lemma irq_event_not_write (l : list event) :
  forallb is_irq_event l = true -> count is_bus_write l = 0.
Proof.
  intros H. apply count_zero_iff. intros e Hin.
  rewrite forallb_forall in H. specialize (H e Hin).
  destruct e; cbn in *; congruence.
Qed.

(** X2.  Interrupt dispatch.  Entered with the mutex free, an interrupt
    whose status read succeeds (and whose RX level, when the RX-ready bit
    sends it to the RX engine, fits the 128-byte arrays) returns
    IRQ_HANDLED with the mutex released.
    It only reads the bus, logs, feeds the tty and queues work: it never
    writes a register, so transmission never runs inline.  It leaves the
    pending control bits, the worker's queue state and the transmit ring
    alone; the TX work item is queued afterwards exactly when it was before
    or the TX-ready bit is set; and with the RX-ready bit clear the port is
    untouched and the bus is not accessed again. *)
Theorem irq_handler_dispatch (s : sys HW) (iir : Z) (h : HW) :
  mutex (drv s) = false ->
  regmap_read MCA_REG_UART_IIR (hw s) = (Ok iir, h) ->
  (tst (u32 iir) MCA_REG_UART_IIR_RHR = true -> rx_level_fits h) ->
  let rx := tst (u32 iir) MCA_REG_UART_IIR_RHR in
  let tx := tst (u32 iir) MCA_REG_UART_IIR_THR in
  exists s' evs,
    mca_uart_irq_handler s = Done IRQ_HANDLED s' /\
    trace s' = trace s ++ evs /\
    forallb is_irq_event evs = true /\
    count is_bus_write evs = 0 /\
    mutex (drv s') = false /\
    pending_work (drv s') = pending_work (drv s) /\
    delayed_work (drv s') = delayed_work (drv s) /\
    xmit (port (drv s')) = xmit (port (drv s)) /\
    tx_work (drv s') = tx_work (drv s) || tx /\
    (rx = false ->
     port (drv s') = port (drv s) /\ hw s' = h /\
     evs = [E_log LOG_DBG "<%s>"; E_mutex_lock;
            E_regmap_read MCA_REG_UART_IIR (Ok (u32 iir))]
           ++ (if tx && negb (tx_work (drv s))
               then [E_schedule_work TX_WORK] else [])
           ++ [E_mutex_unlock]).
Proof.
  intros Hfree Hread _ rx tx.
  assert (Hgoal : exists s' evs,
    mca_uart_irq_handler s = Done IRQ_HANDLED s' /\
    trace s' = trace s ++ evs /\
    forallb is_irq_event evs = true /\
    mutex (drv s') = false /\
    pending_work (drv s') = pending_work (drv s) /\
    delayed_work (drv s') = delayed_work (drv s) /\
    xmit (port (drv s')) = xmit (port (drv s)) /\
    tx_work (drv s') = tx_work (drv s) || tx /\
    (rx = false ->
     port (drv s') = port (drv s) /\ hw s' = h /\
     evs = [E_log LOG_DBG "<%s>"; E_mutex_lock;
            E_regmap_read MCA_REG_UART_IIR (Ok (u32 iir))]
           ++ (if tx && negb (tx_work (drv s))
               then [E_schedule_work TX_WORK] else [])
           ++ [E_mutex_unlock])).
  { unfold mca_uart_irq_handler. run_monad.
    rewrite mutex_lock_free by exact Hfree. msimpl.
    rewrite Hread. msimpl. fold rx. fold tx.
    set (s0 := mk_sys (set_mutex (drv s) true) h
                 (((trace s ++ [E_log LOG_DBG "<%s>"]) ++ [E_mutex_lock])
                  ++ [E_regmap_read MCA_REG_UART_IIR (Ok (u32 iir))])).
    assert (Hrx : exists s1 l1,
              (if rx
               then mca_uart_handle_rx (tst (u32 iir) MCA_REG_UART_IIR_RLSE)
               else fun s2 => Done tt s2) s0 = Done tt s1 /\
              trace s1 = trace s0 ++ l1 /\
              forallb is_rx_event l1 = true /\
              beside_icount (drv s1) = beside_icount (drv s0) /\
              (rx = false -> s1 = s0 /\ l1 = [])).
    { destruct rx.
      - destruct (handle_rx_confined
                    (tst (u32 iir) MCA_REG_UART_IIR_RLSE) s0)
          as [[] [s1 [l1 [E1 [T1 [P1 F1]]]]]].
        exists s1, l1. repeat split; try assumption; discriminate.
      - exists s0, []. rewrite app_nil_r. repeat split; reflexivity. }
    destruct Hrx as [s1 [l1 [E1 [T1 [P1 [F1 Hidle]]]]]].
    rewrite E1.
    unfold beside_icount in F1. subst s0. cbn [drv hw trace] in *.
    injection F1 as Fm Fp Ft Fd Fh Fs Fw Fx Fy.
    cbn [mutex pending_work tx_work delayed_work has_rtscts port set_mutex]
      in *.
    assert (Hirq : forallb is_irq_event l1 = true).
    { rewrite forallb_forall in *. intros e Hin. specialize (P1 e Hin).
      destruct e; cbn in *; congruence. }
    assert (Hstart : forall (l2 t : list event) (d : mca_uart),
              t = trace s1 ++ l2 ++ [E_mutex_unlock] ->
              forallb is_irq_event l2 = true ->
              pending_work d = pending_work (drv s1) ->
              delayed_work d = delayed_work (drv s1) ->
              port d = port (drv s1) ->
              tx_work d = tx_work (drv s1) || tx ->
              l2 = (if tx && negb (tx_work (drv s1))
                    then [E_schedule_work TX_WORK] else []) ->
              exists s' evs,
                Done (HW := HW) IRQ_HANDLED
                  (mk_sys (set_mutex d false) (hw s1) t)
                  = Done IRQ_HANDLED s' /\
                trace s' = trace s ++ evs /\
                forallb is_irq_event evs = true /\
                mutex (drv s') = false /\
                pending_work (drv s') = pending_work (drv s) /\
                delayed_work (drv s') = delayed_work (drv s) /\
                xmit (port (drv s')) = xmit (port (drv s)) /\
                tx_work (drv s') = tx_work (drv s) || tx /\
                (rx = false ->
                 port (drv s') = port (drv s) /\ hw s' = h /\
                 evs = [E_log LOG_DBG "<%s>"; E_mutex_lock;
                        E_regmap_read MCA_REG_UART_IIR (Ok (u32 iir))]
                       ++ (if tx && negb (tx_work (drv s))
                           then [E_schedule_work TX_WORK] else [])
                       ++ [E_mutex_unlock])).
    { intros l2 t d Ht Hl2 Hp Hd Hport Htx Hsh. subst t.
      eexists; eexists. split; [reflexivity |]. cbn [drv hw trace].
      split; [rewrite T1, <- !app_assoc; reflexivity |].
      split.
      { cbn [app forallb is_irq_event is_rx_event].
        rewrite !forallb_app, Hirq, Hl2. reflexivity. }
      cbn [mutex pending_work tx_work delayed_work port set_mutex].
      split; [reflexivity |]. split; [congruence |]. split; [congruence |].
      split; [congruence |]. split; [congruence |].
      intros Hr. destruct (Hidle Hr) as [Hs Hl]. subst s1 l1.
      cbn [drv hw trace port set_mutex tx_work] in *.
      split; [exact Hport |]. split; [reflexivity |].
      rewrite Hsh. reflexivity. }
    destruct tx; msimpl.
    - destruct (tx_work (drv s1)) eqn:Et; msimpl.
      + apply (Hstart []);
          first [ reflexivity | rewrite Et; reflexivity ].
      + apply (Hstart [E_schedule_work TX_WORK]);
          first [ reflexivity
                | rewrite <- app_assoc; reflexivity
                | cbn [tx_work set_tx_work]; rewrite ?Et; reflexivity ].
    - apply (Hstart []);
        first [ reflexivity | rewrite orb_false_r; reflexivity ]. }
  destruct Hgoal as [s' [evs [H1 [H2 [H3 H4]]]]].
  exists s', evs. split; [exact H1 |]. split; [exact H2 |].
  split; [exact H3 |]. split; [now apply irq_event_not_write | exact H4].
Qed.

End Confinement.

Lemma irq_handler_dispatch_witness :
  exists s' evs,
    mca_uart_irq_handler (boot (idle_uart [] 0) (quiet_board 3 [7; 8; 9] 3))
      = Done IRQ_HANDLED s' /\
    trace s' = [] ++ evs /\
    count is_bus_write evs = 0 /\
    mutex (drv s') = false /\
    tx_work (drv s') = true.
Proof.
  destruct (irq_handler_dispatch
              (boot (idle_uart [] 0) (quiet_board 3 [7; 8; 9] 3)) 3
              (quiet_board 3 [7; 8; 9] 3))
    as [s' [evs [H1 [H2 [_ [H4 [H5 [_ [_ [_ [H9 _]]]]]]]]]]];
    [reflexivity | reflexivity | intros _; vm_compute; discriminate |].
  exists s', evs. repeat split; assumption.
Defined.

(** ** What one worker run applies *)

Section WorkerRun.
Context {R : mca_registers} {K : kernel_constants}.
Context {HW : Type} {C : collaborators HW}.

(** X3.  One worker run.  Entered with the mutex free and some bit
    pending, the worker returns with the mutex released and nothing
    pending, whatever the bus answers: a failed write is logged, once per
    failure, and not retried.  Its register updates are, in this order, the
    interrupt mask (clearing the RX-ready and TX-ready enables of the stop
    bits pending), CFG0, and - only when an RTS change is pending - the
    modem-control register, with the RTS bit set when assert is pending,
    also when deassert is pending too.  The port and the queue state of
    both work items are left alone. *)
Theorem delayed_work_applies_all (s : sys HW) :
  mutex (drv s) = false ->
  pending_work (drv s) <> 0 ->
  exists s' evs,
    mca_uart_delayed_work_proc s = Done tt s' /\
    trace s' = trace s ++ evs /\
    update_bits_calls evs = worker_calls (pending_work (drv s)) /\
    count is_bus_write evs = Z.of_nat (List.length (update_bits_calls evs)) /\
    count is_error_log evs = count is_failed_update_bits evs /\
    pending_work (drv s') = 0 /\
    mutex (drv s') = false /\
    port (drv s') = port (drv s) /\
    tx_work (drv s') = tx_work (drv s) /\
    delayed_work (drv s') = delayed_work (drv s).
Proof.
  intros Hfree Hp. apply Z.eqb_neq in Hp.
  unfold worker_calls, stop_ier_mask, stop_cfg0_mask, rts_request.
  unfold mca_uart_delayed_work_proc. run_monad.
  rewrite mutex_lock_free by exact Hfree. msimpl.
  cbn [pending_work set_mutex]. rewrite Hp. msimpl.
  cbn [pending_work set_mutex].
  repeat first
    [ progress (msimpl; cbn [pending_work set_mutex])
    | match goal with
      | H : ?x = _ |- context [?x] => rewrite H
      | |- context [let (_, _) := ?x in _] => destruct x eqn:?
      | |- context [if ?b then _ else _] => destruct b eqn:?
      end ];
    (eexists; eexists; split; [reflexivity |]); cbn [drv hw trace];
    (split; [rewrite <- ?app_assoc; reflexivity |]);
    cbn [app]; rewrite ?count_cons, ?count_nil;
    cbn [is_error_log is_failed_update_bits is_bus_write];
    repeat match goal with
           | H : negb _ = _ |- _ => rewrite ?H; clear H
           end;
    rewrite ?Z.lor_0_l, ?Z.lor_0_r;
    cbn; repeat split; reflexivity.
Qed.

End WorkerRun.

Lemma delayed_work_applies_all_witness :
  let s := boot (idle_uart [] 13) (write_failing_board 0 9600) in
  exists s' evs,
    mca_uart_delayed_work_proc s = Done tt s' /\
    trace s' = trace s ++ evs /\
    update_bits_calls evs = worker_calls (pending_work (drv s)) /\
    count is_bus_write evs = Z.of_nat (List.length (update_bits_calls evs)) /\
    count is_error_log evs = count is_failed_update_bits evs /\
    pending_work (drv s') = 0 /\
    mutex (drv s') = false /\
    port (drv s') = port (drv s) /\
    tx_work (drv s') = tx_work (drv s) /\
    delayed_work (drv s') = delayed_work (drv s).
Proof.
  intros s. apply (delayed_work_applies_all s).
  - reflexivity.
  - vm_compute. discriminate.
Defined.


(** ** Opening, closing and throttling the port *)

Section PortOps.
Context {R : mca_registers} {K : kernel_constants}.
Context {HW : Type} {C : collaborators HW}.

Lemma set_mutex_round (d : mca_uart) :
  mutex d = false -> set_mutex (set_mutex d true) false = d.
Proof. destruct d. cbn. intros ->. reflexivity. Qed.

(** X4.  Opening the port.  [mca_uart_startup] first sets the FIFO reset
    and enable bits of CFG0; if that fails it logs, returns that error and
    leaves the interrupt enables alone; otherwise it sets the three
    interrupt enables and returns the result of that write, logging a
    failure.  So it returns 0 exactly when both writes succeeded.  It takes
    no mutex and changes nothing in the driver instance. *)
Theorem startup_stops_at_first_failure (s : sys HW) (r1 r2 : Z)
  (h1 h2 : HW) :
  let cfg_mask :=
    Z.lor (Z.lor (Z.lor MCA_REG_UART_CFG0_CTX MCA_REG_UART_CFG0_CRX)
             MCA_REG_UART_CFG0_TXEN) MCA_REG_UART_CFG0_RXEN in
  let ier_mask :=
    Z.lor (Z.lor MCA_REG_UART_IER_THR MCA_REG_UART_IER_RHR)
      MCA_REG_UART_IER_RLSE in
  regmap_update_bits MCA_REG_UART_CFG0 cfg_mask cfg_mask (hw s) = (r1, h1) ->
  regmap_update_bits MCA_REG_UART_IER ier_mask ier_mask h1 = (r2, h2) ->
  exists ret s' evs,
    mca_uart_startup s = Done ret s' /\
    trace s' = trace s ++ evs /\
    drv s' = drv s /\
    ret = (if r1 =? 0 then r2 else r1) /\
    (ret = 0 <-> r1 = 0 /\ r2 = 0) /\
    update_bits_calls evs =
      (MCA_REG_UART_CFG0, cfg_mask, cfg_mask)
      :: (if r1 =? 0 then [(MCA_REG_UART_IER, ier_mask, ier_mask)] else []) /\
    count is_bus_write evs = (if r1 =? 0 then 2 else 1) /\
    count is_error_log evs = (if ret =? 0 then 0 else 1).
Proof.
  intros cfg_mask ier_mask H1 H2.
  unfold mca_uart_startup. run_monad. fold cfg_mask. rewrite H1. msimpl.
  destruct (r1 =? 0) eqn:E1; cbn [negb]; msimpl.
  - apply Z.eqb_eq in E1. fold ier_mask. rewrite H2. msimpl.
    destruct (r2 =? 0) eqn:E2; cbn [negb]; msimpl;
      eexists; eexists; eexists; (split; [reflexivity |]);
      cbn [drv hw trace];
      (split; [rewrite <- ?app_assoc; reflexivity |]);
      (split; [reflexivity |]); (split; [reflexivity |]);
      rewrite ?E2;
      (split; [split; [intros; split; congruence | intros [_ ?]; congruence]
              |]);
      cbn [app]; rewrite ?count_cons, ?count_nil;
      cbn [is_bus_write is_error_log update_bits_calls flat_map app];
      repeat split; reflexivity.
  - eexists; eexists; eexists; (split; [reflexivity |]);
      cbn [drv hw trace];
      (split; [rewrite <- ?app_assoc; reflexivity |]);
      (split; [reflexivity |]); (split; [reflexivity |]);
      rewrite ?E1;
      (split; [apply Z.eqb_neq in E1;
               split; [intros; congruence | intros [? _]; congruence] |]);
      cbn [app]; rewrite ?count_cons, ?count_nil;
      cbn [is_bus_write is_error_log update_bits_calls flat_map app];
      repeat split; reflexivity.
Qed.


(** X6.  Throttling.  Called with the mutex free, [mca_uart_throttle] and
    [mca_uart_unthrottle] make one update of the throttle bit of CFG1 (set,
    respectively cleared), log a failure, and return with the mutex free
    and the driver instance as it was, whatever the bus answers.  Called
    with the mutex held they block before any bus access. *)
Theorem throttle_is_balanced (s : sys HW) (on : bool) (r : Z) (h : HW) :
  let op : M HW unit := if on then mca_uart_throttle else mca_uart_unthrottle in
  let val := if on then MCA_REG_UART_CFG1_THROTTLE else 0 in
  regmap_update_bits MCA_REG_UART_CFG1 MCA_REG_UART_CFG1_THROTTLE val (hw s)
    = (r, h) ->
  if mutex (drv s)
  then op s = Blocked (mk_sys (drv s) (hw s)
                         (trace s ++ [E_log LOG_DBG "<%s>"]))
  else op s =
       Done tt
         (mk_sys (drv s) h
            (trace s
             ++ [E_log LOG_DBG "<%s>"; E_mutex_lock;
                 E_regmap_update_bits MCA_REG_UART_CFG1
                   MCA_REG_UART_CFG1_THROTTLE val r]
             ++ (if r =? 0 then []
                 else [E_log LOG_ERR "Failed to write MCA_REG_UART_CFG1"])
             ++ [E_mutex_unlock])).
Proof.
  intros op val Hw.
  destruct (mutex (drv s)) eqn:Hm.
  - unfold op. destruct on; unfold mca_uart_throttle, mca_uart_unthrottle;
      run_monad; rewrite mutex_lock_held by exact Hm; reflexivity.
  - unfold op, val in *.
    destruct on; unfold mca_uart_throttle, mca_uart_unthrottle;
      run_monad; rewrite mutex_lock_free by exact Hm; msimpl;
      rewrite Hw; msimpl;
      destruct (r =? 0); cbn [negb]; msimpl;
      rewrite set_mutex_round by exact Hm;
      rewrite <- ?app_assoc; reflexivity.
Qed.

End PortOps.

Lemma startup_stops_at_first_failure_witness :
  exists ret s' evs,
    mca_uart_startup (boot (idle_uart [] 0) (write_failing_board 0 9600))
      = Done ret s' /\
    trace s' = [] ++ evs /\
    ret = -5 /\
    update_bits_calls evs = [(MCA_REG_UART_CFG0, 30, 30)].
Proof.
  destruct (startup_stops_at_first_failure
              (boot (idle_uart [] 0) (write_failing_board 0 9600))
              (-5) (-5) (write_failing_board 0 9600)
              (write_failing_board 0 9600))
    as [ret [s' [evs [H1 [H2 [_ [H4 [_ [H6 _]]]]]]]]];
    [reflexivity | reflexivity |].
  exists ret, s', evs. repeat split; assumption.
Defined.


Lemma throttle_is_balanced_witness :
  mca_uart_throttle (boot (idle_uart [] 0) (quiet_board 0 [] 0))
  = Done tt
      (mk_sys (idle_uart [] 0) (quiet_board 0 [] 0)
         [E_log LOG_DBG "<%s>"; E_mutex_lock;
          E_regmap_update_bits MCA_REG_UART_CFG1 MCA_REG_UART_CFG1_THROTTLE
            MCA_REG_UART_CFG1_THROTTLE 0;
          E_mutex_unlock]).
Proof.
  apply (throttle_is_balanced (boot (idle_uart [] 0) (quiet_board 0 [] 0))
           true 0 (quiet_board 0 [] 0)).
  reflexivity.
Defined.


(** ** What the TX engine sends *)

Section TxData.
Context {R : mca_registers} {K : kernel_constants}.
Context {HW : Type} {C : collaborators HW}.

(** X7.  A TX work run on a port with nothing to do - no tty attached any
    more, an empty ring, or a stopped channel - takes the mutex and
    releases it and does nothing else: no bus access, no change to the
    driver instance, no wakeup. *)
Theorem tx_work_on_idle_port (s : sys HW) :
  mutex (drv s) = false ->
  (tty (port (drv s)) = None \/
   uart_circ_empty (xmit (port (drv s))) = true \/
   exists t, tty (port (drv s)) = Some t /\
             uart_tx_stopped t (port (drv s)) = true) ->
  mca_uart_tx_work_proc s
  = Done tt
      (mk_sys (drv s) (hw s)
         (trace s ++ [E_log LOG_DBG "<%s>"; E_mutex_lock; E_mutex_unlock])).
Proof.
  intros Hfree Hidle.
  unfold mca_uart_tx_work_proc. run_monad.
  rewrite mutex_lock_free by exact Hfree. msimpl.
  unfold mca_uart_handle_tx. run_monad.
  cbn [port set_mutex].
  assert (Hret : forall s0 : sys HW,
            drv s0 = set_mutex (drv s) true -> hw s0 = hw s ->
            trace s0 = (trace s ++ [E_log LOG_DBG "<%s>"]) ++ [E_mutex_lock] ->
            Done (HW := HW) tt
              (mk_sys (set_mutex (drv s0) false) (hw s0)
                 (trace s0 ++ [E_mutex_unlock]))
            = Done tt
                (mk_sys (drv s) (hw s)
                   (trace s ++ [E_log LOG_DBG "<%s>"; E_mutex_lock;
                                E_mutex_unlock]))).
  { intros s0 Hd Hh Ht. rewrite Hd, Hh, Ht.
    rewrite set_mutex_round by exact Hfree.
    rewrite <- !app_assoc. reflexivity. }
  destruct Hidle as [Hn | [He | [t [Ht Hs]]]].
  - rewrite Hn. apply Hret; reflexivity.
  - destruct (tty (port (drv s))); [| apply Hret; reflexivity].
    rewrite He. cbn [orb]. apply Hret; reflexivity.
  - rewrite Ht, Hs, orb_true_r. apply Hret; reflexivity.
Qed.

(** The staging buffer the copy loop fills is the run of the ring that
    starts at the tail. *)
Lemma circ_to_linear_data (n : nat) (x : circ_buf) :
  0 <= PAGE_SHIFT ->
  0 <= cb_tail x < UART_XMIT_SIZE ->
  fst (circ_to_linear n x) = ring_read x n.
Proof.
  intros Hk. revert x.
  induction n as [| n IH]; intros x Hx; [reflexivity |].
  cbn [circ_to_linear].
  set (x' := set_cb_tail x (Z.land (cb_tail x + 1) (UART_XMIT_SIZE - 1))).
  assert (Ht' : cb_tail x' = (cb_tail x + 1) mod UART_XMIT_SIZE).
  { unfold x'. cbn. now apply land_xmit_mask. }
  assert (Hx' : 0 <= cb_tail x' < UART_XMIT_SIZE).
  { rewrite Ht'. apply Z.mod_pos_bound. now apply xmit_size_pos. }
  specialize (IH x' Hx').
  destruct (circ_to_linear n x') as [l x'']. cbn [fst] in *.
  unfold ring_read. cbn [seq map]. f_equal.
  - rewrite Z.add_0_r, Z.mod_small by exact Hx. reflexivity.
  - rewrite IH. unfold ring_read. rewrite <- seq_shift, map_map.
    apply map_ext. intros k. rewrite Ht'.
    rewrite Zplus_mod_idemp_l.
    replace (cb_tail x + 1 + Z.of_nat k) with (cb_tail x + Z.of_nat (S k))
      by lia.
    reflexivity.
Qed.

(** X8.  What goes out.  With the port active and not stopped, [pending]
    bytes in the ring and a headroom between 1 and the staging capacity of
    128, the TX engine makes one bulk write to the transmit holding
    register, of the [n] = min(pending, headroom) bytes that sit in the
    ring from the tail on, in ring order.  A failed write is logged and
    the bytes are consumed all the same.  The tty is woken exactly when
    fewer than WAKEUP_CHARS bytes are then left in the ring. *)
Theorem handle_tx_sends_ring_bytes (s : sys HW) (t : tty_struct) (v rw : Z)
  (h h' : HW) :
  0 <= PAGE_SHIFT ->
  0 <= cb_tail (xmit (port (drv s))) < UART_XMIT_SIZE ->
  tty (port (drv s)) = Some t ->
  uart_tx_stopped t (port (drv s)) = false ->
  uart_circ_chars_pending (xmit (port (drv s))) <> 0 ->
  regmap_read MCA_REG_UART_TXLVL (hw s) = (Ok v, h) ->
  0 < u32 v <= MCA_UART_TX_FIFO_SIZE ->
  let pending := uart_circ_chars_pending (xmit (port (drv s))) in
  let n := Z.min pending (u32 v) in
  let data := ring_read (xmit (port (drv s))) (Z.to_nat n) in
  regmap_bulk_write MCA_REG_UART_THR data h = (rw, h') ->
  exists s',
    mca_uart_handle_tx s = Done tt s' /\
    trace s' =
      trace s
      ++ [E_regmap_read MCA_REG_UART_TXLVL (Ok (u32 v));
          E_regmap_bulk_write MCA_REG_UART_THR data rw]
      ++ (if rw =? 0 then []
          else [E_log LOG_ERR "Failed to write MCA_REG_UART_THR"])
      ++ (if pending - n <? WAKEUP_CHARS then [E_uart_write_wakeup] else [])
    /\
    Z.of_nat (List.length data) = n /\
    uart_circ_chars_pending (xmit (port (drv s'))) = pending - n /\
    cb_buf (xmit (port (drv s'))) = cb_buf (xmit (port (drv s))) /\
    hw s' = h'.
Proof.
  intros Hk Htail Htty Hstop Hpend Hread Hv pending n data Hwrite.
  pose proof (chars_pending_range (xmit (port (drv s))) Hk) as Hpr.
  assert (Hne := chars_pending_nonempty _ Hpend).
  apply Z.eqb_neq in Hpend.
  fold pending in Hpr, Hpend.
  unfold MCA_UART_TX_FIFO_SIZE in Hv.
  assert (Hn : 0 <= n <= pending) by (unfold n; lia).
  unfold mca_uart_handle_tx. run_monad.
  rewrite Htty, Hne, Hstop. cbn [orb]. fold pending. rewrite Hpend.
  msimpl. rewrite Hread. msimpl.
  destruct (Z.eqb_spec (u32 v) 0) as [E0 | E0]; [lia |]. msimpl.
  destruct (Z.gtb_spec (u32 v) MCA_UART_TX_FIFO_SIZE) as [E1 | E1];
    [unfold MCA_UART_TX_FIFO_SIZE in E1; lia |]. msimpl.
  assert (Hm : (if pending >? u32 v then u32 v else pending) = n).
  { unfold n. destruct (Z.gtb_spec pending (u32 v)); lia. }
  rewrite Hm.
  cbn [port set_port xmit set_icount icount set_ic_tx ic_tx].
  pose proof (circ_to_linear_spec (Z.to_nat n) (xmit (port (drv s))) Hk Htail)
    as Hloop.
  pose proof (circ_to_linear_data (Z.to_nat n) (xmit (port (drv s))) Hk Htail)
    as Hdata.
  cbv zeta in Hloop. rewrite Z2Nat.id in Hloop by lia.
  destruct (circ_to_linear (Z.to_nat n) (xmit (port (drv s))))
    as [tx_buf x'].
  cbn [fst snd] in Hloop, Hdata. destruct Hloop as [Ht [Hh [Hb Hl]]].
  fold data in Hdata. subst tx_buf.
  msimpl. rewrite Hwrite. msimpl.
  assert (Hafter : uart_circ_chars_pending x' = pending - n).
  { now apply chars_pending_after. }
  unfold tx_write_wakeup.
  destruct (rw =? 0); cbn [negb]; msimpl; run_monad;
    cbn [port set_port xmit set_xmit];
    rewrite Hafter;
    destruct (pending - n <? WAKEUP_CHARS); msimpl;
    eexists; (split; [reflexivity |]); cbn [drv hw trace];
    (split; [rewrite <- ?app_assoc; reflexivity |]);
    cbn [port set_port xmit set_xmit];
    (split; [rewrite Hl; apply Z2Nat.id; lia |]);
    repeat split; assumption || reflexivity.
Qed.

End TxData.

Lemma tx_work_on_idle_port_witness :
  mca_uart_tx_work_proc (boot (idle_uart [] 0) (quiet_board 5 [] 0))
  = Done tt
      (mk_sys (idle_uart [] 0) (quiet_board 5 [] 0)
         [E_log LOG_DBG "<%s>"; E_mutex_lock; E_mutex_unlock]).
Proof.
  apply (tx_work_on_idle_port (boot (idle_uart [] 0) (quiet_board 5 [] 0))).
  - reflexivity.
  - right. left. reflexivity.
Defined.

Lemma handle_tx_sends_ring_bytes_witness :
  exists s',
    mca_uart_handle_tx
      (boot (idle_uart [65; 66; 67; 68; 69] 0) (quiet_board 3 [] 0))
      = Done tt s' /\
    trace s' =
      [E_regmap_read MCA_REG_UART_TXLVL (Ok 3);
       E_regmap_bulk_write MCA_REG_UART_THR [65; 66; 67] 0;
       E_uart_write_wakeup].
Proof.
  destruct (handle_tx_sends_ring_bytes
              (boot (idle_uart [65; 66; 67; 68; 69] 0) (quiet_board 3 [] 0))
              (mk_tty false) 3 0 (quiet_board 3 [] 0) (quiet_board 3 [] 0))
    as [s' [H1 [H2 _]]].
  - vm_compute. discriminate.
  - vm_compute. split; [discriminate | reflexivity].
  - reflexivity.
  - reflexivity.
  - vm_compute. discriminate.
  - reflexivity.
  - vm_compute. split; [reflexivity | discriminate].
  - reflexivity.
  - exists s'. split; [exact H1 | exact H2].
Defined.


(** ** What the RX engine delivers *)

Section RxData.
Context {R : mca_registers} {K : kernel_constants}.
Context {HW : Type} {C : collaborators HW}.

(** The [switch] as a function: the classification it answers and the
    counter it raises. *)
Lemma rx_classify_is_lsr_flag (code : Z) (s : sys HW) :
  exists s',
    rx_classify code s = Done (lsr_flag code) s' /\
    trace s' = trace s /\ hw s' = hw s /\
    icount (port (drv s')) = bump (lsr_flag code) (icount (port (drv s))) /\
    beside_icount (drv s') = beside_icount (drv s).
Proof.
  unfold rx_classify, lsr_flag. run_monad.
  repeat match goal with
         | |- context [if ?b then _ else _] => destruct b
         end;
    eexists; (split; [reflexivity |]); cbn; auto.
Qed.

Lemma pushes_app (l1 l2 : list event) :
  pushes (l1 ++ l2) = pushes l1 ++ pushes l2.
Proof. unfold pushes. apply flat_map_app. Qed.

(** The loop on a tty that takes every byte, with a sysrq hook that takes
    none: every byte of the batch is offered, in order, with the
    classification of its entry in the error vector when errors are
    flagged and with the standing flag otherwise. *)
Lemma rx_loop_delivers (n : nat) :
  (forall ch h, fst (uart_handle_sysrq_char ch h) = false) ->
  (forall ch f h, fst (tty_insert_flip_char ch f h) <> 0) ->
  forall (i : Z) (has_errors : bool) (rx_buf error_buf : list Z)
         (flag : tty_flag) (s : sys HW),
    0 <= i ->
    exists s' l,
      rx_loop n i has_errors rx_buf error_buf flag s = Done tt s' /\
      trace s' = trace s ++ l /\
      pushes l = (if has_errors
                  then classified rx_buf error_buf (Z.to_nat i) n
                  else unclassified flag rx_buf (Z.to_nat i) n) /\
      icount (port (drv s'))
        = (if has_errors
           then bump_all (pushes l) (icount (port (drv s)))
           else icount (port (drv s))) /\
      beside_icount (drv s') = beside_icount (drv s) /\
      count is_rejected l = 0 /\ count is_flush l = 0 /\
      count is_bulk_read l = 0 /\ count is_log l = 0.
Proof.
  intros Hsys Hsink.
  induction n as [| n IH]; intros i he rx eb flag s Hi.
  - exists s, []. cbn [rx_loop]. unfold ret. rewrite app_nil_r.
    destruct he; repeat split; reflexivity.
  - cbn [rx_loop]. set (ch := u8 (nth (Z.to_nat i) rx 0)).
    run_monad.
    pose proof (Hsys ch (hw s)) as Hc.
    destruct (uart_handle_sysrq_char ch (hw s)) as [c h1].
    cbn [fst] in Hc. subst c. msimpl.
    set (s0 := mk_sys (drv s) h1 (trace s ++ [E_sysrq ch false])).
    assert (Hcls : exists flag' s1,
               (if he
                then rx_classify (u8 (nth (Z.to_nat i) eb 0))
                else fun s2 => Done flag s2) s0 = Done flag' s1 /\
               trace s1 = trace s0 /\ hw s1 = h1 /\
               flag' = (if he then lsr_flag (u8 (nth (Z.to_nat i) eb 0))
                        else flag) /\
               icount (port (drv s1))
                 = (if he then bump flag' (icount (port (drv s)))
                    else icount (port (drv s))) /\
               beside_icount (drv s1) = beside_icount (drv s)).
    { destruct he.
      - destruct (rx_classify_is_lsr_flag (u8 (nth (Z.to_nat i) eb 0)) s0)
          as [s1 [E1 [T1 [H1 [I1 B1]]]]].
        exists (lsr_flag (u8 (nth (Z.to_nat i) eb 0))), s1.
        repeat split; assumption.
      - exists flag, s0. repeat split; reflexivity. }
    destruct Hcls as [flag' [s1 [E1 [T1 [H1 [F1 [I1 B1]]]]]]].
    rewrite E1. msimpl. rewrite H1.
    pose proof (Hsink ch flag' h1) as Hr.
    destruct (tty_insert_flip_char ch flag' h1) as [r h2].
    cbn [fst] in Hr. apply Z.eqb_neq in Hr. rewrite Hr. msimpl.
    match goal with
    | |- context [rx_loop n _ _ _ _ _ ?s2] =>
        destruct (IH (i + 1) he rx eb flag' s2 ltac:(lia))
          as [s' [l [E2 [T2 [P2 [I2 [B2 [C1 [C2 [C3 C4]]]]]]]]]]
    end.
    cbn [drv hw trace] in *.
    exists s', (E_sysrq ch false :: E_tty_insert_flip_char ch flag' r :: l).
    split; [exact E2 |].
    split; [rewrite T2, T1; subst s0; cbn [trace];
            rewrite <- !app_assoc; reflexivity |].
    replace (Z.to_nat (i + 1)) with (S (Z.to_nat i)) in P2 by lia.
    split.
    { cbn [pushes flat_map app]. fold (pushes l). rewrite P2, F1.
      destruct he; reflexivity. }
    split.
    { rewrite I2, I1. destruct he; [| reflexivity].
      cbn [pushes flat_map app]. fold (pushes l). reflexivity. }
    split; [congruence |].
    rewrite !count_cons.
    cbn [is_rejected is_flush is_bulk_read is_log]. rewrite Hr.
    repeat split; lia.
Qed.

Lemma flag_count_cons (f : tty_flag) (p : Z * tty_flag)
  (l : list (Z * tty_flag)) :
  flag_count f (p :: l)
  = (if tty_flag_eqb (snd p) f then 1 else 0) + flag_count f l.
Proof.
  unfold flag_count. cbn [filter].
  destruct (tty_flag_eqb (snd p) f); cbn [List.length]; lia.
Qed.

(** Each error counter moves, as a 32-bit counter, by the number of bytes
    of its class; the data counters do not move. *)
Lemma bump_all_counts (l : list (Z * tty_flag)) :
  forall c : uart_icount,
    ic_rx (bump_all l c) = ic_rx c /\
    ic_tx (bump_all l c) = ic_tx c /\
    u32 (ic_frame (bump_all l c))
      = u32 (ic_frame c + flag_count TTY_FRAME l) /\
    u32 (ic_parity (bump_all l c))
      = u32 (ic_parity c + flag_count TTY_PARITY l) /\
    u32 (ic_overrun (bump_all l c))
      = u32 (ic_overrun c + flag_count TTY_OVERRUN l) /\
    u32 (ic_brk (bump_all l c))
      = u32 (ic_brk c + flag_count TTY_BREAK l).
Proof.
  induction l as [| [ch f] l IH]; intros c.
  - cbn. rewrite !Z.add_0_r. repeat split; reflexivity.
  - unfold bump_all in *. cbn [fold_left snd].
    destruct (IH (bump f c)) as [H1 [H2 [H3 [H4 [H5 H6]]]]].
    rewrite H1, H2, H3, H4, H5, H6, !flag_count_cons. cbn [snd].
    destruct f;
      cbn [bump tty_flag_eqb ic_rx ic_tx ic_frame ic_parity ic_overrun ic_brk
           set_ic_frame set_ic_parity set_ic_overrun set_ic_brk];
      rewrite ?u32_add_l3, ?u32_add_l; repeat split; f_equal; lia.
Qed.

Lemma classified_combine (rx_buf error_buf : list Z) (n : nat) :
  List.length rx_buf = n -> List.length error_buf = n ->
  classified rx_buf error_buf 0 n
  = combine (map u8 rx_buf) (map (fun e => lsr_flag (u8 e)) error_buf).
Proof.
  revert error_buf n.
  induction rx_buf as [| a rx IH]; intros eb n Hr He.
  - subst n. reflexivity.
  - destruct eb as [| b eb]; [subst n; discriminate |].
    destruct n as [| n]; [discriminate |].
    cbn [List.length] in Hr, He. injection Hr as Hr. injection He as He.
    unfold classified in *. cbn [seq map combine nth]. f_equal.
    rewrite <- seq_shift, map_map. cbn [nth]. now apply IH.
Qed.

Lemma unclassified_map (f : tty_flag) (rx_buf : list Z) (n : nat) :
  List.length rx_buf = n ->
  unclassified f rx_buf 0 n = map (fun b => (u8 b, f)) rx_buf.
Proof.
  revert n. induction rx_buf as [| a rx IH]; intros n Hr.
  - subst n. reflexivity.
  - destruct n as [| n]; [discriminate |].
    cbn [List.length] in Hr. injection Hr as Hr.
    unfold unclassified in *. cbn [seq map nth]. f_equal.
    rewrite <- seq_shift, map_map. cbn [nth]. now apply IH.
Qed.

(** From a data read that succeeds at once, on such a tty. *)
Lemma rx_data_delivers (level : Z) (has_errors : bool)
  (error_buf rx_buf : list Z) (s : sys HW) (h : HW) :
  (forall ch h, fst (uart_handle_sysrq_char ch h) = false) ->
  (forall ch f h, fst (tty_insert_flip_char ch f h) <> 0) ->
  regmap_bulk_read MCA_REG_UART_RHR level (hw s) = (Ok rx_buf, h) ->
  exists s' l,
    rx_data level has_errors error_buf s = Done tt s' /\
    trace s' =
      trace s ++ [E_regmap_bulk_read MCA_REG_UART_RHR level (Ok rx_buf)]
      ++ l ++ [E_tty_flip_buffer_push] /\
    pushes l = (if has_errors
                then classified rx_buf error_buf 0 (Z.to_nat level)
                else unclassified TTY_NORMAL rx_buf 0 (Z.to_nat level)) /\
    icount (port (drv s'))
      = (let c := set_ic_rx (icount (port (drv s)))
                    (u32 (ic_rx (icount (port (drv s))) + level)) in
         if has_errors then bump_all (pushes l) c else c) /\
    beside_icount (drv s') = beside_icount (drv s) /\
    count is_rejected l = 0 /\ count is_flush l = 0 /\
    count is_bulk_read l = 0 /\ count is_log l = 0.
Proof.
  intros Hsys Hsink Hread.
  unfold rx_data. run_monad. rewrite Hread. msimpl.
  match goal with
  | |- context [rx_loop _ _ _ _ _ _ ?s0] =>
      destruct (rx_loop_delivers (Z.to_nat level) Hsys Hsink 0 has_errors
                  rx_buf error_buf TTY_NORMAL s0 ltac:(lia))
        as [s' [l [E [T [P [I [B Cs]]]]]]]
  end.
  rewrite E. msimpl. cbn [drv hw trace] in *.
  eexists. exists l. split; [reflexivity |]. cbn [drv hw trace].
  split; [rewrite T, <- !app_assoc; reflexivity |].
  split; [exact P |].
  split; [rewrite I; destruct has_errors; reflexivity |].
  split; [exact B | exact Cs].
Qed.

(** X9.  Classified delivery.  When the interrupt flags line-status
    errors, the level read is not zero and fits the 128-byte arrays, the
    line-status read is not zero,
    and the error vector and the data are read at the first attempt, then
    on a tty that takes every byte (and with no sysrq byte) the engine
    offers the bytes of the batch in order, each with the classification of
    its own entry in the error vector, and flushes once at the end.  The
    received-byte counter grows by the level, and each error counter
    grows, as a 32-bit counter, by the number of bytes of its class. *)
Theorem handle_rx_delivers_classified (s : sys HW) (v lsr : Z)
  (error_buf rx_buf : list Z) (h1 h2 h3 h4 : HW) :
  (forall ch h, fst (uart_handle_sysrq_char ch h) = false) ->
  (forall ch f h, fst (tty_insert_flip_char ch f h) <> 0) ->
  regmap_read MCA_REG_UART_RXLVL (hw s) = (Ok v, h1) ->
  0 < u32 v <= MCA_UART_RX_FIFO_SIZE ->
  regmap_read MCA_REG_UART_LSR h1 = (Ok lsr, h2) ->
  u32 lsr <> 0 ->
  regmap_bulk_read MCA_REG_UART_RX_ERRORS (u32 v) h2 = (Ok error_buf, h3) ->
  regmap_bulk_read MCA_REG_UART_RHR (u32 v) h3 = (Ok rx_buf, h4) ->
  List.length rx_buf = Z.to_nat (u32 v) ->
  List.length error_buf = Z.to_nat (u32 v) ->
  exists s' evs,
    mca_uart_handle_rx true s = Done tt s' /\
    trace s' = trace s ++ evs /\
    pushes evs
      = combine (map u8 rx_buf) (map (fun e => lsr_flag (u8 e)) error_buf) /\
    count is_rejected evs = 0 /\
    (exists body,
       evs = body ++ [E_tty_flip_buffer_push] /\ count is_flush body = 0) /\
    let c := icount (port (drv s)) in
    let c' := icount (port (drv s')) in
    ic_rx c' = u32 (ic_rx c + u32 v) /\
    ic_tx c' = ic_tx c /\
    u32 (ic_frame c') = u32 (ic_frame c + flag_count TTY_FRAME (pushes evs)) /\
    u32 (ic_parity c')
      = u32 (ic_parity c + flag_count TTY_PARITY (pushes evs)) /\
    u32 (ic_overrun c')
      = u32 (ic_overrun c + flag_count TTY_OVERRUN (pushes evs)) /\
    u32 (ic_brk c') = u32 (ic_brk c + flag_count TTY_BREAK (pushes evs)).
Proof.
  intros Hsys Hsink Hlvl Hfit Hlsr Hl Herr Hdata Hlen_rx Hlen_eb.
  assert (Hv : u32 v <> 0) by lia.
  apply Z.eqb_neq in Hv. apply Z.eqb_neq in Hl.
  unfold mca_uart_handle_rx. run_monad.
  rewrite Hlvl. msimpl. rewrite Hv. msimpl.
  rewrite Hlsr. msimpl. rewrite Hl. cbn [negb]. msimpl.
  rewrite Herr. msimpl.
  match goal with
  | |- context [rx_data _ _ _ ?s0] =>
      destruct (rx_data_delivers (u32 v) true error_buf rx_buf s0 h4
                  Hsys Hsink Hdata)
        as [s' [l [E [T [P [I [B [C1 [C2 [C3 C4]]]]]]]]]]
  end.
  cbn [drv hw trace] in *.
  set (pre := [E_log LOG_DBG "<%s>";
               E_regmap_read MCA_REG_UART_RXLVL (Ok (u32 v));
               E_regmap_read MCA_REG_UART_LSR (Ok (u32 lsr));
               E_regmap_bulk_read MCA_REG_UART_RX_ERRORS (u32 v)
                 (Ok error_buf);
               E_regmap_bulk_read MCA_REG_UART_RHR (u32 v) (Ok rx_buf)]).
  assert (Hpl : pushes (pre ++ l ++ [E_tty_flip_buffer_push]) = pushes l).
  { rewrite !pushes_app. cbn [pre pushes flat_map app]. apply app_nil_r. }
  exists s', (pre ++ l ++ [E_tty_flip_buffer_push]).
  split; [exact E |].
  split; [rewrite T, <- !app_assoc; reflexivity |].
  split.
  { rewrite Hpl, P. now apply classified_combine. }
  split.
  { rewrite !count_app, C1. reflexivity. }
  split.
  { exists (pre ++ l). split.
    - rewrite <- app_assoc. reflexivity.
    - rewrite count_app, C2. reflexivity. }
  cbv zeta. rewrite I, Hpl.
  destruct (bump_all_counts (pushes l)
              (set_ic_rx (icount (port (drv s)))
                 (u32 (ic_rx (icount (port (drv s))) + u32 v))))
    as [H1 [H2 [H3 [H4 [H5 H6]]]]].
  rewrite H1, H2, H3, H4, H5, H6. cbn. repeat split; reflexivity.
Qed.

(** X10.  Clean delivery.  For a level that is not zero and fits the
    128-byte array: when no line-status error is flagged, or one
    is flagged but the line-status register reads zero, the error vector
    is not fetched: the only bulk read is the data read, and on a tty that
    takes every byte (and with no sysrq byte) every byte of the batch is
    offered in order as a normal byte; of the counters only the
    received-byte counter moves, by the level. *)
Theorem handle_rx_delivers_clean (s : sys HW) (has_errors : bool) (v : Z)
  (rx_buf : list Z) (h1 h2 h3 : HW) :
  (forall ch h, fst (uart_handle_sysrq_char ch h) = false) ->
  (forall ch f h, fst (tty_insert_flip_char ch f h) <> 0) ->
  regmap_read MCA_REG_UART_RXLVL (hw s) = (Ok v, h1) ->
  0 < u32 v <= MCA_UART_RX_FIFO_SIZE ->
  (has_errors = false /\ h2 = h1 \/
   has_errors = true /\
   exists lsr, regmap_read MCA_REG_UART_LSR h1 = (Ok lsr, h2) /\ u32 lsr = 0) ->
  regmap_bulk_read MCA_REG_UART_RHR (u32 v) h2 = (Ok rx_buf, h3) ->
  List.length rx_buf = Z.to_nat (u32 v) ->
  exists s' evs,
    mca_uart_handle_rx has_errors s = Done tt s' /\
    trace s' = trace s ++ evs /\
    pushes evs = map (fun b => (u8 b, TTY_NORMAL)) rx_buf /\
    count is_bulk_read evs = 1 /\
    count is_rejected evs = 0 /\
    (exists body,
       evs = body ++ [E_tty_flip_buffer_push] /\ count is_flush body = 0) /\
    icount (port (drv s'))
      = set_ic_rx (icount (port (drv s)))
          (u32 (ic_rx (icount (port (drv s))) + u32 v)).
Proof.
  intros Hsys Hsink Hlvl Hfit Hpath Hdata Hlen.
  assert (Hv : u32 v <> 0) by lia.
  apply Z.eqb_neq in Hv.
  assert (Hfin : forall (s0 : sys HW) (pre : list event),
            hw s0 = h2 -> drv s0 = drv s ->
            trace s0 = trace s ++ pre ->
            pushes pre = [] -> count is_bulk_read pre = 0 ->
            count is_rejected pre = 0 -> count is_flush pre = 0 ->
            exists s' evs,
              rx_data (u32 v) false [] s0 = Done tt s' /\
              trace s' = trace s ++ evs /\
              pushes evs = map (fun b => (u8 b, TTY_NORMAL)) rx_buf /\
              count is_bulk_read evs = 1 /\
              count is_rejected evs = 0 /\
              (exists body,
                 evs = body ++ [E_tty_flip_buffer_push] /\
                 count is_flush body = 0) /\
              icount (port (drv s'))
                = set_ic_rx (icount (port (drv s)))
                    (u32 (ic_rx (icount (port (drv s))) + u32 v))).
  { intros s0 pre Hh Hd Ht Hp Hb Hr Hf.
    rewrite <- Hh in Hdata.
    destruct (rx_data_delivers (u32 v) false [] rx_buf s0 h3
                Hsys Hsink Hdata)
      as [s' [l [E [T [P [I [B [C1 [C2 [C3 C4]]]]]]]]]].
    exists s'. eexists. split; [exact E |].
    split; [rewrite T, Ht, <- !app_assoc; reflexivity |].
    split.
    { rewrite !pushes_app, Hp, P. cbn [pushes flat_map app].
      rewrite app_nil_r. now apply unclassified_map. }
    split.
    { rewrite !count_app, Hb, C3, !count_cons, !count_nil. reflexivity. }
    split.
    { rewrite !count_app, Hr, C1, !count_cons, !count_nil. reflexivity. }
    split.
    { eexists. split.
      - rewrite !app_assoc. reflexivity.
      - rewrite !count_app, Hf, C2, !count_cons, !count_nil. reflexivity. }
    cbv zeta in I. rewrite I, Hd. reflexivity. }
  unfold mca_uart_handle_rx. run_monad.
  rewrite Hlvl. msimpl. rewrite Hv. msimpl.
  destruct Hpath as [[-> ->] | [-> [lsr [Hlsr Hz]]]]; msimpl.
  - apply (Hfin _ [E_log LOG_DBG "<%s>";
                   E_regmap_read MCA_REG_UART_RXLVL (Ok (u32 v))]);
      try reflexivity.
    cbn [trace]. rewrite <- !app_assoc. reflexivity.
  - rewrite Hlsr. msimpl. apply Z.eqb_eq in Hz. rewrite Hz. cbn [negb].
    apply (Hfin _ [E_log LOG_DBG "<%s>";
                   E_regmap_read MCA_REG_UART_RXLVL (Ok (u32 v));
                   E_regmap_read MCA_REG_UART_LSR (Ok (u32 lsr))]);
      try reflexivity.
    cbn [trace]. rewrite <- !app_assoc. reflexivity.
Qed.

End RxData.

Lemma handle_rx_delivers_classified_witness :
  exists s' evs,
    mca_uart_handle_rx (C := open_sink_collaborators) true
      (boot (idle_uart [] 0) (noisy_board 5 [1; 2; 3; 4; 5] [0; 0; 1; 0; 4]))
      = Done tt s' /\
    trace s' = [] ++ evs /\
    pushes evs =
      [(1, TTY_NORMAL); (2, TTY_NORMAL); (3, TTY_FRAME); (4, TTY_NORMAL);
       (5, TTY_OVERRUN)].
Proof.
  destruct (handle_rx_delivers_classified (C := open_sink_collaborators)
              (boot (idle_uart [] 0)
                 (noisy_board 5 [1; 2; 3; 4; 5] [0; 0; 1; 0; 4]))
              5 5 [0; 0; 1; 0; 4] [1; 2; 3; 4; 5]
              (noisy_board 5 [1; 2; 3; 4; 5] [0; 0; 1; 0; 4])
              (noisy_board 5 [1; 2; 3; 4; 5] [0; 0; 1; 0; 4])
              (noisy_board 5 [1; 2; 3; 4; 5] [0; 0; 1; 0; 4])
              (noisy_board 5 [1; 2; 3; 4; 5] [0; 0; 1; 0; 4]))
    as [s' [evs [H1 [H2 [H3 _]]]]].
  - reflexivity.
  - intros ch f h. cbn. discriminate.
  - reflexivity.
  - vm_compute. split; [reflexivity | discriminate].
  - reflexivity.
  - vm_compute. discriminate.
  - reflexivity.
  - reflexivity.
  - reflexivity.
  - reflexivity.
  - exists s', evs. split; [exact H1 |]. split; [exact H2 | exact H3].
Defined.

Lemma handle_rx_delivers_clean_witness :
  exists s' evs,
    mca_uart_handle_rx (C := open_sink_collaborators) true
      (boot (idle_uart [] 0)
         (mk_script (fun reg => if reg =? 0x704 then Ok 0 else Ok 3) 0
            (fun _ => [7; 8; 9]) 0 0 (fun _ => false) 9600))
      = Done tt s' /\
    trace s' = [] ++ evs /\
    pushes evs = [(7, TTY_NORMAL); (8, TTY_NORMAL); (9, TTY_NORMAL)] /\
    count is_bulk_read evs = 1.
Proof.
  set (b := mk_script (fun reg => if reg =? 0x704 then Ok 0 else Ok 3) 0
              (fun _ => [7; 8; 9]) 0 0 (fun _ => false) 9600).
  destruct (handle_rx_delivers_clean (C := open_sink_collaborators)
              (boot (idle_uart [] 0) b) true 3 [7; 8; 9] b b b)
    as [s' [evs [H1 [H2 [H3 [H4 _]]]]]].
  - reflexivity.
  - intros ch f h. cbn. discriminate.
  - reflexivity.
  - vm_compute. split; [reflexivity | discriminate].
  - right. split; [reflexivity |]. exists 0. split; reflexivity.
  - reflexivity.
  - reflexivity.
  - exists s', evs. repeat split; assumption.
Defined.


(** ** Line settings *)

Section Termios.
Context {R : mca_registers} {K : kernel_constants}.
Context {HW : Type} {C : collaborators HW}.

Ltac bitwise :=
  apply Z.bits_inj'; intros ?i ?Hi;
  repeat first [ rewrite Z.lor_spec | rewrite Z.land_spec
               | rewrite Z.lnot_spec by assumption | rewrite Z.bits_0 ];
  repeat match goal with
         | |- context [Z.testbit ?x ?i] => destruct (Z.testbit x i)
         end;
  reflexivity.

Lemma land_lnot_clears (a m1 m2 m3 m4 m5 : Z) :
  let r := Z.land a (Z.lnot (Z.lor (Z.lor (Z.lor (Z.lor m1 m2) m3) m4) m5)) in
  Z.land r m1 = 0 /\ Z.land r m2 = 0 /\ Z.land r m3 = 0 /\
  Z.land r m4 = 0 /\ Z.land r m5 = 0.
Proof.
  cbv zeta. repeat split; bitwise.
Qed.

Lemma mask_termios_idem (d : mca_uart) (t : ktermios) :
  mask_termios d (mask_termios d t) = mask_termios d t.
Proof.
  unfold mask_termios. cbn [c_iflag c_cflag].
  f_equal; [| destruct (has_rtscts d =? 0)]; bitwise.
Qed.

Lemma tst_false (x m : Z) : Z.land x m = 0 -> tst x m = false.
Proof.
  intros H. unfold tst. rewrite H. reflexivity.
Qed.

Lemma set_termios_returns (s : sys HW) (termios : ktermios)
  (old : option ktermios) :
  let m := mask_termios (drv s) termios in
  let cfg1 := frame_cfg1 (drv s) (c_cflag m) in
  let w := regmap_write MCA_REG_UART_CFG1 cfg1 (hw s) in
  exists s' rest,
    mca_uart_set_termios termios old s
      = Done (if fst w =? 0
              then snd (fst (uart_get_baud_rate m old MCA_UART_MIN_BAUD
                               MCA_UART_MAX_BAUD (snd w)))
              else m) s' /\
    trace s' =
      trace s
      ++ [E_log LOG_DBG "<%s>"; E_regmap_write MCA_REG_UART_CFG1 cfg1 (fst w)]
      ++ rest /\
    count is_bus_write rest = (if fst w =? 0 then 1 else 0) /\
    count is_lock rest = 0 /\
    drv s' = set_port (drv s) (flow_status (drv s) (c_cflag m) (port (drv s))).
Proof.
  cbv zeta. unfold mca_uart_set_termios. run_monad.
  destruct (regmap_write MCA_REG_UART_CFG1 _ (hw s)) as [r h1] eqn:E1.
  cbn [fst snd]. msimpl. destruct (r =? 0) eqn:Er; cbn [negb]; msimpl.
  - destruct (uart_get_baud_rate _ old _ _ h1) as [[b t2] h2].
    cbn [fst snd]. msimpl.
    destruct (baud_reg_val (u32 b)) as [v dflt].
    destruct dflt; msimpl;
      destruct (regmap_write MCA_REG_UART_BAUD v h2) as [r2 h3]; msimpl;
      destruct (r2 =? 0); cbn [negb]; msimpl;
      (do 2 eexists; split; [reflexivity |]);
      cbn [drv hw trace];
      (split; [rewrite <- !app_assoc; cbn [app]; reflexivity |]);
      repeat split; reflexivity.
  - do 2 eexists. split; [reflexivity |]. cbn [drv hw trace].
    split; [rewrite <- !app_assoc; cbn [app]; reflexivity |].
    repeat split; reflexivity.
Qed.

(** X11.  The termios of a reconfigure call.  [mca_uart_set_termios]
    always returns, whatever the bus answers.  It masks the caller's
    termios before the first bus access: in the masked termios none of
    IXON, IXOFF, IXANY, CMSPAR and CSIZE is set in [c_iflag], every bit of
    CS8 is set in [c_cflag], and a second pass of the masking would change
    nothing.  That masked termios is what the call leaves when the CFG1
    write fails, and what it hands to the serial core to negotiate the
    rate when the write succeeds (the call then leaves what the serial
    core made of it).  The call takes no mutex, writes CFG1 first, makes
    one more register write when that succeeded and none when it failed,
    and of the driver instance it changes only the port status. *)
Theorem set_termios_masks_before_the_bus (s : sys HW) (termios : ktermios)
  (old : option ktermios) :
  let m := mask_termios (drv s) termios in
  let cfg1 := frame_cfg1 (drv s) (c_cflag m) in
  let w := regmap_write MCA_REG_UART_CFG1 cfg1 (hw s) in
  exists s' rest,
    mca_uart_set_termios termios old s
      = Done (if fst w =? 0
              then snd (fst (uart_get_baud_rate m old MCA_UART_MIN_BAUD
                               MCA_UART_MAX_BAUD (snd w)))
              else m) s' /\
    Z.land (c_iflag m) IXON = 0 /\
    Z.land (c_iflag m) IXOFF = 0 /\
    Z.land (c_iflag m) IXANY = 0 /\
    Z.land (c_iflag m) CMSPAR = 0 /\
    Z.land (c_iflag m) CSIZE = 0 /\
    Z.land (c_cflag m) CS8 = CS8 /\
    mask_termios (drv s') m = m /\
    trace s' =
      trace s
      ++ [E_log LOG_DBG "<%s>"; E_regmap_write MCA_REG_UART_CFG1 cfg1 (fst w)]
      ++ rest /\
    count is_bus_write rest = (if fst w =? 0 then 1 else 0) /\
    count is_lock rest = 0 /\
    (mutex (drv s'), pending_work (drv s'), tx_work (drv s'),
     delayed_work (drv s'), has_rtscts (drv s'))
      = (mutex (drv s), pending_work (drv s), tx_work (drv s),
         delayed_work (drv s), has_rtscts (drv s)) /\
    (icount (port (drv s')), hw_stopped (port (drv s')),
     xmit (port (drv s')), tty (port (drv s')))
      = (icount (port (drv s)), hw_stopped (port (drv s)),
         xmit (port (drv s)), tty (port (drv s))).
Proof.
  cbv zeta.
  destruct (set_termios_returns s termios old)
    as [s' [rest [E [T [Cw [Cl D]]]]]].
  cbv zeta in E, T, Cw.
  exists s', rest.
  split; [exact E |].
  destruct (land_lnot_clears (c_iflag termios) IXON IXOFF IXANY CMSPAR CSIZE)
    as [B1 [B2 [B3 [B4 B5]]]].
  cbv zeta in B1, B2, B3, B4, B5.
  split; [exact B1 |]. split; [exact B2 |]. split; [exact B3 |].
  split; [exact B4 |]. split; [exact B5 |].
  split; [unfold mask_termios; cbn [c_cflag]; bitwise |].
  split.
  { replace (mask_termios (drv s')) with (mask_termios (drv s)).
    - apply mask_termios_idem.
    - rewrite D. reflexivity. }
  split; [exact T |]. split; [exact Cw |]. split; [exact Cl |].
  rewrite D. cbn [set_port mutex pending_work tx_work delayed_work has_rtscts
                    port].
  split; [reflexivity |].
  unfold flow_status.
  repeat match goal with
         | |- context [if ?b then _ else _] => destruct b
         end; reflexivity.
Qed.

(** X12.  A port without flow-control lines.  When the instance has neither
    RTS nor CTS ([has_rtscts] is zero) and CS8 shares no bit with CRTSCTS,
    a reconfigure call never turns hardware flow control on, whatever the
    caller asked for: CRTSCTS is cleared in the masked termios, the value
    written to CFG1 is made of the stop-bit and parity bits alone, and both
    automatic flow-control bits are cleared in the port status. *)
Theorem set_termios_without_flow_lines (s : sys HW) (termios : ktermios)
  (old : option ktermios) :
  has_rtscts (drv s) = 0 ->
  Z.land CS8 CRTSCTS = 0 ->
  let m := mask_termios (drv s) termios in
  exists t' s' r rest,
    mca_uart_set_termios termios old s = Done t' s' /\
    Z.land (c_cflag m) CRTSCTS = 0 /\
    trace s' =
      trace s
      ++ [E_log LOG_DBG "<%s>";
          E_regmap_write MCA_REG_UART_CFG1
            (Z.lor
               (Z.lor
                  (if tst (c_cflag m) CSTOPB
                   then MCA_REG_UART_CFG1_TWO_STOPBITS else 0)
                  (if tst (c_cflag m) PARENB
                   then MCA_REG_UART_CFG1_PARITY_EN else 0))
               (if tst (c_cflag m) PARODD
                then MCA_REG_UART_CFG1_PARITY_ODD else 0)) r]
      ++ rest /\
    status (port (drv s'))
      = Z.land (status (port (drv s)))
          (Z.lnot (Z.lor UPSTAT_AUTOCTS UPSTAT_AUTORTS)).
Proof.
  intros Hnone Hcs8. cbv zeta.
  destruct (set_termios_returns s termios old)
    as [s' [rest [E [T [_ [_ D]]]]]].
  cbv zeta in E, T.
  assert (Hc : Z.land (c_cflag (mask_termios (drv s) termios)) CRTSCTS = 0).
  { unfold mask_termios. cbn [c_cflag]. rewrite Hnone. cbn [Z.eqb].
    rewrite Z.land_lor_distr_l, Hcs8, Z.lor_0_r.
    bitwise. }
  assert (Hcfg : frame_cfg1 (drv s) (c_cflag (mask_termios (drv s) termios))
                 = Z.lor
                     (Z.lor
                        (if tst (c_cflag (mask_termios (drv s) termios))
                              CSTOPB
                         then MCA_REG_UART_CFG1_TWO_STOPBITS else 0)
                        (if tst (c_cflag (mask_termios (drv s) termios))
                              PARENB
                         then MCA_REG_UART_CFG1_PARITY_EN else 0))
                     (if tst (c_cflag (mask_termios (drv s) termios)) PARODD
                      then MCA_REG_UART_CFG1_PARITY_ODD else 0)).
  { unfold frame_cfg1. rewrite (tst_false _ _ Hc).
    repeat match goal with
           | |- context [if ?b then _ else _] => destruct b
           end; rewrite ?Z.lor_0_l, ?Z.lor_0_r; reflexivity. }
  rewrite Hcfg in T.
  do 3 eexists. exists rest.
  split; [exact E |]. split; [exact Hc |].
  split; [exact T |].
  rewrite D. cbn [set_port port]. unfold flow_status.
  rewrite (tst_false _ _ Hc). reflexivity.
Qed.

End Termios.

Lemma set_termios_without_flow_lines_witness :
  let d := mk_mca_uart (open_port []) false 0 false false 0 in
  let m := mask_termios d (mk_termios 0 (Z.lor CRTSCTS PARENB)) in
  exists t' s' r rest,
    mca_uart_set_termios (mk_termios 0 (Z.lor CRTSCTS PARENB)) None
      (boot d (quiet_board 0 [] 0)) = Done t' s' /\
    Z.land (c_cflag m) CRTSCTS = 0 /\
    trace s' =
      [] ++ [E_log LOG_DBG "<%s>";
             E_regmap_write MCA_REG_UART_CFG1
               (Z.lor
                  (Z.lor
                     (if tst (c_cflag m) CSTOPB
                      then MCA_REG_UART_CFG1_TWO_STOPBITS else 0)
                     (if tst (c_cflag m) PARENB
                      then MCA_REG_UART_CFG1_PARITY_EN else 0))
                  (if tst (c_cflag m) PARODD
                   then MCA_REG_UART_CFG1_PARITY_ODD else 0)) r]
      ++ rest /\
    status (port (drv s'))
      = Z.land 0 (Z.lnot (Z.lor UPSTAT_AUTOCTS UPSTAT_AUTORTS)).
Proof.
  intros d.
  apply (set_termios_without_flow_lines
           (boot d (quiet_board 0 [] 0))
           (mk_termios 0 (Z.lor CRTSCTS PARENB)) None).
  - reflexivity.
  - reflexivity.
Defined.


(** ** The sysfs attribute and suspend *)

Lemma strncmp_prefix (lit : string) :
  (forall c, In c (list_ascii_of_string lit) -> Ascii.nat_of_ascii c <> 0%nat) ->
  forall buf,
    (strncmp buf lit (String.length lit) =? 0) = String.prefix lit buf.
Proof.
  induction lit as [| c lit IH]; intros Hnz buf.
  - destruct buf; reflexivity.
  - cbn [String.length strncmp char_at_head string_tail String.prefix].
    assert (Hc : Ascii.nat_of_ascii c <> 0%nat) by (apply Hnz; left; reflexivity).
    destruct buf as [| b buf].
    + cbn [char_at_head String.prefix].
      destruct (Z.eqb_spec 0 (Z.of_nat (Ascii.nat_of_ascii c))) as [E | E];
        [lia |].
      cbn [negb]. destruct (0 <? Z.of_nat (Ascii.nat_of_ascii c)); reflexivity.
    + cbn [char_at_head string_tail String.prefix].
      destruct (Ascii.ascii_dec c b) as [-> | Hne].
      * rewrite Z.eqb_refl. cbn [negb].
        destruct (Z.eqb_spec (Z.of_nat (Ascii.nat_of_ascii b)) 0) as [E | E];
          [lia |].
        apply IH. intros c' Hin. apply Hnz. right. exact Hin.
      * destruct (Z.eqb_spec (Z.of_nat (Ascii.nat_of_ascii b))
                    (Z.of_nat (Ascii.nat_of_ascii c))) as [E | E].
        { exfalso. apply Hne. apply Nat2Z.inj in E.
          rewrite <- (Ascii.ascii_nat_embedding c),
                  <- (Ascii.ascii_nat_embedding b), E. reflexivity. }
        cbn [negb].
        destruct (_ <? _); reflexivity.
Qed.

Lemma strncmp_enabled (buf : string) :
  (strncmp buf "enabled" (String.length "enabled") =? 0)
    = String.prefix "enabled" buf.
Proof.
  apply strncmp_prefix. intros c Hin. cbn in Hin.
  repeat (destruct Hin as [<- | Hin]; [cbn; discriminate |]). destruct Hin.
Qed.

Lemma strncmp_disabled (buf : string) :
  (strncmp buf "disabled" (String.length "disabled") =? 0)
    = String.prefix "disabled" buf.
Proof.
  apply strncmp_prefix. intros c Hin. cbn in Hin.
  repeat (destruct Hin as [<- | Hin]; [cbn; discriminate |]). destruct Hin.
Qed.

Section PowerOptionsFacts.
Context {R : mca_registers} {P : mca_power_bits}.
Context {HW : Type} {C : collaborators HW}.

(** X13.  Writing the attribute.  [power_on_rx_store] accepts exactly the
    buffers that begin with the word enabled or with the word disabled.
    Any other buffer is refused with -EINVAL before the bus is touched and
    the flag stays as it was.  An accepted buffer sets the flag first and
    then makes one masked write of the power-on bit of CFG0; the call
    returns [count] whatever that write answers, so after a failed write
    the flag holds the new value all the same; only a negative answer is
    logged. *)
Theorem power_on_rx_store_outcomes (s : sys HW) (flag : bool) (buf : string)
  (count r : Z) (h : HW) :
  let want := String.prefix "enabled" buf in
  let value := if want then MCA_REG_UART_CFG0_PWR_ON else 0 in
  regmap_update_bits MCA_REG_UART_CFG0 MCA_REG_UART_CFG0_PWR_ON value (hw s)
    = (r, h) ->
  exists ret' flag' s',
    power_on_rx_store flag buf count s = Done (ret', flag') s' /\
    drv s' = drv s /\
    if String.prefix "enabled" buf || String.prefix "disabled" buf then
      ret' = count /\ flag' = want /\
      hw s' = h /\
      trace s' =
        trace s
        ++ [E_log LOG_DBG "<%s>";
            E_regmap_update_bits MCA_REG_UART_CFG0 MCA_REG_UART_CFG0_PWR_ON
              value r]
        ++ (if r <? 0
            then [E_log LOG_ERR "Failed to write MCA_REG_UART_CFG0"]
            else [])
    else
      ret' = - EINVAL /\ flag' = flag /\
      hw s' = hw s /\
      trace s' = trace s ++ [E_log LOG_DBG "<%s>"].
Proof.
  intros want value Hw. subst want value.
  unfold power_on_rx_store. run_monad.
  rewrite strncmp_enabled, strncmp_disabled.
  destruct (String.prefix "enabled" buf) eqn:En; cbn [orb]; msimpl.
  - rewrite Hw. msimpl.
    destruct (r <? 0); msimpl;
      (do 3 eexists; split; [reflexivity |]); cbn [drv hw trace];
      rewrite <- ?app_assoc; repeat split; reflexivity.
  - destruct (String.prefix "disabled" buf) eqn:Ed; msimpl.
    + rewrite Hw. msimpl.
      destruct (r <? 0); msimpl;
        (do 3 eexists; split; [reflexivity |]); cbn [drv hw trace];
        rewrite <- ?app_assoc; repeat split; reflexivity.
    + do 3 eexists. split; [reflexivity |]. cbn [drv hw trace].
      repeat split; reflexivity.
Qed.

(** X14.  Reading the attribute back.  What [power_on_rx_show] prints is a
    text that [power_on_rx_store] accepts, and storing it sets the flag to
    the one that was shown, whatever the flag was in between and whatever
    the bus answers; the length [power_on_rx_show] returns is the length of
    its text, which is what the store returns. *)
Theorem power_on_rx_show_store_round_trip (s : sys HW) (flag other : bool) :
  exists text n s1 s2,
    power_on_rx_show flag s = Done (text, n) s1 /\
    n = Z.of_nat (String.length text) /\
    drv s1 = drv s /\ hw s1 = hw s /\
    trace s1 = trace s ++ [E_log LOG_DBG "<%s>"] /\
    power_on_rx_store other text n s1 = Done (n, flag) s2.
Proof.
  destruct (regmap_update_bits MCA_REG_UART_CFG0 MCA_REG_UART_CFG0_PWR_ON
              (if flag then MCA_REG_UART_CFG0_PWR_ON else 0) (hw s))
    as [r h] eqn:Hw.
  unfold power_on_rx_show, power_on_rx_store. run_monad.
  destruct flag; destruct (r <? 0) eqn:Er;
    do 2 eexists;
    exists (mk_sys (drv s) (hw s) (trace s ++ [E_log LOG_DBG "<%s>"]));
    eexists;
    (split; [reflexivity |]); (split; [reflexivity |]);
    (split; [reflexivity |]); (split; [reflexivity |]);
    (split; [reflexivity |]);
    rewrite strncmp_enabled, strncmp_disabled;
    repeat match goal with
           | |- context [String.prefix ?a ?b] =>
               let v := eval vm_compute in (String.prefix a b) in
               change (String.prefix a b) with v
           end;
    msimpl; rewrite Hw; msimpl; rewrite Er; reflexivity.
Qed.

(** X15.  Suspend.  [mca_cc6ul_uart_suspend] makes one masked write of the
    wake-up bit of CFG0 and returns 0 whatever the write answers (a
    negative answer is only logged).  The bit is set only if some child
    device carries the device number of the port's tty and may wake the
    system up; it is cleared when no child carries that number. *)
Theorem suspend_always_succeeds (s : sys HW) (m : uart_match)
  (children : list device) :
  exists value r s',
    mca_cc6ul_uart_suspend m children s = Done 0 s' /\
    drv s' = drv s /\
    trace s' =
      trace s
      ++ [E_regmap_update_bits MCA_REG_UART_CFG0 MCA_REG_UART_CFG0_WAKEUP
            value r]
      ++ (if r <? 0
          then [E_log LOG_ERR "Failed to write MCA_REG_UART_CFG0"]
          else []) /\
    (value = 0 \/ value = MCA_REG_UART_CFG0_WAKEUP) /\
    (value <> 0 ->
     exists dev, In dev children /\ may_wakeup dev = true /\
       devt dev = u32 (MKDEV (um_major m) (um_minor_start m) + um_line m)) /\
    ((forall dev, In dev children ->
        devt dev <> u32 (MKDEV (um_major m) (um_minor_start m) + um_line m)) ->
     value = 0).
Proof.
  unfold mca_cc6ul_uart_suspend. run_monad.
  destruct (device_find_child children m serial_match_port) as [dev |] eqn:Ef.
  - apply find_some in Ef. destruct Ef as [Hin Hm].
    unfold serial_match_port in Hm.
    destruct (Z.eqb_spec (devt dev)
                (u32 (MKDEV (um_major m) (um_minor_start m) + um_line m)))
      as [Hd | Hd]; [| discriminate].
    destruct (may_wakeup dev) eqn:Ew.
    + destruct (regmap_update_bits _ _ _ (hw s)) as [r h]. msimpl.
      rewrite Z.lor_0_l.
      destruct (r <? 0) eqn:Er; msimpl;
        (do 3 eexists; split; [reflexivity |]); cbn [drv hw trace];
        (split; [reflexivity |]);
        (split; [rewrite <- ?app_assoc, ?Er, ?app_nil_r; reflexivity |]);
        (split; [right; reflexivity |]);
        (split; [intros _; exists dev; auto |]);
        intros Hall; exfalso; exact (Hall dev Hin Hd).
    + destruct (regmap_update_bits _ _ _ (hw s)) as [r h]. msimpl.
      destruct (r <? 0) eqn:Er; msimpl;
        (do 3 eexists; split; [reflexivity |]); cbn [drv hw trace];
        (split; [reflexivity |]);
        (split; [rewrite <- ?app_assoc, ?Er, ?app_nil_r; reflexivity |]);
        (split; [left; reflexivity |]);
        (split; [intros Hv; exfalso; apply Hv; reflexivity |]);
        intros _; reflexivity.
  - destruct (regmap_update_bits _ _ _ (hw s)) as [r h]. msimpl.
    destruct (r <? 0) eqn:Er; msimpl;
      (do 3 eexists; split; [reflexivity |]); cbn [drv hw trace];
      (split; [reflexivity |]);
      (split; [rewrite <- ?app_assoc, ?Er, ?app_nil_r; reflexivity |]);
      (split; [left; reflexivity |]);
      (split; [intros Hv; exfalso; apply Hv; reflexivity |]);
      intros _; reflexivity.
Qed.

End PowerOptionsFacts.

Lemma power_on_rx_store_outcomes_witness :
  let s := boot (idle_uart [] 0) (write_failing_board 0 9600) in
  exists ret' flag' s',
    power_on_rx_store false "enabled" 8 s = Done (ret', flag') s' /\
    drv s' = drv s /\
    ret' = 8 /\ flag' = true /\
    hw s' = write_failing_board 0 9600 /\
    trace s' =
      [E_log LOG_DBG "<%s>";
       E_regmap_update_bits MCA_REG_UART_CFG0 MCA_REG_UART_CFG0_PWR_ON
         MCA_REG_UART_CFG0_PWR_ON (-5);
       E_log LOG_ERR "Failed to write MCA_REG_UART_CFG0"].
Proof.
  intros s.
  destruct (power_on_rx_store_outcomes s false "enabled" 8 (-5)
              (write_failing_board 0 9600))
    as [ret' [flag' [s' [H1 [H2 H3]]]]].
  - reflexivity.
  - exists ret', flag', s'. split; [exact H1 |]. split; [exact H2 |].
    exact H3.
Defined.


(** ** Probe and remove *)

Section ProbeFacts.
Context {R : mca_registers} {Q : mca_probe_constants}.
Context {HW : Type} {C : collaborators HW}.

Ltac eqb_hyps :=
  repeat match goal with
         | H : (_ =? _) = true |- _ => apply Z.eqb_eq in H
         | H : (_ =? _) = false |- _ => apply Z.eqb_neq in H
         | H : (_ <? _) = true |- _ => apply Z.ltb_lt in H
         | H : (_ <? _) = false |- _ => apply Z.ltb_ge in H
         end.

Ltac pu_simpl :=
  cbn [pu_rts_pin pu_cts_pin pu_has_rtscts pu_set_rts_pin pu_set_cts_pin
         pu_set_has_rtscts pu_set_port pu_irq pu_enable_power_on pu_line
         pu_fifosize fst snd negb andb].

Lemma rts_stage (env : probe_env) (u : probed_uart) (h : HW)
  (t : list platform_event) :
  exists u' l,
    probe_rts_pin env u h t = (u', bus_after_rts env h, t ++ l) /\
    forallb is_pin_event l = true /\
    pu_has_rtscts u'
      = (if rts_programmed env h
         then Z.lor (pu_has_rtscts u) MCA_UART_HAS_RTS
         else pu_has_rtscts u) /\
    (pu_enable_power_on u', pu_line u', pu_irq u', pu_fifosize u')
      = (pu_enable_power_on u, pu_line u, pu_irq u, pu_fifosize u).
Proof.
  unfold probe_rts_pin, bus_after_rts, rts_programmed.
  destruct (pe_rts_pin env) as [pin |].
  - pu_simpl. destruct (pe_rts_gpio env =? 0); pu_simpl.
    + destruct (regmap_write MCA_REG_UART_RTSPIN pin h) as [r h']. pu_simpl.
      destruct (r =? 0); pu_simpl;
        do 2 eexists;
        (split; [rewrite <- ?app_assoc; reflexivity |]);
        repeat split; reflexivity.
    + do 2 eexists.
      split; [rewrite <- ?app_assoc; reflexivity |].
      repeat split; reflexivity.
  - do 2 eexists. split; [reflexivity |]. repeat split; reflexivity.
Qed.

Lemma cts_stage (env : probe_env) (u : probed_uart) (h : HW)
  (t : list platform_event) :
  exists u' l,
    probe_cts_pin env u h t
      = (u',
         match pe_cts_pin env with
         | Some pin =>
             if pe_cts_gpio env =? 0
             then snd (regmap_write MCA_REG_UART_CTSPIN pin h)
             else h
         | None => h
         end, t ++ l) /\
    forallb is_pin_event l = true /\
    pu_has_rtscts u'
      = (if cts_programmed env h
         then Z.lor (pu_has_rtscts u) MCA_UART_HAS_CTS
         else pu_has_rtscts u) /\
    (pu_enable_power_on u', pu_line u', pu_irq u', pu_fifosize u')
      = (pu_enable_power_on u, pu_line u, pu_irq u, pu_fifosize u).
Proof.
  unfold probe_cts_pin, cts_programmed.
  destruct (pe_cts_pin env) as [pin |].
  - pu_simpl. destruct (pe_cts_gpio env =? 0); pu_simpl.
    + destruct (regmap_write MCA_REG_UART_CTSPIN pin h) as [r h']. pu_simpl.
      destruct (r =? 0); pu_simpl;
        do 2 eexists;
        (split; [rewrite <- ?app_assoc; reflexivity |]);
        repeat split; reflexivity.
    + do 2 eexists.
      split; [rewrite <- ?app_assoc; reflexivity |].
      repeat split; reflexivity.
  - do 2 eexists. split; [reflexivity |]. repeat split; reflexivity.
Qed.

(** The two pin stages together. *)
Lemma pin_stages (env : probe_env) (u : probed_uart) (h : HW)
  (t : list platform_event) (A : Type)
  (k : probed_uart -> HW -> list platform_event -> A) :
  exists u' l,
    (let '(u1, h1, t1) := probe_rts_pin env u h t in
     let '(u2, h2, t2) := probe_cts_pin env u1 h1 t1 in
     k u2 h2 t2) = k u' (bus_after_pins env h) (t ++ l) /\
    forallb is_pin_event l = true /\
    pu_has_rtscts u'
      = (let v := if rts_programmed env h
                  then Z.lor (pu_has_rtscts u) MCA_UART_HAS_RTS
                  else pu_has_rtscts u in
         if cts_programmed env (bus_after_rts env h)
         then Z.lor v MCA_UART_HAS_CTS else v) /\
    (pu_enable_power_on u', pu_line u', pu_irq u', pu_fifosize u')
      = (pu_enable_power_on u, pu_line u, pu_irq u, pu_fifosize u).
Proof.
  destruct (rts_stage env u h t) as [u1 [l1 [E1 [P1 [V1 F1]]]]].
  destruct (cts_stage env u1 (bus_after_rts env h) (t ++ l1))
    as [u2 [l2 [E2 [P2 [V2 F2]]]]].
  exists u2, (l1 ++ l2). rewrite E1, E2.
  split; [unfold bus_after_pins; rewrite app_assoc; reflexivity |].
  split; [rewrite forallb_app, P1, P2; reflexivity |].
  split; [cbv zeta; rewrite V2, V1; reflexivity |].
  rewrite F2. exact F1.
Qed.

(** The part from the driver registration on. *)
Lemma register_stage (env : probe_env) (u : probed_uart) (h : HW)
  (t : list platform_event) :
  let res := probe_register env u h t in
  let w := regmap_write MCA_REG_UART_CFG0 MCA_REG_UART_CFG0_ENABLE h in
  if (pe_register_driver env =? 0) && (pe_add_port env =? 0)
     && (pe_request_irq env =? 0) && (fst w =? 0)
  then
    res = mk_probe_result 0 (Some (pu_set_port u 0 (pe_irq env) 128)) (snd w)
            (t ++ [P_uart_register_driver 0; P_mutex_init;
                   P_init_work TX_WORK; P_init_work DELAYED_WORK;
                   P_uart_add_one_port 0;
                   P_request_threaded_irq (pe_irq env) 0;
                   P_regmap_write MCA_REG_UART_CFG0 MCA_REG_UART_CFG0_ENABLE
                     0;
                   P_info "Registered successfully"])
  else
    pr_uart res = None /\ pr_ret res <> 0 /\
    (pr_ret res = pe_register_driver env \/
     pr_ret res = pe_add_port env \/
     pr_ret res = pe_request_irq env \/
     pr_ret res = fst w) /\
    exists l msg,
      pr_trace res
        = t ++ l ++ [P_log LOG_ERR msg] ++ skipn 3 (snd mca_uart_remove) /\
      existsb is_teardown l = false /\
      (pe_register_driver env <> 0 ->
       pr_ret res = pe_register_driver env /\ pr_hw res = h /\
       l = [P_uart_register_driver (pe_register_driver env)] /\
       msg = "Registering UART driver failed"%string).
Proof.
  cbv zeta. unfold probe_register, probe_error.
  destruct (pe_register_driver env =? 0) eqn:E1; cbn [negb andb].
  - destruct (pe_add_port env =? 0) eqn:E2; cbn [negb andb].
    + pu_simpl.
      destruct (pe_request_irq env =? 0) eqn:E3; cbn [negb andb].
      * destruct (regmap_write MCA_REG_UART_CFG0 MCA_REG_UART_CFG0_ENABLE h)
          as [r h'] eqn:E4.
        cbn [fst snd]. destruct (r =? 0) eqn:E5; cbn [negb]; eqb_hyps.
        { rewrite E1, E2, E3, E5, <- !app_assoc. reflexivity. }
        { cbn [pr_ret pr_uart pr_hw pr_trace].
          split; [reflexivity |]. split; [assumption |].
          split; [tauto |].
          exists [P_uart_register_driver (pe_register_driver env);
                  P_mutex_init; P_init_work TX_WORK; P_init_work DELAYED_WORK;
                  P_uart_add_one_port (pe_add_port env);
                  P_request_threaded_irq (pe_irq env) (pe_request_irq env);
                  P_regmap_write MCA_REG_UART_CFG0 MCA_REG_UART_CFG0_ENABLE
                    r],
                 "Failed to write MCA_REG_UART_CFG0"%string.
          split; [rewrite <- !app_assoc; reflexivity |].
          split; [reflexivity |]. intros Hne. contradiction. }
      * eqb_hyps. cbn [pr_ret pr_uart pr_hw pr_trace].
        split; [reflexivity |]. split; [assumption |].
        split; [tauto |].
        exists [P_uart_register_driver (pe_register_driver env);
                P_mutex_init; P_init_work TX_WORK; P_init_work DELAYED_WORK;
                P_uart_add_one_port (pe_add_port env);
                P_request_threaded_irq (pe_irq env) (pe_request_irq env)],
               "Failed to register IRQ"%string.
        split; [rewrite <- !app_assoc; reflexivity |].
        split; [reflexivity |]. intros Hne. contradiction.
    + eqb_hyps. cbn [pr_ret pr_uart pr_hw pr_trace].
      split; [reflexivity |]. split; [assumption |].
      split; [tauto |].
      exists [P_uart_register_driver (pe_register_driver env);
              P_mutex_init; P_init_work TX_WORK; P_init_work DELAYED_WORK;
              P_uart_add_one_port (pe_add_port env)],
             "Failed adding a port (%d)"%string.
      split; [rewrite <- !app_assoc; reflexivity |].
      split; [reflexivity |]. intros Hne. contradiction.
  - eqb_hyps. cbn [pr_ret pr_uart pr_hw pr_trace].
    split; [reflexivity |]. split; [assumption |].
    split; [tauto |].
    exists [P_uart_register_driver (pe_register_driver env)],
           "Registering UART driver failed"%string.
    split; [rewrite <- !app_assoc; reflexivity |].
    split; [reflexivity |]. intros _. repeat split; reflexivity.
Qed.

(** A probe that allocates its instance is the three later parts. *)
Lemma probe_allocated (env : probe_env) (h : HW) :
  probe_allocates env = true ->
  exists u l,
    mca_uart_probe env h
      = probe_register env u (bus_after_pins env h)
          ([P_log LOG_DBG "<%s>"; P_kzalloc true] ++ l) /\
    forallb is_pin_event l = true /\
    pu_has_rtscts u
      = Z.lor (if rts_programmed env h then MCA_UART_HAS_RTS else 0)
          (if cts_programmed env (bus_after_rts env h)
           then MCA_UART_HAS_CTS else 0) /\
    pu_enable_power_on u = false.
Proof.
  unfold probe_allocates, mca_uart_probe. intros Ha.
  destruct (pe_mca_err env); [discriminate |].
  destruct (pe_np env) as [[|] |]; try discriminate.
  apply andb_true_iff in Ha. destruct Ha as [Ha Hk].
  apply andb_true_iff in Ha. destruct Ha as [Ho Hf].
  rewrite Ho, Hk. cbn [negb].
  replace (pe_fw_version env <? MCA_UART_MIN_FW_VERSION) with false
    by (symmetry; apply Z.ltb_ge; apply Z.leb_le; exact Hf).
  destruct (pin_stages env (mk_probed_uart 0 0 0 false 0 0 0) h
              ([P_log LOG_DBG "<%s>"] ++ [P_kzalloc true]) _
              (probe_register env))
    as [u [l [E [P1 [V F]]]]].
  exists u, l. rewrite E. split; [reflexivity |]. split; [exact P1 |].
  split.
  - rewrite V. cbn [pu_has_rtscts].
    destruct (rts_programmed env h),
             (cts_programmed env (bus_after_rts env h)); reflexivity.
  - injection F as F1 _ _ _. exact F1.
Qed.

(** A probe that does not get that far. *)
Lemma probe_not_allocated (env : probe_env) (h : HW) :
  probe_allocates env = false ->
  let res := mca_uart_probe env h in
  pr_uart res = None /\ pr_hw res = h /\
  existsb is_setup (pr_trace res) = false /\
  existsb is_teardown (pr_trace res) = false /\
  (pr_ret res = 0 -> pe_mca_err env = Some 0).
Proof.
  unfold probe_allocates, mca_uart_probe. intros Ha. cbv zeta.
  destruct (pe_mca_err env) as [e |].
  - cbn. repeat split; try reflexivity. intros ->. reflexivity.
  - destruct (pe_of_node env); cbn [negb];
      [| cbn; repeat split; try reflexivity; discriminate].
    destruct (pe_np env) as [[|] |];
      try (cbn; repeat split; try reflexivity; discriminate).
    destruct (pe_fw_version env <? MCA_UART_MIN_FW_VERSION) eqn:Ef;
      [cbn; repeat split; try reflexivity; discriminate |].
    destruct (pe_kzalloc env); cbn [negb];
      [| cbn; repeat split; try reflexivity; discriminate].
    apply Z.ltb_ge in Ef. apply Z.leb_le in Ef. rewrite Ef in Ha.
    discriminate.
Qed.

Lemma probe_allocates_iff (env : probe_env) :
  probe_allocates env = true <->
  (pe_mca_err env = None /\ pe_of_node env = true /\
   pe_np env = Some true /\
   MCA_UART_MIN_FW_VERSION <= pe_fw_version env /\
   pe_kzalloc env = true).
Proof.
  unfold probe_allocates.
  destruct (pe_mca_err env); [split; [discriminate | intros [H _]; discriminate] |].
  destruct (pe_np env) as [[|] |];
    try (split; [discriminate | intros (_ & _ & H & _); discriminate]).
  rewrite !andb_true_iff, Z.leb_le. tauto.
Qed.

(** X16.  When a probe succeeds.  [mca_uart_probe] returns 0 exactly when
    the parent handle is valid, the device-tree node exists and is
    available, the firmware is recent enough, the allocation succeeds, and
    the driver registration, the port registration, the interrupt request
    and the final write that enables the UART all succeed.  Nothing about
    the RTS and CTS pins is among these conditions: a pin that cannot be
    requested or programmed does not fail the probe. *)
Theorem probe_succeeds_iff (env : probe_env) (h : HW) :
  pe_mca_err env <> Some 0 ->
  pr_ret (mca_uart_probe env h) = 0 <->
  (pe_mca_err env = None /\ pe_of_node env = true /\
   pe_np env = Some true /\
   MCA_UART_MIN_FW_VERSION <= pe_fw_version env /\
   pe_kzalloc env = true /\
   pe_register_driver env = 0 /\ pe_add_port env = 0 /\
   pe_request_irq env = 0 /\
   fst (regmap_write MCA_REG_UART_CFG0 MCA_REG_UART_CFG0_ENABLE
          (bus_after_pins env h)) = 0).
Proof.
  intros Hmca.
  destruct (probe_allocates env) eqn:Ha.
  - destruct (probe_allocated env h Ha) as [u [l [E _]]]. rewrite E.
    pose proof (proj1 (probe_allocates_iff env) Ha) as Hc.
    pose proof (register_stage env u (bus_after_pins env h)
                  ([P_log LOG_DBG "<%s>"; P_kzalloc true] ++ l)) as Hr.
    cbv zeta in Hr.
    destruct ((pe_register_driver env =? 0) && (pe_add_port env =? 0)
              && (pe_request_irq env =? 0)
              && (fst (regmap_write MCA_REG_UART_CFG0
                         MCA_REG_UART_CFG0_ENABLE (bus_after_pins env h))
                  =? 0)) eqn:Eok.
    + rewrite Hr. cbn [pr_ret].
      rewrite !andb_true_iff, !Z.eqb_eq in Eok. tauto.
    + destruct Hr as [_ [Hne _]].
      split; [intros H0; contradiction |].
      intros (_ & _ & _ & _ & _ & H1 & H2 & H3 & H4).
      rewrite H1, H2, H3, H4 in Eok. discriminate.
  - destruct (probe_not_allocated env h Ha) as [_ [_ [_ [_ H0]]]].
    split.
    + intros Hret. exfalso. apply Hmca. apply H0. exact Hret.
    + intros (H1 & H2 & H3 & H4 & H5 & _).
      assert (probe_allocates env = true)
        by (apply probe_allocates_iff; tauto).
      congruence.
Qed.



(** X19.  A failed driver registration.  When the probe has allocated its
    instance and [uart_register_driver] then fails, the probe returns that
    failure and frees the instance, after destroying a mutex it has not
    initialised, removing a port it has not added and unregistering the
    driver whose registration just failed: after the pin stages the calls
    are the failed registration, the error message and the four teardown
    calls, and nothing else; the bus is not touched again. *)
Theorem probe_register_failure (env : probe_env) (h : HW) :
  pe_mca_err env = None ->
  pe_of_node env = true ->
  pe_np env = Some true ->
  MCA_UART_MIN_FW_VERSION <= pe_fw_version env ->
  pe_kzalloc env = true ->
  pe_register_driver env <> 0 ->
  let res := mca_uart_probe env h in
  pr_ret res = pe_register_driver env /\
  pr_uart res = None /\
  pr_hw res = bus_after_pins env h /\
  exists pins,
    forallb is_pin_event pins = true /\
    pr_trace res
      = [P_log LOG_DBG "<%s>"; P_kzalloc true] ++ pins
        ++ [P_uart_register_driver (pe_register_driver env);
            P_log LOG_ERR "Registering UART driver failed";
            P_mutex_destroy; P_uart_remove_one_port;
            P_uart_unregister_driver; P_kfree].
Proof.
  intros Hmca Hof Hnp Hfw Hk Hreg. cbv zeta.
  assert (Ha : probe_allocates env = true)
    by (apply probe_allocates_iff; tauto).
  destruct (probe_allocated env h Ha) as [u0 [l [E [Pl _]]]].
  rewrite E.
  pose proof (register_stage env u0 (bus_after_pins env h)
                ([P_log LOG_DBG "<%s>"; P_kzalloc true] ++ l)) as Hr.
  cbv zeta in Hr.
  apply Z.eqb_neq in Hreg. rewrite Hreg in Hr. cbn [andb] in Hr.
  apply Z.eqb_neq in Hreg.
  destruct Hr as [Hn [_ [_ [l' [msg [Ht [_ Hfail]]]]]]].
  destruct (Hfail Hreg) as [Hret [Hh [-> ->]]].
  split; [exact Hret |]. split; [exact Hn |]. split; [exact Hh |].
  exists l. split; [exact Pl |].
  rewrite Ht, <- !app_assoc. reflexivity.
Qed.

End ProbeFacts.

Lemma probe_succeeds_iff_witness :
  pr_ret (mca_uart_probe plain_env (quiet_board 0 [] 0)) = 0.
Proof.
  apply (proj2 (probe_succeeds_iff plain_env (quiet_board 0 [] 0)
                  ltac:(discriminate))).
  repeat split; try reflexivity. vm_compute. discriminate.
Defined.


Lemma probe_register_failure_witness :
  let env :=
    mk_probe_env None true (Some true) 0x102 0 true None 0 None 0 (-16) 42 0
      0 in
  let res := mca_uart_probe env (quiet_board 0 [] 0) in
  pr_ret res = -16 /\ pr_uart res = None.
Proof.
  intros env res.
  destruct (probe_register_failure env (quiet_board 0 [] 0))
    as [H1 [H2 _]].
  - reflexivity.
  - reflexivity.
  - reflexivity.
  - vm_compute. discriminate.
  - reflexivity.
  - discriminate.
  - split; assumption.
Defined.
